(** * LoLa web agent: job runner, conversation memory, sessions and tools

    A shallow embedding of the TypeScript sources of the agent:
    - [createLLM] (agent configuration),
    - [runJob] and the line handler of [main] (CLI entry point),
    - [TelegramBotHandler] ([getOrCreateSession], [runJob], [setupHandlers]),
    - the browser tools [gotoTool], [clickTool], [rightClickTool].

    JavaScript exceptions are made explicit by the type [Outcome]; mutable
    objects ([MemoryStore], the session map, the bot) are threaded as explicit
    state; strings are sequences of 8-bit code units ([string]), so that
    [String.length] plays the role of JavaScript's [length]. *)

From Stdlib Require Import ZArith Lia Ascii String.
From stdpp Require Import base option list functions gmap strings pretty.

Local Open Scope nat_scope.

(** ** Strings *)

(** The line feed, written [\n] in the sources. *)
Definition nl : string := String "010"%char EmptyString.

(** The double quote. *)
Definition dq : string := String "034"%char EmptyString.

(** Code units that [String.prototype.trim] removes: tab, line feed,
    vertical tab, form feed, carriage return, space and no-break space. *)
Definition isWhiteSpace (c : ascii) : bool :=
  let n := nat_of_ascii c in
  ((9 <=? n) && (n <=? 13)) || (n =? 32) || (n =? 160).

(** Code units that the regular expression [.] does not match: line feed
    and carriage return (the two other line terminators, U+2028 and U+2029,
    are not code units of this alphabet). *)
Definition isLineTerminator (c : ascii) : bool :=
  let n := nat_of_ascii c in
  (n =? 10) || (n =? 13).

Fixpoint trimStart (s : string) : string :=
  match s with
  | EmptyString => EmptyString
  | String c rest => if isWhiteSpace c then trimStart rest else s
  end.

Fixpoint trimEnd (s : string) : string :=
  match s with
  | EmptyString => EmptyString
  | String c rest =>
      match trimEnd rest with
      | EmptyString => if isWhiteSpace c then EmptyString else String c EmptyString
      | kept => String c kept
      end
  end.

Definition trim (s : string) : string := trimEnd (trimStart s).

Definition startsWith (searchString s : string) : bool :=
  String.prefix searchString s.

(** [includes pattern s]: [s] has an occurrence of [pattern]; this is what
    [regexp.exec(s)] decides for a regular expression made of literal
    characters only, such as [/\/start/]. *)
Fixpoint includes (pattern s : string) : bool :=
  String.prefix pattern s ||
  match s with
  | EmptyString => false
  | String _ rest => includes pattern rest
  end.

Fixpoint dropString (n : nat) (s : string) : string :=
  match n, s with
  | S k, String _ rest => dropString k rest
  | _, _ => s
  end.

Fixpoint repeatString (n : nat) (c : ascii) : string :=
  match n with
  | 0 => EmptyString
  | S k => String c (repeatString k c)
  end.

(** ** Exceptions *)

(** A thrown JavaScript [Error]; only its [message] is ever inspected. *)
Record JsError : Type := mkError { message : string }.

(** The result of evaluating a JavaScript expression that may throw. *)
Inductive Outcome (A : Type) : Type :=
| Returned (a : A)
| Thrown (e : JsError).
Arguments Returned {A} a.
Arguments Thrown {A} e.

Definition bind {A B : Type} (c : Outcome A) (k : A -> Outcome B) : Outcome B :=
  match c with
  | Returned a => k a
  | Thrown e => Thrown e
  end.

(** ** Messages *)

(** The message classes of the chat model library: [HumanMessage],
    [AIMessage] and [ToolMessage]. *)
Inductive Role : Type := Human | AI | ToolResult.

Record Message : Type := mkMessage { role : Role; content : string }.

Definition HumanMessage (text : string) : Message := mkMessage Human text.
Definition AIMessage (text : string) : Message := mkMessage AI text.
Definition ToolMessage (text : string) : Message := mkMessage ToolResult text.

(** ** Conversation memory *)

(** [keepLast n l] is the suffix of [l] made of its last [n] elements. *)
Definition keepLast {A : Type} (n : nat) (l : list A) : list A :=
  drop (length l - n) l.

(** Modelled from the spec: the class [MemoryStore] of [memory/index.js],
    whose source is not part of the files at hand.  Section 4.1 of the
    specification gives its contract: [append] adds the turns in order at
    the tail and evicts the oldest turns first when the capacity is
    exceeded, [all] returns the ordered history, [count] its length, and
    [clear] empties it.  The method names are those used by the callers. *)
Record MemoryStore : Type := mkMemoryStore {
  capacity : nat;
  messages : list Message
}.

(** Modelled from the spec: the constructor of [MemoryStore], called as
    [new MemoryStore(50)]; a store is created empty with its capacity. *)
Definition newMemoryStore (maxMessages : nat) : MemoryStore :=
  mkMemoryStore maxMessages [].

(** Modelled from the spec: [MemoryStore.getMessages], the [all] of section
    4.1: the current ordered history. *)
Definition getMessages (m : MemoryStore) : list Message := messages m.

(** Modelled from the spec: [MemoryStore.getMessageCount], the [count] of
    section 4.1. *)
Definition getMessageCount (m : MemoryStore) : nat := length (messages m).

(** Modelled from the spec: adding one turn to the store of [MemoryStore]
    (sections 3 and 4.1): the turn goes to the tail, and when that exceeds
    the capacity the oldest turn is evicted. *)
Definition push (capacity : nat) (stored : list Message) (turn : Message)
  : list Message :=
  let all := stored ++ [turn] in
  if capacity <? length all then tail all else all.

(** Modelled from the spec: [MemoryStore.addMessages], the [append] of
    section 4.1: the turns are added in order, one after the other. *)
Definition addMessages (new : list Message) (m : MemoryStore) : MemoryStore :=
  mkMemoryStore (capacity m) (foldl (push (capacity m)) (messages m) new).

(** Modelled from the spec: [MemoryStore.clear], which empties the store. *)
Definition clear (m : MemoryStore) : MemoryStore :=
  mkMemoryStore (capacity m) [].

(** A store is well formed when it respects its capacity. *)
Definition wfStore (m : MemoryStore) : Prop :=
  length (messages m) <= capacity m.

(** The calls a job or a command makes on its collaborators, in order: the
    methods of the [MemoryStore] and [graph.invoke]. *)
Inductive Call : Type :=
| GetMessages
| Invoke (initial : list Message) (recursionLimit : nat)
| AddMessages (new : list Message)
| GetMessageCount
| Clear.

(** The turns passed to [addMessages] by a call. *)
Definition appended (c : Call) : list Message :=
  match c with
  | AddMessages new => new
  | _ => []
  end.

Definition isAppend (c : Call) : bool :=
  match c with
  | AddMessages _ => true
  | _ => false
  end.

Definition isInvoke (c : Call) : bool :=
  match c with
  | Invoke _ _ => true
  | _ => false
  end.

Definition count (p : Call -> bool) (log : list Call) : nat :=
  length (List.filter p log).

(** The full history of a session: every turn ever appended, in order. *)
Definition history (log : list Call) : list Message :=
  concat (map appended log).

(** ** The Step-Loop *)

(** A compiled agent graph: [graph.invoke(initial, { recursionLimit })]
    resolves with the resulting messages or rejects. *)
Definition Graph : Type := list Message -> nat -> Outcome (list Message).

(** One tool invocation requested by the planner: a name and arguments. *)
Record ToolCall : Type := mkToolCall { callName : string; callArgs : string }.

(** What a Think round returns: a final answer or tool requests. *)
Inductive PlannerResponse : Type :=
| FinalAnswer (text : string)
| ToolRequests (calls : list ToolCall).

(** The planner collaborator.  It is asked once per Think round, with the
    number of node executions made so far and the accumulated turns; it
    may fail. *)
Definition Planner : Type := nat -> list Message -> Outcome PlannerResponse.

(** An entry of the Tool Registry: name, input schema, handler.  A
    handler is the function given to [tool]: it resolves with a text or
    rejects. *)
Record Tool : Type := mkTool {
  toolName : string;
  toolSchema : string -> bool;
  toolHandler : string -> Outcome string
}.

Definition lookupTool (registry : list Tool) (name : string) : option Tool :=
  List.find (fun t => String.eqb (toolName t) name) registry.

Inductive Phase : Type :=
| Think
| Act (calls : list ToolCall)
| Observe (results : list string)
| Done.

Record LoopState : Type := mkLoopState {
  phase : Phase;
  counter : nat;
  turns : list Message
}.

(** Modelled from the spec: the Act stage of the Step-Loop built by
    [createGraph] in [agent/index.js], whose source is not part of the
    files at hand.  Section 4.3: the named capability is looked up in the
    registry, the input is validated against its schema, and the tool is
    executed; an unknown tool or an invalid input gives an error
    observation (sections 7 and 8).  The loop has no handler of its own:
    section 7 catches failures at the tool boundary only, so what a handler
    throws leaves the Act stage. *)
Definition act (registry : list Tool) (call : ToolCall) : Outcome string :=
  match lookupTool registry (callName call) with
  | None => Returned ("Error: unknown tool " +:+ callName call)
  | Some t =>
      if toolSchema t (callArgs call)
      then toolHandler t (callArgs call)
      else Returned ("Error: invalid input for tool " +:+ callName call)
  end.

(** Modelled from the spec: the requests of one Think round executed in
    order (section 4.3); the first failure ends the round. *)
Fixpoint actAll (registry : list Tool) (calls : list ToolCall)
  : Outcome (list string) :=
  match calls with
  | [] => Returned []
  | call :: rest =>
      bind (act registry call) (fun result =>
      bind (actAll registry rest) (fun results => Returned (result :: results)))
  end.

(** The error with which [graph.invoke] rejects when the [recursionLimit]
    given at the call site is reached. *)
Definition recursionError (limit : nat) : JsError :=
  mkError ("Recursion limit of " +:+ pretty limit +:+
           " reached without hitting a stop condition. You can increase the limit by setting the "
           +:+ dq +:+ "recursionLimit" +:+ dq +:+ " config key.").

(** Modelled from the spec: one transition of the Step-Loop of
    [createGraph], whose source is missing.  Section 4.3 describes the
    states: Think asks the planner for a final answer or tool requests; Act
    executes the requests; Observe appends each result as a tool-result
    turn; Done is reached on a final answer.  A failure of the planner is a
    job-level error and propagates (section 7).  The bound is the one the
    call sites ask for, [graph.invoke(initial, { recursionLimit: 60 })],
    the framework-level recursion-limit flag of section 9: the counter
    counts node executions, a Think round and an Act round being one each,
    and when the limit is reached before the end [invoke] rejects. *)
Definition step (planner : Planner) (registry : list Tool) (stepLimit : nat)
    (s : LoopState) : Outcome LoopState :=
  match phase s with
  | Think =>
      if stepLimit <=? counter s
      then Thrown (recursionError stepLimit)
      else
        match planner (counter s) (turns s) with
        | Thrown e => Thrown e
        | Returned (FinalAnswer text) =>
            Returned (mkLoopState Done (S (counter s)) (turns s ++ [AIMessage text]))
        | Returned (ToolRequests calls) =>
            Returned (mkLoopState (Act calls) (S (counter s)) (turns s))
        end
  | Act calls =>
      if stepLimit <=? counter s
      then Thrown (recursionError stepLimit)
      else
        bind (actAll registry calls) (fun results =>
        Returned (mkLoopState (Observe results) (S (counter s)) (turns s)))
  | Observe results =>
      Returned (mkLoopState Think (counter s) (turns s ++ map ToolMessage results))
  | Done => Returned s
  end.

Definition isDone (s : LoopState) : bool :=
  match phase s with
  | Done => true
  | _ => false
  end.

(** Modelled from the spec: the Step-Loop of [createGraph] run for at most
    [fuel] transitions, stopping in [Done] or at the first failure. *)
Fixpoint run (planner : Planner) (registry : list Tool) (stepLimit : nat)
    (fuel : nat) (s : LoopState) : Outcome LoopState :=
  match fuel with
  | 0 => Returned s
  | S k =>
      if isDone s then Returned s
      else bind (step planner registry stepLimit s) (run planner registry stepLimit k)
  end.

(** More transitions than any run within the limit can make: a node
    execution and the Observe after it are at most two, and one more
    transition ends the run. *)
Definition transitions (stepLimit : nat) : nat := 3 * stepLimit + 1.

Definition start (input : list Message) : LoopState := mkLoopState Think 0 input.

(** Modelled from the spec: the graph that the missing [createGraph]
    returns, as [invoke] sees it: the Step-Loop closed over the planner and
    the registry, run from Think on the input with the given limit; it
    returns the full resulting turn sequence (section 4.3). *)
Definition stepLoop (planner : Planner) (registry : list Tool) : Graph :=
  fun input stepLimit =>
    bind (run planner registry stepLimit (transitions stepLimit) (start input))
         (fun s => Returned (turns s)).

(** The output contract of a graph (section 4.3): the returned sequence is
    the input followed by what the job produced. *)
Definition returnsWholeSequence (graph : Graph) : Prop :=
  forall input limit result,
    graph input limit = Returned result -> exists produced, result = input ++ produced.

(** ** The job runner *)

(** The outcome of a job, the memory afterwards, and the calls made. *)
Record JobResult : Type := mkJobResult {
  jobOutcome : Outcome string;
  jobMemory : MemoryStore;
  jobCalls : list Call
}.

(** [runJob] of the entry point.  The logger calls and the timing are left
    out; the store is passed in and returned since the source mutates it. *)
Definition runJob (userText : string) (graph : Graph) (memoryStore : MemoryStore)
  : JobResult :=
  let previousMessages := getMessages memoryStore in
  let previousCount := length previousMessages in
  let userMessage := HumanMessage userText in
  let initial := previousMessages ++ [userMessage] in
  match graph initial 60 with
  | Thrown e => mkJobResult (Thrown e) memoryStore [GetMessages; Invoke initial 60]
  | Returned result =>
      let newMessages := drop previousCount result in
      let finalMsg := last result in
      let out := Returned (from_option content "" finalMsg) in
      if 0 <? length newMessages
      then mkJobResult out (addMessages newMessages memoryStore)
             [GetMessages; Invoke initial 60; AddMessages newMessages]
      else mkJobResult out memoryStore [GetMessages; Invoke initial 60]
  end.

(** A session's life as a sequence of jobs: each job runs on the memory the
    previous one left, whether it failed or not. *)
Fixpoint runJobs (graph : Graph) (tasks : list string) (memoryStore : MemoryStore)
  : MemoryStore * list Call :=
  match tasks with
  | [] => (memoryStore, [])
  | task :: rest =>
      let r := runJob task graph memoryStore in
      let '(m, log) := runJobs graph rest (jobMemory r) in
      (m, jobCalls r ++ log)
  end.

(** ** Configuration of the language model *)

(** [process.env]. *)
Abbreviation Env := (gmap string string).

(** JavaScript truthiness of [process.env.X]: set and not empty. *)
Definition truthy (v : option string) : bool :=
  match v with
  | Some s => negb (String.eqb s "")
  | None => false
  end.

(** The options given to [new ChatOpenAI]; the temperature 0.2 is kept in
    hundredths. *)
Record ChatOpenAI : Type := mkChatOpenAI {
  model : string;
  temperatureHundredths : nat
}.

Definition remediation : string :=
  "OPENAI_API_KEY is required." +:+ nl +:+
  "Create a .env file in the project root with: OPENAI_API_KEY=your-key-here" +:+ nl +:+
  "Or set it as an environment variable:" +:+ nl +:+
  "  - Linux/Mac: export OPENAI_API_KEY='your-key-here'" +:+ nl +:+
  "  - Windows PowerShell: $env:OPENAI_API_KEY='your-key-here'" +:+ nl +:+
  "  - Windows CMD: set OPENAI_API_KEY=your-key-here".

Definition createLLM (env : Env) : Outcome ChatOpenAI :=
  let apiKey := env !! "OPENAI_API_KEY" in
  if negb (truthy apiKey)
  then Thrown (mkError remediation)
  else Returned (mkChatOpenAI "gpt-4o" 20).

(** ** Splitting a long response *)

(** The longest prefix of [s] of at most [n] code units none of which is a
    line terminator: what [.{0,n}] matches, greedily, at the start of [s]. *)
Fixpoint dots (n : nat) (s : string) : string :=
  match n, s with
  | S k, String c rest =>
      if isLineTerminator c then EmptyString else String c (dots k rest)
  | _, _ => EmptyString
  end.

(** The successive matches of [/.{1,n}/g] in [s], from left to right: where
    the pattern does not match (a line terminator), the search resumes one
    code unit further; after a match it resumes at the end of the match. *)
Fixpoint matchDots (n : nat) (fuel : nat) (s : string) : list string :=
  match fuel, s with
  | S f, String c rest =>
      match dots n s with
      | EmptyString => matchDots n f rest
      | m => m :: matchDots n f (dropString (String.length m) s)
      end
  | _, _ => []
  end.

(** [s.match(/.{1,n}/g) || []]. *)
Definition matchAll (n : nat) (s : string) : list string :=
  matchDots n (String.length s) s.

Definition concatStrings (l : list string) : string :=
  foldr String.append EmptyString l.

(** ** The Telegram integration *)

Module TelegramBotHandler.

(** A session holds a reference to its [MemoryStore] object (an index in
    [stores] below) and its compiled graph. *)
Record UserSession : Type := mkUserSession {
  memoryStore : nat;
  graph : Graph
}.

(** What the handler does to the outside, in order: messages and chat
    actions sent through the bot, and calls made for a given store. *)
Inductive Effect : Type :=
| SendMessage (chatId : Z) (text : string)
| SendChatAction (chatId : Z) (action : string)
| OnStore (store : nat) (c : Call).

(** The fields of the handler that change: the session map, the
    [MemoryStore] objects created so far (object [i] is [stores i] for
    [i < allocated]), and the effects performed. *)
Record Bot : Type := mkBot {
  sessions : gmap Z UserSession;
  stores : nat -> MemoryStore;
  allocated : nat;
  effects : list Effect
}.

Definition welcome : string :=
  "🤖 *LoLa Agent Bot*" +:+ nl +:+ nl +:+
  "I'm a web-capable agent that can browse the internet and interact with websites." +:+ nl +:+ nl +:+
  "*Commands:*" +:+ nl +:+
  "/start - Show this message" +:+ nl +:+
  "/clear - Clear conversation history" +:+ nl +:+
  "/memory - Show memory stats" +:+ nl +:+
  "/help - Show help" +:+ nl +:+ nl +:+
  "Just send me a task and I'll do it!".

Definition help : string :=
  "*Available Commands:*" +:+ nl +:+ nl +:+
  "/start - Welcome message" +:+ nl +:+
  "/clear - Clear your conversation history" +:+ nl +:+
  "/memory - Show how many messages are stored" +:+ nl +:+
  "/help - Show this help" +:+ nl +:+ nl +:+
  "*Examples:*" +:+ nl +:+
  "• " +:+ dq +:+ "Go to example.com and find the contact page" +:+ dq +:+ nl +:+
  "• " +:+ dq +:+ "Search for TypeScript on Google" +:+ dq +:+ nl +:+
  "• " +:+ dq +:+ "Take a screenshot of the current page" +:+ dq.

Definition continued : string := nl +:+ nl +:+ "_(continued...)_".

Definition perform (e : Effect) (b : Bot) : Bot :=
  mkBot (sessions b) (stores b) (allocated b) (effects b ++ [e]).

Definition performAll (es : list Effect) (b : Bot) : Bot :=
  mkBot (sessions b) (stores b) (allocated b) (effects b ++ es).

Definition setStore (store : nat) (m : MemoryStore) (b : Bot) : Bot :=
  mkBot (sessions b) (<[store := m]> (stores b)) (allocated b) (effects b).

Section Handlers.

(** The graph that [createGraph(this.llm, this.tools, this.systemPrompt)]
    builds; the three arguments are fields set once by the constructor. *)
Variable createGraph : Graph.

Definition getOrCreateSession (userId : Z) (b : Bot) : UserSession * Bot :=
  match sessions b !! userId with
  | Some session => (session, b)
  | None =>
      let graph := createGraph in
      let memoryStore := allocated b in
      let session := mkUserSession memoryStore graph in
      (session,
       mkBot (<[userId := session]> (sessions b))
             (<[memoryStore := newMemoryStore 50]> (stores b))
             (S (allocated b))
             (effects b))
  end.

(** A handler step that keeps the session map and the number of stores. *)
Definition sameSessions (b b' : Bot) : Prop :=
  sessions b' = sessions b /\ allocated b' = allocated b.

(** Every handler amounts to at most one [getOrCreateSession] for the chat,
    as far as the session map is concerned. *)
Definition extends (chatId : Z) (b b' : Bot) : Prop :=
  sameSessions b b' \/ sameSessions (snd (getOrCreateSession chatId b)) b'.

(** Stores that exist and are not the store of [chatId] are left alone. *)
Definition othersKept (chatId : Z) (b b' : Bot) : Prop :=
  forall l, l < allocated b ->
    (forall s, sessions b !! chatId = Some s -> memoryStore s <> l) ->
    stores b' l = stores b l.

(** The method [runJob].  The store is the object the session refers to;
    the logger calls and the timing are left out. *)
Definition runJob (userText : string) (session : UserSession) (chatId : Z)
    (b : Bot) : Outcome string * Bot :=
  let store := memoryStore session in
  let previousMessages := getMessages (stores b store) in
  let previousCount := length previousMessages in
  let userMessage := HumanMessage userText in
  let initial := previousMessages ++ [userMessage] in
  let b1 := performAll [OnStore store GetMessages; OnStore store (Invoke initial 60)] b in
  match graph session initial 60 with
  | Thrown e => (Thrown e, b1)
  | Returned result =>
      let newMessages := drop previousCount result in
      let b2 :=
        if 0 <? length newMessages
        then perform (OnStore store (AddMessages newMessages))
               (setStore store (addMessages newMessages (stores b1 store)) b1)
        else b1 in
      let finalMsg := last result in
      (Returned (from_option content "" finalMsg), b2)
  end.

(** The replies for a response: in chunks beyond 4096 code units. *)
Definition reply (chatId : Z) (response : string) : list Effect :=
  if 4096 <? String.length response
  then
    let chunks := matchAll 4000 response in
    imap (fun i chunk =>
            SendMessage chatId
              (chunk +:+ (if i <? length chunks - 1 then continued else "")))
         chunks
  else [SendMessage chatId response].

(** The [try ... catch] of the "message" listener, which runs once the
    typing indicator has been sent. *)
Definition job (chatId : Z) (text : string) (b : Bot) : Bot :=
  let '(session, b1) := getOrCreateSession chatId b in
  let '(out, b2) := runJob text session chatId b1 in
  match out with
  | Returned response => performAll (reply chatId response) b2
  | Thrown e => perform (SendMessage chatId ("❌ Error: " +:+ message e)) b2
  end.

(** The "message" listener up to its first suspension: the reply it sends
    at once, if any, and the task it goes on with, if any. *)
Definition onMessage (chatId : Z) (text : option string) (b : Bot)
  : Bot * option string :=
  match text with
  | Some t =>
      if startsWith "/" t then (b, None)
      else if String.length (trim t) =? 0
      then (perform (SendMessage chatId "Please send me a text message with your task.") b, None)
      else (perform (SendChatAction chatId "typing") b, Some t)
  | None =>
      (perform (SendMessage chatId "Please send me a text message with your task.") b, None)
  end.

(** The [onText] callbacks, each run when its pattern occurs in the text. *)
Definition onStart (chatId : Z) (b : Bot) : Bot :=
  perform (SendMessage chatId welcome) b.

Definition onHelp (chatId : Z) (b : Bot) : Bot :=
  perform (SendMessage chatId help) b.

Definition onClear (chatId : Z) (b : Bot) : Bot :=
  let '(session, b1) := getOrCreateSession chatId b in
  let b2 := setStore (memoryStore session) (clear (stores b1 (memoryStore session))) b1 in
  performAll [OnStore (memoryStore session) Clear;
              SendMessage chatId "✓ Conversation history cleared."] b2.

Definition onMemory (chatId : Z) (b : Bot) : Bot :=
  let '(session, b1) := getOrCreateSession chatId b in
  let count := getMessageCount (stores b1 (memoryStore session)) in
  performAll [OnStore (memoryStore session) GetMessageCount;
              SendMessage chatId ("Memory: " +:+ pretty count +:+ " messages stored")] b1.

Definition when (c : bool) (f : Bot -> Bot) (b : Bot) : Bot :=
  if c then f b else b.

(** The text callbacks in the order of their registration. *)
Definition onText (chatId : Z) (t : string) (b : Bot) : Bot :=
  let b1 := when (includes "/start" t) (onStart chatId) b in
  let b2 := when (includes "/help" t) (onHelp chatId) b1 in
  let b3 := when (includes "/clear" t || includes "/reset" t) (onClear chatId) b2 in
  when (includes "/memory" t || includes "/stats" t) (onMemory chatId) b3.

(** The commands of the chat surface, and the texts that are one of them
    or have one of them somewhere inside. *)
Definition commands : list string :=
  ["/start"; "/help"; "/clear"; "/reset"; "/memory"; "/stats"].

Definition isCommand (t : string) : bool := existsb (String.eqb t) commands.

Definition mentionsCommand (t : string) : bool :=
  existsb (fun c => includes c t) commands.

(** What the bot library does with an incoming message, up to the first
    suspension of every listener: it emits "message", then tries each text
    callback on the text, if there is one. *)
Definition dispatch (chatId : Z) (text : option string) (b : Bot)
  : Bot * option string :=
  let '(b1, task) := onMessage chatId text b in
  (from_option (onText chatId) id text b1, task).

(** An incoming message handled to completion before the next arrives. *)
Definition processUpdate (chatId : Z) (text : option string) (b : Bot) : Bot :=
  let '(b1, task) := dispatch chatId text b in
  match task with
  | Some t => job chatId t b1
  | None => b1
  end.

(** Incoming messages handled one after the other. *)
Definition processAll (updates : list (Z * option string)) (b : Bot) : Bot :=
  foldl (fun b u => processUpdate (fst u) (snd u) b) b updates.

(** *** Interleaved execution *)

(** A listener suspended at an [await]: either the typing indicator is
    being sent, or [graph.invoke] is running with the [previousCount] and
    the [initial] messages read before the call. *)
Inductive Task : Type :=
| AwaitTyping (chatId : Z) (text : string)
| AwaitInvoke (chatId : Z) (session : UserSession) (previousCount : nat)
    (initial : list Message).

Definition taskChat (t : Task) : Z :=
  match t with
  | AwaitTyping chatId _ => chatId
  | AwaitInvoke chatId _ _ _ => chatId
  end.

Record Running : Type := mkRunning {
  bot : Bot;
  pending : list Task
}.

(** The statements of [runJob] before [await graph.invoke], run when the
    typing indicator has been sent. *)
Definition beginJob (chatId : Z) (text : string) (b : Bot) : Task * Bot :=
  let '(session, b1) := getOrCreateSession chatId b in
  let previousMessages := getMessages (stores b1 (memoryStore session)) in
  let previousCount := length previousMessages in
  let initial := previousMessages ++ [HumanMessage text] in
  (AwaitInvoke chatId session previousCount initial,
   performAll [OnStore (memoryStore session) GetMessages;
               OnStore (memoryStore session) (Invoke initial 60)] b1).

(** The statements after [await graph.invoke], on the store as it is when
    the call settles, followed by the replies of the listener. *)
Definition endJob (chatId : Z) (session : UserSession) (previousCount : nat)
    (initial : list Message) (b : Bot) : Bot :=
  match graph session initial 60 with
  | Thrown e => perform (SendMessage chatId ("❌ Error: " +:+ message e)) b
  | Returned result =>
      let newMessages := drop previousCount result in
      let finalMsg := last result in
      let response := from_option content "" finalMsg in
      let b1 :=
        if 0 <? length newMessages
        then perform (OnStore (memoryStore session) (AddMessages newMessages))
               (setStore (memoryStore session)
                  (addMessages newMessages (stores b (memoryStore session))) b)
        else b in
      performAll (reply chatId response) b1
  end.

Inductive Event : Type :=
| Incoming (chatId : Z) (text : option string)
| Resume (i : nat).

(** One turn of the event loop: a message arrives, or the [i]-th suspended
    listener goes on to its next suspension or to its end. *)
Definition fire (e : Event) (r : Running) : Running :=
  match e with
  | Incoming chatId text =>
      let '(b1, task) := dispatch chatId text (bot r) in
      mkRunning b1 (pending r ++ option_list (AwaitTyping chatId <$> task))
  | Resume i =>
      match pending r !! i with
      | None => r
      | Some (AwaitTyping chatId text) =>
          let '(t, b1) := beginJob chatId text (bot r) in
          mkRunning b1 (<[i := t]> (pending r))
      | Some (AwaitInvoke chatId session previousCount initial) =>
          mkRunning (endJob chatId session previousCount initial (bot r))
                    (delete i (pending r))
      end
  end.

Definition fireAll (es : list Event) (r : Running) : Running :=
  foldl (fun r e => fire e r) r es.

(** The jobs in flight for an identity. *)
Definition inFlight (chatId : Z) (r : Running) : nat :=
  length (List.filter (fun t => Z.eqb (taskChat t) chatId) (pending r)).

(** A text that the "message" listener takes as a task. *)
Definition isTaskText (t : string) : bool :=
  negb (startsWith "/" t) && negb (String.length (trim t) =? 0).

(** The events that start a job of [chatId]. *)
Definition startsJob (chatId : Z) (e : Event) : bool :=
  match e with
  | Incoming c (Some t) => Z.eqb c chatId && isTaskText t
  | _ => false
  end.

(** A schedule in which no task message for [chatId] arrives while a job of
    [chatId] is in flight. *)
Fixpoint spaced (chatId : Z) (es : list Event) (r : Running) : bool :=
  match es with
  | [] => true
  | e :: rest =>
      (if startsJob chatId e then inFlight chatId r =? 0 else true)
      && spaced chatId rest (fire e r)
  end.

End Handlers.

(** Every session refers to a store that exists, and no two sessions
    refer to the same store. *)
Definition consistent (b : Bot) : Prop :=
  (forall id s, sessions b !! id = Some s -> memoryStore s < allocated b) /\
  (forall id1 id2 s1 s2,
     sessions b !! id1 = Some s1 -> sessions b !! id2 = Some s2 ->
     memoryStore s1 = memoryStore s2 -> id1 = id2).

(** Every store respects its capacity, which is at most 50. *)
Definition bounded (b : Bot) : Prop :=
  forall l, wfStore (stores b l) /\ capacity (stores b l) <= 50.

(** The handler as the constructor leaves it: no session, no store. *)
Definition initial : Bot := mkBot ∅ (fun _ => newMemoryStore 0) 0 [].

(** The handler with no listener suspended. *)
Definition idle : Running := mkRunning initial [].

(** The constructor: the language model is created before the handlers are
    set up, so a failure of [createLLM] leaves no handler behind. *)
Definition new (env : Env) : Outcome Bot :=
  bind (createLLM env) (fun _ => Returned initial).

Definition storeCall (e : Effect) : list Call :=
  match e with
  | OnStore _ c => [c]
  | _ => []
  end.

(** The calls of [graph.invoke] made so far. *)
Definition invocations (b : Bot) : nat :=
  count isInvoke (concat (map storeCall (effects b))).

End TelegramBotHandler.

(** ** The entry point *)

Inductive ConsoleCall : Type :=
| ConsoleLog (text : string)
| ConsoleError (label text : string).

(** The state of the CLI daemon: its store, the calls made for it and the
    console output, in order. *)
Record Cli : Type := mkCli {
  cliMemory : MemoryStore;
  cliCalls : list Call;
  console : list ConsoleCall
}.

(** A trimmed line that is a task: not empty and not a command. *)
Definition isTask (task : string) : bool :=
  negb (String.eqb task "" ||
        (String.eqb task "/clear" || String.eqb task "/reset") ||
        (String.eqb task "/memory" || String.eqb task "/stats")).

(** The listener of the "line" event of [main], handled to completion. *)
Definition onLine (graph : Graph) (line : string) (c : Cli) : Cli :=
  let task := trim line in
  if String.eqb task "" then c
  else if String.eqb task "/clear" || String.eqb task "/reset" then
    mkCli (clear (cliMemory c)) (cliCalls c ++ [Clear])
      (console c ++ [ConsoleLog ("✓ Conversation history cleared." +:+ nl)])
  else if String.eqb task "/memory" || String.eqb task "/stats" then
    let count := getMessageCount (cliMemory c) in
    mkCli (cliMemory c) (cliCalls c ++ [GetMessageCount])
      (console c ++ [ConsoleLog (nl +:+ "Memory: " +:+ pretty count +:+ " messages stored" +:+ nl)])
  else
    let r := runJob task graph (cliMemory c) in
    match jobOutcome r with
    | Returned out =>
        mkCli (jobMemory r) (cliCalls c ++ jobCalls r)
          (console c ++ [ConsoleLog (nl +:+ "=== FINAL ===");
                         ConsoleLog out;
                         ConsoleLog ("=============" +:+ nl)])
    | Thrown e =>
        mkCli (jobMemory r) (cliCalls c ++ jobCalls r)
          (console c ++ [ConsoleError "Job error:" (message e)])
    end.

Definition banner : list ConsoleCall :=
  [ConsoleLog "Daemon agent started. Type a task and press Enter. Ctrl+C to stop.";
   ConsoleLog ("Commands: /clear - clear conversation history, /memory - show memory stats" +:+ nl);
   ConsoleLog ("(To use Telegram, set TELEGRAM_BOT_TOKEN in your .env file)" +:+ nl)].

(** The process once [main] has settled: exited through the [catch] of
    [main()] with [process.exit(1)], or listening in one of the two modes. *)
Inductive Process : Type :=
| Exited (code : nat) (reported : JsError)
| TelegramMode (telegramBot : TelegramBotHandler.Bot)
| CliMode (c : Cli).

(** [main], up to the point where the process listens or has exited.  The
    browser controller, the tools, the system prompt and the graph cannot
    fail here, and [telegramBot.start()] is taken to succeed. *)
Definition main (env : Env) : Process :=
  let telegramToken := env !! "TELEGRAM_BOT_TOKEN" in
  let useTelegram := truthy telegramToken in
  if useTelegram then
    match TelegramBotHandler.new env with
    | Thrown e => Exited 1 e
    | Returned telegramBot => TelegramMode telegramBot
    end
  else
    match createLLM env with
    | Thrown e => Exited 1 e
    | Returned llm => CliMode (mkCli (newMemoryStore 50) [] banner)
    end.

Definition isExited (p : Process) : bool :=
  match p with
  | Exited _ _ => true
  | _ => false
  end.

(** An input reaching the process: a chat message or a line, according to
    the mode; a process that has exited has no listener left. *)
Definition receive (graph : Graph) (p : Process) (input : Z * string) : Process :=
  match p with
  | Exited code e => Exited code e
  | TelegramMode b =>
      TelegramMode (TelegramBotHandler.processUpdate graph (fst input) (Some (snd input)) b)
  | CliMode c => CliMode (onLine graph (snd input) c)
  end.

(** The jobs a process has run: the calls of [graph.invoke] it made. *)
Definition jobsRun (p : Process) : nat :=
  match p with
  | Exited _ _ => 0
  | TelegramMode b => TelegramBotHandler.invocations b
  | CliMode c => count isInvoke (cliCalls c)
  end.

(** ** Browser tools *)

Inductive MouseButton : Type := LeftButton | RightButton.

Section BrowserTools.

(** The state of the browser behind the controller, and element handles. *)
Variable Browser : Type.
Variable Element : Type.

(** An asynchronous operation on the browser: it resolves or rejects, and
    leaves the browser in some state either way. *)
Definition Action (A : Type) : Type := Browser -> Outcome A * Browser.

#[local] Instance action_ret : MRet Action :=
  fun A a b => (Returned a, b).

#[local] Instance action_bind : MBind Action :=
  fun A B k c b =>
    match c b with
    | (Returned a, b') => k a b'
    | (Thrown e, b') => (Thrown e, b')
    end.

(** [try { body } catch (e) { handler }]. *)
Definition tryCatch {A : Type} (body : Action A) (handler : JsError -> Action A)
  : Action A :=
  fun b =>
    match body b with
    | (Returned a, b') => (Returned a, b')
    | (Thrown e, b') => handler e b'
    end.

(** The operations of the browser controller and of its page used by the
    three tools; timeouts are in milliseconds. *)
Record BrowserController : Type := mkBrowserController {
  ensure : Action unit;
  goto : string -> Action unit;
  title : Action string;
  waitForSelector : string -> N -> Action unit;
  query : string -> Action (option Element);
  isVisible : Element -> Action bool;
  click : string -> MouseButton -> N -> Action unit
}.

Variable browserController : BrowserController.

(** The function given to [tool] for [browser_goto]; the logger calls and
    the two-second pause are left out. *)
Definition gotoTool (url : string) : Action string :=
  _ ← ensure browserController;
  _ ← goto browserController url;
  title ← title browserController;
  mret ("Navigated to " +:+ url +:+ ". Title: " +:+ title +:+
        ". Check for popups using browser_check_popups if needed.").

(** The function given to [tool] for [browser_click]. *)
Definition clickTool (selector : string) : Action string :=
  _ ← ensure browserController;
  tryCatch
    (_ ← waitForSelector browserController selector 10000%N;
     element ← query browserController selector;
     match element with
     | None =>
         mret ("ERROR: " +:+ "Element not found: " +:+ selector +:+
               ". Use browser_find_links or browser_find_by_text to find the correct selector.")
     | Some element =>
         visible ← isVisible browserController element;
         if negb visible
         then mret ("ERROR: " +:+ "Element exists but is not visible: " +:+ selector +:+
                    ". The element might be hidden or require scrolling.")
         else
           _ ← click browserController selector LeftButton 15000%N;
           mret ("Successfully clicked: " +:+ selector)
     end)
    (fun e =>
       mret ("ERROR clicking " +:+ selector +:+ ": " +:+ message e +:+
             ". Try using browser_find_by_text to find the element by its text content, or browser_find_links to see all clickable links.")).

(** The function given to [tool] for [browser_right_click]. *)
Definition rightClickTool (selector : string) : Action string :=
  _ ← ensure browserController;
  _ ← click browserController selector RightButton 15000%N;
  mret ("Right-clicked selector: " +:+ selector).

End BrowserTools.

Arguments mkBrowserController {Browser Element}.
Arguments ensure {Browser Element}.
Arguments goto {Browser Element}.
Arguments title {Browser Element}.
Arguments waitForSelector {Browser Element}.
Arguments query {Browser Element}.
Arguments isVisible {Browser Element}.
Arguments click {Browser Element}.
Arguments tryCatch {Browser A}.
Arguments gotoTool {Browser Element}.
Arguments clickTool {Browser Element}.
Arguments rightClickTool {Browser Element}.

(** A page on which nothing can be clicked and navigation times out: the
    browser has no state of its own and no element is ever found. *)
Definition timeoutError (what : string) : JsError :=
  mkError ("Timeout 15000ms exceeded while waiting for " +:+ what).

Definition stuckPage : BrowserController unit Empty_set :=
  mkBrowserController
    (fun b => (Returned tt, b))
    (fun url b => (Thrown (timeoutError url), b))
    (fun b => (Returned "about:blank", b))
    (fun selector timeout b => (Thrown (timeoutError selector), b))
    (fun selector b => (Returned None, b))
    (fun element b => (Returned false, b))
    (fun selector button timeout b => (Thrown (timeoutError selector), b)).

(** ** Sample collaborators and inputs *)

(** A planner that asks for the page address for ever, and a registry that
    knows the tool. *)
Definition stubbornPlanner : Planner :=
  fun _ _ => Returned (ToolRequests [mkToolCall "browser_get_url" "{}"]).

Definition titleOnly : list Tool :=
  [mkTool "browser_get_url" (fun _ => true)
     (fun _ => Returned "Current URL: about:blank")].

(** A planner that answers at once, and one that always fails. *)
Definition answering : Planner := fun _ _ => Returned (FinalAnswer "done").

Definition failingPlanner : Planner :=
  fun _ _ => Thrown (mkError "429 rate limit exceeded").

(** A response of 4097 code units with one line feed in it, and one made
    of line feeds only. *)
Definition twoParagraphs : string :=
  repeatString 2000 "a" +:+ nl +:+ repeatString 2096 "b".

Definition blankLines : string := repeatString 4097 "010".

(** The response without its line terminators. *)
Fixpoint withoutLineTerminators (s : string) : string :=
  match s with
  | EmptyString => EmptyString
  | String c rest =>
      if isLineTerminator c then withoutLineTerminators rest
      else String c (withoutLineTerminators rest)
  end.

Definition sentText (e : TelegramBotHandler.Effect) : option string :=
  match e with
  | TelegramBotHandler.SendMessage _ text => Some text
  | _ => None
  end.

(** ** Observations on the effects of the handler *)

(** The input and the limit of a call of [graph.invoke]. *)
Definition invokeInput (e : TelegramBotHandler.Effect) : list (list Message * nat) :=
  match e with
  | TelegramBotHandler.OnStore _ (Invoke initial recursionLimit) =>
      [(initial, recursionLimit)]
  | _ => []
  end.

Definition invokeInputs (es : list TelegramBotHandler.Effect) : list (list Message * nat) :=
  concat (map invokeInput es).

(** The turns given to [addMessages] by an effect. *)
Definition appendedBatch (e : TelegramBotHandler.Effect) : list (list Message) :=
  match e with
  | TelegramBotHandler.OnStore _ (AddMessages new) => [new]
  | _ => []
  end.

Definition appendedBatches (es : list TelegramBotHandler.Effect) : list (list Message) :=
  concat (map appendedBatch es).

(** The effects that belong to a job: [graph.invoke] and [addMessages]. *)
Definition isJobCall (e : TelegramBotHandler.Effect) : bool :=
  match e with
  | TelegramBotHandler.OnStore _ (Invoke _ _) => true
  | TelegramBotHandler.OnStore _ (AddMessages _) => true
  | _ => false
  end.

Definition quiet (es : list TelegramBotHandler.Effect) : bool :=
  forallb (fun e => negb (isJobCall e)) es.

(** The inputs of the calls of [graph.invoke] in a log of calls. *)
Definition callInput (c : Call) : list (list Message * nat) :=
  match c with
  | Invoke initial recursionLimit => [(initial, recursionLimit)]
  | _ => []
  end.

Definition callInputs (log : list Call) : list (list Message * nat) :=
  concat (map callInput log).

Fixpoint allChars (p : ascii -> bool) (s : string) : bool :=
  match s with
  | EmptyString => true
  | String c rest => p c && allChars p rest
  end.

(** The handler went from [b] to [b'] by performing effects none of which
    belongs to a job. *)
Definition growsQuietly (b b' : TelegramBotHandler.Bot) : Prop :=
  exists es,
    TelegramBotHandler.effects b' = TelegramBotHandler.effects b ++ es /\
    quiet es = true.

(** The chat has a session and its store is empty. *)
Definition cleared (chatId : Z) (b : TelegramBotHandler.Bot) : Prop :=
  exists session,
    TelegramBotHandler.sessions b !! chatId = Some session /\
    getMessages (TelegramBotHandler.stores b (TelegramBotHandler.memoryStore session)) = [].

Definition pleaseSendText : string := "Please send me a text message with your task.".

(** A batch given to [addMessages] that is exactly what a job added to its
    own input: the new human turn, then what the graph produced after it. *)
Definition ownBatch (graph : Graph) (new : list Message) : Prop :=
  exists stored text produced,
    graph (stored ++ [HumanMessage text]) 60
    = Returned ((stored ++ [HumanMessage text]) ++ produced) /\
    new = HumanMessage text :: produced.

(** A suspended listener holds the graph of the handler and, once
    [graph.invoke] is running, the count and the input it read together. *)
Definition taskReadTogether (graph : Graph) (t : TelegramBotHandler.Task) : Prop :=
  match t with
  | TelegramBotHandler.AwaitTyping _ _ => True
  | TelegramBotHandler.AwaitInvoke _ session previousCount initial =>
      TelegramBotHandler.graph session = graph /\
      exists stored text,
        initial = stored ++ [HumanMessage text] /\ previousCount = length stored
  end.

(** Every session of the handler holds the graph of the handler. *)
Definition sessionsHold (graph : Graph) (b : TelegramBotHandler.Bot) : Prop :=
  forall id s,
    TelegramBotHandler.sessions b !! id = Some s -> TelegramBotHandler.graph s = graph.


(** The event makes a suspended job go on past [graph.invoke]: it is the
    only kind of event that appends turns to a store. *)
Definition endsJob (e : TelegramBotHandler.Event) (r : TelegramBotHandler.Running) : bool :=
  match e with
  | TelegramBotHandler.Resume i =>
      match TelegramBotHandler.pending r !! i with
      | Some (TelegramBotHandler.AwaitInvoke _ _ _ _) => true
      | _ => false
      end
  | TelegramBotHandler.Incoming _ _ => false
  end.

(** A schedule in which no job ends: messages may arrive and listeners may
    go on from the typing action to [graph.invoke]. *)
Fixpoint noJobEnds (createGraph : Graph) (es : list TelegramBotHandler.Event)
    (r : TelegramBotHandler.Running) : bool :=
  match es with
  | [] => true
  | e :: rest =>
      negb (endsJob e r) && noJobEnds createGraph rest (TelegramBotHandler.fire createGraph e r)
  end.
(** ** More string operations *)

Fixpoint takeString (n : nat) (s : string) : string :=
  match n, s with
  | S k, String c rest => String c (takeString k rest)
  | _, _ => EmptyString
  end.

(** [s.slice(0, end)] for an integer [end]: a negative [end] counts from
    the end of the string. *)
Definition sliceTo (end_ : Z) (s : string) : string :=
  if (end_ <? 0)%Z
  then takeString (Z.to_nat (Z.of_nat (String.length s) + end_)) s
  else takeString (Z.to_nat end_) s.

(** [s.substring(0, end)] for an integer [end]: a negative [end] counts as
    zero. *)
Definition substringTo (end_ : Z) (s : string) : string :=
  takeString (Z.to_nat end_) s.

(** [l.slice(0, end)] for an array. *)
Definition sliceListTo {A : Type} (end_ : Z) (l : list A) : list A :=
  if (end_ <? 0)%Z
  then take (Z.to_nat (Z.of_nat (length l) + end_)) l
  else take (Z.to_nat end_) l.

(** [l.join(sep)]. *)
Fixpoint joinStrings (sep : string) (l : list string) : string :=
  match l with
  | [] => EmptyString
  | [s] => s
  | s :: rest => s +:+ sep +:+ joinStrings sep rest
  end.

(** [s.split(" ")[0]]: what comes before the first space. *)
Fixpoint beforeSpace (s : string) : string :=
  match s with
  | EmptyString => EmptyString
  | String c rest => if Ascii.eqb c " " then EmptyString else String c (beforeSpace rest)
  end.

(** [toLowerCase] on the 8-bit alphabet: the letters A to Z and the
    accented capitals from 192 to 222, the multiplication sign excepted. *)
Definition lowerChar (c : ascii) : ascii :=
  let n := nat_of_ascii c in
  if ((65 <=? n) && (n <=? 90)) || ((192 <=? n) && (n <=? 222) && negb (n =? 215))
  then ascii_of_nat (n + 32) else c.

Fixpoint toLowerCase (s : string) : string :=
  match s with
  | EmptyString => EmptyString
  | String c rest => String (lowerChar c) (toLowerCase rest)
  end.

(** [x || fallback] for an optional string: unset and empty give the
    fallback. *)
Definition nonEmpty (v : option string) : option string :=
  match v with
  | Some s => if String.eqb s "" then None else Some s
  | None => None
  end.

(** [x || fallback] and [x ?? fallback] for an optional integer. *)
Definition orElse (v : option Z) (fallback : Z) : Z :=
  match v with
  | Some n => if (n =? 0)%Z then fallback else n
  | None => fallback
  end.

Definition orElseN (v : option N) (fallback : N) : N :=
  match v with
  | Some n => if (n =? 0)%N then fallback else n
  | None => fallback
  end.

(** ** [encodeURIComponent] *)

(** The characters left as they are: letters, digits and [-_.!~*'()]. *)
Definition isUnreserved (c : ascii) : bool :=
  let n := nat_of_ascii c in
  ((48 <=? n) && (n <=? 57)) || ((65 <=? n) && (n <=? 90)) ||
  ((97 <=? n) && (n <=? 122)) ||
  (n =? 45) || (n =? 95) || (n =? 46) || (n =? 33) || (n =? 126) ||
  (n =? 42) || (n =? 39) || (n =? 40) || (n =? 41).

Definition hexDigit (n : nat) : ascii :=
  if n <? 10 then ascii_of_nat (48 + n) else ascii_of_nat (55 + n).

(** [%XX] for one byte. *)
Definition percent (byte : nat) : string :=
  String "%" (String (hexDigit (byte / 16)) (String (hexDigit (byte mod 16)) EmptyString)).

(** A code unit below 128 is one byte of UTF-8, one from 128 to 255 two. *)
Definition encodeChar (c : ascii) : string :=
  let n := nat_of_ascii c in
  if isUnreserved c then String c EmptyString
  else if n <? 128 then percent n
  else percent (192 + n / 64) +:+ percent (128 + n mod 64).

Fixpoint encodeURIComponent (s : string) : string :=
  match s with
  | EmptyString => EmptyString
  | String c rest => encodeChar c +:+ encodeURIComponent rest
  end.

(** The characters an encoded component is made of. *)
Definition isEncoded (c : ascii) : bool :=
  isUnreserved c || Ascii.eqb c "%".

(** ** [JSON.stringify(value, null, 2)] *)

#[warnings="-register-all"]
Inductive Json : Type :=
| JNull
| JBool (b : bool)
| JNum (z : Z)
| JStr (s : string)
| JArr (items : list Json)
| JObj (fields : list (string * Json)).

(** A code unit inside a JSON string literal. *)
Definition escapeChar (c : ascii) : string :=
  let n := nat_of_ascii c in
  if n =? 34 then "\" +:+ dq
  else if n =? 92 then "\\"
  else if n =? 8 then "\b"
  else if n =? 9 then "\t"
  else if n =? 10 then "\n"
  else if n =? 12 then "\f"
  else if n =? 13 then "\r"
  else if n <? 32 then
    "\u00" +:+ String (lowerChar (hexDigit (n / 16)))
                 (String (lowerChar (hexDigit (n mod 16))) EmptyString)
  else String c EmptyString.

Fixpoint escapeJson (s : string) : string :=
  match s with
  | EmptyString => EmptyString
  | String c rest => escapeChar c +:+ escapeJson rest
  end.

Definition quoteJson (s : string) : string := dq +:+ escapeJson s +:+ dq.

Definition indent (depth : nat) : string := repeatString (2 * depth) " ".

Fixpoint stringifyAt (depth : nat) (j : Json) : string :=
  match j with
  | JNull => "null"
  | JBool b => if b then "true" else "false"
  | JNum z => pretty z
  | JStr s => quoteJson s
  | JArr items =>
      match items with
      | [] => "[]"
      | _ =>
          "[" +:+ nl +:+
          joinStrings ("," +:+ nl)
            (List.map (fun x => indent (S depth) +:+ stringifyAt (S depth) x) items)
          +:+ nl +:+ indent depth +:+ "]"
      end
  | JObj fields =>
      match fields with
      | [] => "{}"
      | _ =>
          "{" +:+ nl +:+
          joinStrings ("," +:+ nl)
            (List.map (fun kv => indent (S depth) +:+ quoteJson (fst kv) +:+ ": "
                                 +:+ stringifyAt (S depth) (snd kv)) fields)
          +:+ nl +:+ indent depth +:+ "}"
      end
  end.

Definition stringify (j : Json) : string := stringifyAt 0 j.

(** ** [decodeURIComponent] *)

Definition hexValue (c : ascii) : option nat :=
  let n := nat_of_ascii c in
  if (48 <=? n) && (n <=? 57) then Some (n - 48)
  else if (65 <=? n) && (n <=? 70) then Some (n - 55)
  else if (97 <=? n) && (n <=? 102) then Some (n - 87)
  else None.

Definition hexByte (high low : ascii) : option nat :=
  match hexValue high, hexValue low with
  | Some h, Some l => Some (16 * h + l)
  | _, _ => None
  end.

(** The inverse of the encoding on strings whose decoded code points are
    below 256: [%XX] is a byte, a byte below 128 is a code unit, the lead
    bytes 194 and 195 take one continuation byte, and anything else is
    malformed or outside the alphabet. *)
Fixpoint decodeURIComponent (s : string) : option string :=
  match s with
  | EmptyString => Some EmptyString
  | String "%" (String h1 (String l1 rest)) =>
      match hexByte h1 l1 with
      | None => None
      | Some lead =>
          if lead <? 128
          then option_map (String (ascii_of_nat lead)) (decodeURIComponent rest)
          else
            match rest with
            | String "%" (String h2 (String l2 rest')) =>
                match hexByte h2 l2 with
                | None => None
                | Some next =>
                    if ((lead =? 194) || (lead =? 195)) && (128 <=? next) && (next <? 192)
                    then option_map (String (ascii_of_nat ((lead - 192) * 64 + (next - 128))))
                           (decodeURIComponent rest')
                    else None
                end
            | _ => None
            end
      end
  | String "%" _ => None
  | String c rest => option_map (String c) (decodeURIComponent rest)
  end.

(** ** More browser tools *)

(** The second argument of [page.selectOption]: a value, or [{ label }]. *)
Inductive OptionChoice : Type :=
| ByValue (value : string)
| ByLabel (label : string).

(** A DOM element as the callback given to [$$eval] reads it. *)
Record DomElement : Type := mkDomElement {
  domTagName : string;
  textContent : option string;
  domHref : option string;
  domId : string;
  className : option string
}.

(** An entry of the list built by [browser_find_links]. *)
Record Link : Type := mkLink {
  linkIndex : nat;
  linkTag : string;
  linkText : string;
  linkHref : option string;
  linkSelector : string
}.

(** An entry of the list built by [browser_extract_multiple]. *)
Record Item : Type := mkItem {
  itemIndex : nat;
  itemTag : string;
  itemText : string;
  itemHref : option string
}.

Definition jsonOfHref (href : option string) : Json :=
  match href with
  | Some h => JStr h
  | None => JNull
  end.

Definition jsonOfLink (l : Link) : Json :=
  JObj [("index", JNum (Z.of_nat (linkIndex l)));
        ("tag", JStr (linkTag l));
        ("text", JStr (linkText l));
        ("href", jsonOfHref (linkHref l));
        ("selector", JStr (linkSelector l))].

Definition jsonOfItem (i : Item) : Json :=
  JObj [("index", JNum (Z.of_nat (itemIndex i)));
        ("tag", JStr (itemTag i));
        ("text", JStr (itemText i));
        ("href", jsonOfHref (itemHref i))].

(** The callback of [$$eval] in [browser_find_links], on one element. *)
Definition linkOf (i : nat) (el : DomElement) : Link :=
  let tag := toLowerCase (domTagName el) in
  let text := from_option (fun t => substringTo 100 (trim t)) "" (textContent el) in
  let href := default "" (domHref el) in
  let id := domId el in
  let className := from_option beforeSpace "" (className el) in
  let selector :=
    if negb (String.eqb id "") then "#" +:+ id
    else if negb (String.eqb className "") then tag +:+ "." +:+ className
    else tag in
  mkLink (i + 1) tag text (nonEmpty (Some href)) selector.

Section MoreBrowserTools.

Variable Browser : Type.
Variable Element : Type.
Variable Frame : Type.

#[local] Instance page_ret : MRet (Action Browser) := action_ret Browser.
#[local] Instance page_bind : MBind (Action Browser) := action_bind Browser.

(** The further operations of the page, of its elements and of its frames
    that the tools below use; timeouts and pauses are in milliseconds. *)
Record Page : Type := mkPage {
  innerText : Element -> Action Browser string;
  getAttribute : Element -> string -> Action Browser (option string);
  tagNameOf : Element -> Action Browser string;
  queryAll : string -> Action Browser (list Element);
  evalAll : string -> Action Browser (list DomElement);
  bodyInnerText : Action Browser (option string);
  pause : N -> Browser -> Browser;
  selectOption : string -> OptionChoice -> N -> Action Browser unit;
  frames : Browser -> list Frame;
  frameClick : Frame -> string -> N -> Action Browser unit;
  frameQuery : Frame -> string -> Action Browser (option Element)
}.

Variable browserController : BrowserController Browser Element.
Variable page : Page.

(** [await new Promise((r) => setTimeout(r, ms))]. *)
Definition sleep (ms : N) : Action Browser unit :=
  fun b => (Returned tt, pause page ms b).

(** [page.frames()]. *)
Definition getFrames : Action Browser (list Frame) :=
  fun b => (Returned (frames page b), b).

(** A method called on [undefined]. *)
Definition undefinedFrame {A : Type} (method : string) : Action Browser A :=
  fun b =>
    (Thrown (mkError ("Cannot read properties of undefined (reading '" +:+ method +:+ "')")), b).

(** The function given to [tool] for [browser_extract_text]; [maxChars] is
    an integer when given. The logger calls are left out, here and below. *)
Definition extractTextTool (selector : string) (maxChars : option Z)
  : Action Browser string :=
  _ ← ensure browserController;
  el ← query browserController selector;
  match el with
  | None => mret ("No element found for selector: " +:+ selector)
  | Some el =>
      raw ← innerText page el;
      let text := trim raw in
      let defaultMax := 5000%Z in
      let clipped :=
        match maxChars with
        | Some maxChars => sliceTo maxChars text
        | None => sliceTo defaultMax text
        end in
      mret ("Extracted text (" +:+ pretty (String.length clipped) +:+ " chars) from "
            +:+ selector +:+ ":" +:+ nl +:+ clipped)
  end.

(** The function given to [tool] for [browser_extract_visible_text]. *)
Definition extractVisibleTextTool (maxChars : option Z) : Action Browser string :=
  _ ← ensure browserController;
  body ← bodyInnerText page;
  let text := default "" body in
  let limit := default 8000%Z maxChars in
  let clipped := substringTo limit (trim text) in
  mret ("Visible text (" +:+ pretty (String.length clipped) +:+ " chars):" +:+ nl
        +:+ clipped).

(** The function given to [tool] for [browser_wait]; [seconds] is a natural
    number when given. *)
Definition waitTool (seconds : option N) (selector : option string)
  : Action Browser string :=
  _ ← ensure browserController;
  match nonEmpty selector with
  | Some selector =>
      _ ← waitForSelector browserController selector (orElseN seconds 10 * 1000)%N;
      mret ("Element " +:+ dq +:+ selector +:+ dq +:+ " is now visible.")
  | None =>
      let secs := default 2%N seconds in
      _ ← sleep (secs * 1000)%N;
      mret ("Waited " +:+ pretty secs +:+ " second(s).")
  end.

(** The function given to [tool] for [browser_select_option]. *)
Definition selectOptionTool (selector : string) (value label : option string)
  : Action Browser string :=
  _ ← ensure browserController;
  match nonEmpty value with
  | Some value =>
      _ ← selectOption page selector (ByValue value) 10000%N;
      mret ("Selected option in " +:+ selector +:+ ".")
  | None =>
      match nonEmpty label with
      | Some label =>
          _ ← selectOption page selector (ByLabel label) 10000%N;
          mret ("Selected option in " +:+ selector +:+ ".")
      | None => mret "ERROR: Provide either value or label for the option to select."
      end
  end.

(** The function given to [tool] for [browser_search_google]. *)
Definition searchGoogleTool (query : string) : Action Browser string :=
  _ ← ensure browserController;
  let encoded := encodeURIComponent query in
  _ ← goto browserController ("https://www.google.com/search?q=" +:+ encoded);
  title ← title browserController;
  mret ("Opened Google search for " +:+ dq +:+ query +:+ dq +:+ ". Title: " +:+ title +:+
        ". Use browser_check_popups, then browser_analyze_page or browser_extract_text to get results.").

(** The function given to [tool] for [browser_frame_click]; [frameIndex] is
    an integer. *)
Definition frameClickTool (frameIndex : Z) (selector : string) : Action Browser string :=
  _ ← ensure browserController;
  frames ← getFrames;
  if (frameIndex <? 0)%Z || (Z.of_nat (length frames) <=? frameIndex)%Z
  then mret ("ERROR: Invalid frame index " +:+ pretty frameIndex +:+ ". Page has " +:+
             pretty (length frames) +:+ " frames (0 to " +:+
             pretty (Z.of_nat (length frames) - 1)%Z +:+
             "). Use browser_list_frames to see frames.")
  else
    match frames !! Z.to_nat frameIndex with
    | Some frame =>
        _ ← frameClick page frame selector 10000%N;
        mret ("Clicked " +:+ selector +:+ " in frame " +:+ pretty frameIndex +:+ ".")
    | None => undefinedFrame "click"
    end.

(** The function given to [tool] for [browser_frame_extract_text]. *)
Definition frameExtractTextTool (frameIndex : Z) (selector : string)
  : Action Browser string :=
  _ ← ensure browserController;
  frames ← getFrames;
  if (frameIndex <? 0)%Z || (Z.of_nat (length frames) <=? frameIndex)%Z
  then mret ("ERROR: Invalid frame index " +:+ pretty frameIndex +:+ ". Page has " +:+
             pretty (length frames) +:+
             " frames. Use browser_list_frames to see frames.")
  else
    match frames !! Z.to_nat frameIndex with
    | Some frame =>
        el ← frameQuery page frame selector;
        match el with
        | None =>
            mret ("No element found in frame " +:+ pretty frameIndex +:+
                  " for selector: " +:+ selector)
        | Some el =>
            raw ← innerText page el;
            let text := trim raw in
            let clipped := substringTo 5000 text in
            mret ("Frame " +:+ pretty frameIndex +:+ " content (" +:+
                  pretty (String.length clipped) +:+ " chars):" +:+ nl +:+ clipped)
        end
    | None => undefinedFrame "$"
    end.

(** The body of the inner [try] of [browser_extract_multiple]: the item read
    from the element at position [i] is pushed onto [items]. *)
Definition readItem (i : nat) (el : Element) (items : list Item)
  : Action Browser (list Item) :=
  raw ← innerText page el;
  let text := trim raw in
  href ← getAttribute page el "href";
  tagName ← tagNameOf page el;
  mret (items ++ [mkItem (i + 1) (toLowerCase tagName) (substringTo 500 text)
                    (nonEmpty href)]).

(** The [for] loop of [browser_extract_multiple] from position [i] on, over
    the elements left to visit; an element that cannot be read is skipped. *)
Fixpoint readItems (i : nat) (elements : list Element) (items : list Item)
  : Action Browser (list Item) :=
  match elements with
  | [] => mret items
  | el :: rest =>
      items ← tryCatch (readItem i el items) (fun _ => mret items);
      readItems (S i) rest items
  end.

(** What the loop of [browser_extract_multiple] pushes for the element at
    position [i] on a page in state [b]: an item when the three reads of
    the element succeed there, nothing otherwise. *)
Definition readableItem (b : Browser) (i : nat) (el : Element) : option Item :=
  match fst (innerText page el b), fst (getAttribute page el "href" b),
        fst (tagNameOf page el b) with
  | Returned raw, Returned href, Returned tagName =>
      Some (mkItem (i + 1) (toLowerCase tagName) (substringTo 500 (trim raw))
              (nonEmpty href))
  | _, _, _ => None
  end.

(** The function given to [tool] for [browser_extract_multiple]; [maxItems]
    is an integer when given. *)
Definition extractMultipleTool (selector : string) (maxItems : option Z)
  : Action Browser string :=
  _ ← ensure browserController;
  tryCatch
    (elements ← queryAll page selector;
     let limit := orElse maxItems 10 in
     let bound := Z.to_nat (Z.min (Z.of_nat (length elements)) limit) in
     items ← readItems 0 (take bound elements) [];
     mret ("Found " +:+ pretty (length elements) +:+ " elements, extracted " +:+
           pretty (length items) +:+ " items:" +:+ nl +:+
           stringify (JArr (List.map jsonOfItem items))))
    (fun e => mret ("ERROR: " +:+ message e)).

(** The function given to [tool] for [browser_find_links]; [maxLinks] is an
    integer when given. *)
Definition findLinksTool (maxLinks : option Z) : Action Browser string :=
  _ ← ensure browserController;
  tryCatch
    (elements ← evalAll page "a, button, [onclick], [role='button']";
     let links := imap linkOf (take 50 elements) in
     let limit := orElse maxLinks 20 in
     let limitedLinks := sliceListTo limit links in
     mret ("Found " +:+ pretty (length links) +:+ " clickable elements:" +:+ nl +:+
           stringify (JArr (List.map jsonOfLink limitedLinks))))
    (fun e => mret ("ERROR: " +:+ message e)).

End MoreBrowserTools.

Arguments mkPage {Browser Element Frame}.
Arguments innerText {Browser Element Frame}.
Arguments getAttribute {Browser Element Frame}.
Arguments tagNameOf {Browser Element Frame}.
Arguments queryAll {Browser Element Frame}.
Arguments evalAll {Browser Element Frame}.
Arguments bodyInnerText {Browser Element Frame}.
Arguments pause {Browser Element Frame}.
Arguments selectOption {Browser Element Frame}.
Arguments frames {Browser Element Frame}.
Arguments frameClick {Browser Element Frame}.
Arguments frameQuery {Browser Element Frame}.
Arguments sleep {Browser Element Frame}.
Arguments getFrames {Browser Element Frame}.
Arguments undefinedFrame {Browser} A.
Arguments extractTextTool {Browser Element Frame}.
Arguments extractVisibleTextTool {Browser Element Frame}.
Arguments waitTool {Browser Element Frame}.
Arguments selectOptionTool {Browser Element Frame}.
Arguments searchGoogleTool {Browser Element}.
Arguments frameClickTool {Browser Element Frame}.
Arguments frameExtractTextTool {Browser Element Frame}.
Arguments readItem {Browser Element Frame}.
Arguments readItems {Browser Element Frame}.
Arguments readableItem {Browser Element Frame}.
Arguments extractMultipleTool {Browser Element Frame}.
Arguments findLinksTool {Browser Element Frame}.

(** A page that answers.  The state of the browser counts the milliseconds
    spent in pauses, an element is its inner text, and a frame is its
    position.  The page has one paragraph, two frames, one link, and a list
    of three entries of which the second cannot be read. *)
Definition readyController : BrowserController N string :=
  mkBrowserController
    (fun b => (Returned tt, b))
    (fun url b => (Returned tt, b))
    (fun b => (Returned "Example", b))
    (fun selector timeout b => (Returned tt, b))
    (fun selector b =>
       (Returned (if String.eqb selector "p" then Some "  Hello, world  " else None), b))
    (fun element b => (Returned true, b))
    (fun selector button timeout b => (Returned tt, b)).

Definition readyPage : Page N string nat :=
  mkPage
    (fun el b =>
       (if String.eqb el "" then Thrown (mkError "Element is not attached to the DOM")
        else Returned el, b))
    (fun el name b => (Returned None, b))
    (fun el b => (Returned "LI", b))
    (fun selector b => (Returned ["one"; ""; "three"], b))
    (fun selector b =>
       (Returned [mkDomElement "A" (Some " Home ") (Some "https://example.org/") ""
                    (Some "nav main")], b))
    (fun b => (Returned (Some " body text "), b))
    (fun ms b => (b + ms)%N)
    (fun selector choice timeout b => (Returned tt, b))
    (fun b => [0; 1])
    (fun frame selector timeout b => (Returned tt, b))
    (fun frame selector b => (Returned (Some "frame text"), b)).

(** A page that keeps a log of what is asked of it: the state of the
    browser is the list of the navigations and selections made, in order. *)
Definition describeChoice (choice : OptionChoice) : string :=
  match choice with
  | ByValue value => "value=" +:+ value
  | ByLabel label => "label=" +:+ label
  end.

Definition loggingController : BrowserController (list string) string :=
  mkBrowserController
    (fun b => (Returned tt, b))
    (fun url b => (Returned tt, b ++ ["goto " +:+ url]))
    (fun b => (Returned "Example", b))
    (fun selector timeout b => (Returned tt, b))
    (fun selector b => (Returned None, b))
    (fun element b => (Returned true, b))
    (fun selector button timeout b => (Returned tt, b)).

Definition loggingPage : Page (list string) string nat :=
  mkPage
    (fun el b => (Returned el, b))
    (fun el name b => (Returned None, b))
    (fun el b => (Returned "OPTION", b))
    (fun selector b => (Returned [], b))
    (fun selector b => (Returned [], b))
    (fun b => (Returned None, b))
    (fun ms b => b)
    (fun selector choice timeout b =>
       (Returned tt, b ++ ["select " +:+ selector +:+ " " +:+ describeChoice choice]))
    (fun b => [])
    (fun frame selector timeout b => (Returned tt, b))
    (fun frame selector b => (Returned None, b)).

(** * Properties *)

(** ** Conversation memory *)

Lemma keepLast_length {A} n (l : list A) : length (keepLast n l) <= n.
Proof. unfold keepLast. rewrite length_drop. lia. Qed.

Lemma keepLast_suffix {A} n (l : list A) :
  take (length l - n) l ++ keepLast n l = l.
Proof. unfold keepLast. apply take_drop. Qed.

Lemma keepLast_fits {A} n (l : list A) : length l <= n -> keepLast n l = l.
Proof.
  intros H. unfold keepLast.
  replace (length l - n) with 0 by lia. reflexivity.
Qed.

Lemma keepLast_app {A} n (l k : list A) :
  keepLast n (keepLast n l ++ k) = keepLast n (l ++ k).
Proof.
  unfold keepLast. rewrite !length_app, length_drop.
  destruct (decide (length l <= n)) as [Hle|Hgt].
  - replace (length l - n) with 0 by lia. simpl.
    do 2 f_equal. lia.
  - replace (length l + length k - n) with ((length l - n) + length k) by lia.
    rewrite <- drop_drop.
    rewrite (drop_app_le l k (length l - n)) by lia.
    f_equal. lia.
Qed.

Lemma push_keepLast cap stored turn :
  length stored <= cap -> push cap stored turn = keepLast cap (stored ++ [turn]).
Proof.
  intros H. unfold push, keepLast. rewrite length_app. cbn [length].
  destruct (cap <? length stored + 1) eqn:Hfull.
  - apply Nat.ltb_lt in Hfull.
    replace (length stored + 1 - cap) with 1 by lia.
    destruct stored; reflexivity.
  - apply Nat.ltb_ge in Hfull.
    replace (length stored + 1 - cap) with 0 by lia. reflexivity.
Qed.

(** Turn by turn eviction keeps the last [cap] turns of everything. *)
Lemma foldl_push_keepLast cap new : forall stored,
  length stored <= cap ->
  foldl (push cap) stored new = keepLast cap (stored ++ new).
Proof.
  induction new as [|turn new IH]; intros stored H; cbn [foldl].
  - rewrite app_nil_r, keepLast_fits by exact H. reflexivity.
  - rewrite IH.
    + rewrite push_keepLast by exact H.
      rewrite keepLast_app, <- app_assoc. reflexivity.
    + rewrite push_keepLast by exact H. apply keepLast_length.
Qed.

Lemma addMessages_messages new m :
  wfStore m ->
  messages (addMessages new m) = keepLast (capacity m) (messages m ++ new).
Proof. intros H. apply foldl_push_keepLast. exact H. Qed.

Lemma addMessages_wf new m : wfStore m -> wfStore (addMessages new m).
Proof.
  intros H. unfold wfStore. rewrite addMessages_messages by exact H.
  apply keepLast_length.
Qed.

Lemma addMessages_nil m : addMessages [] m = m.
Proof. destruct m; reflexivity. Qed.

Lemma history_app log1 log2 : history (log1 ++ log2) = history log1 ++ history log2.
Proof. unfold history. rewrite map_app, concat_app. reflexivity. Qed.

Lemma count_app p log1 log2 : count p (log1 ++ log2) = count p log1 + count p log2.
Proof. unfold count. rewrite List.filter_app, length_app. reflexivity. Qed.

(** The scenario of the specification: capacity 3, two jobs of two turns. *)
Example eviction_scenario :
  let u1 := HumanMessage "u1" in let a1 := AIMessage "a1" in
  let u2 := HumanMessage "u2" in let a2 := AIMessage "a2" in
  getMessages (addMessages [u1; a1] (newMemoryStore 3)) = [u1; a1] /\
  getMessages (addMessages [u2; a2] (addMessages [u1; a1] (newMemoryStore 3)))
    = [a1; u2; a2].
Proof. split; reflexivity. Qed.

(** ** The job runner *)

(** What a job leaves in the store, in terms of the turns it appended. *)
Lemma runJob_memory userText graph m :
  wfStore m ->
  let r := runJob userText graph m in
  capacity (jobMemory r) = capacity m /\
  messages (jobMemory r) = keepLast (capacity m) (messages m ++ history (jobCalls r)).
Proof.
  intros Hwf. unfold runJob.
  destruct (graph _ 60) as [result|e]; simpl.
  - destruct (0 <? length (drop _ result)) eqn:Hlen; cbn [jobMemory jobCalls].
    + rewrite addMessages_messages by exact Hwf.
      cbn. rewrite app_nil_r. split; reflexivity.
    + cbn. rewrite app_nil_r, keepLast_fits by exact Hwf. split; reflexivity.
  - cbn. rewrite app_nil_r, keepLast_fits by exact Hwf. split; reflexivity.
Qed.

Lemma runJob_wf userText graph m : wfStore m -> wfStore (jobMemory (runJob userText graph m)).
Proof.
  intros Hwf. destruct (runJob_memory userText graph m Hwf) as [Hcap Hmsg].
  unfold wfStore. rewrite Hcap, Hmsg. apply keepLast_length.
Qed.

Lemma runJobs_memory graph tasks : forall m,
  wfStore m ->
  capacity (fst (runJobs graph tasks m)) = capacity m /\
  messages (fst (runJobs graph tasks m))
    = keepLast (capacity m) (messages m ++ history (snd (runJobs graph tasks m))).
Proof.
  induction tasks as [|task rest IH]; intros m Hwf; simpl.
  - rewrite app_nil_r, keepLast_fits by exact Hwf. split; reflexivity.
  - destruct (runJob_memory task graph m Hwf) as [Hcap Hmsg].
    specialize (IH _ (runJob_wf task graph m Hwf)).
    destruct (runJobs graph rest (jobMemory (runJob task graph m))) as [m' log].
    simpl in *. destruct IH as [IHcap IHmsg].
    split; [congruence|].
    rewrite IHmsg, Hcap, Hmsg, history_app, keepLast_app, app_assoc. reflexivity.
Qed.

(** The method of the handler and [runJob] of the entry point do the same
    to the store of the session, with the same outcome and calls. *)
Lemma telegram_runJob_agrees userText session chatId b :
  let l := TelegramBotHandler.memoryStore session in
  let r := runJob userText (TelegramBotHandler.graph session) (TelegramBotHandler.stores b l) in
  let done := TelegramBotHandler.runJob userText session chatId b in
  fst done = jobOutcome r /\
  TelegramBotHandler.stores (snd done) l = jobMemory r /\
  TelegramBotHandler.effects (snd done)
    = TelegramBotHandler.effects b ++ map (TelegramBotHandler.OnStore l) (jobCalls r).
Proof.
  intros l r done. subst r l done. unfold TelegramBotHandler.runJob, runJob.
  destruct (TelegramBotHandler.graph session _ 60) as [result|e];
    [|repeat split; reflexivity].
  destruct (0 <? length (drop _ result)) eqn:Hlen; cbn.
  - split; [reflexivity|]. split; [apply fn_lookup_insert|].
    rewrite <- app_assoc. reflexivity.
  - repeat split; reflexivity.
Qed.

(** C4. The job runner appends exactly the returned turns from index [N]
    on, where [N] is the number of stored turns before the job, and
    returns the content of the last returned turn, or the empty string when
    there is none.  When the returned sequence is the input followed by
    produced turns, that slice is the new user turn and the produced turns,
    with nothing of the prior history.  The method of the Telegram handler
    does the same to the store of its session. *)
Theorem runJob_appends_delta (userText : string) (graph : Graph)
    (memoryStore : MemoryStore) (result : list Message) :
  graph (getMessages memoryStore ++ [HumanMessage userText]) 60 = Returned result ->
  let N := getMessageCount memoryStore in
  let r := runJob userText graph memoryStore in
  jobMemory r = addMessages (drop N result) memoryStore /\
  history (jobCalls r) = drop N result /\
  count isAppend (jobCalls r) <= 1 /\
  jobOutcome r = Returned (from_option content "" (last result)) /\
  (forall produced,
     drop N ((getMessages memoryStore ++ [HumanMessage userText]) ++ produced)
     = HumanMessage userText :: produced) /\
  forall (l : nat) (chatId : Z) (b0 : TelegramBotHandler.Bot),
    let session := TelegramBotHandler.mkUserSession l graph in
    let b := TelegramBotHandler.setStore l memoryStore b0 in
    let done := TelegramBotHandler.runJob userText session chatId b in
    fst done = Returned (from_option content "" (last result)) /\
    TelegramBotHandler.stores (snd done) l = addMessages (drop N result) memoryStore.
Proof.
  intros Hgraph N r.
  assert (Hcli : jobMemory r = addMessages (drop N result) memoryStore /\
                 history (jobCalls r) = drop N result /\
                 count isAppend (jobCalls r) <= 1 /\
                 jobOutcome r = Returned (from_option content "" (last result))).
  { subst r N. unfold runJob, getMessageCount.
    rewrite Hgraph. change (messages memoryStore) with (getMessages memoryStore).
    set (delta := drop (length (getMessages memoryStore)) result).
    destruct (0 <? length delta) eqn:Hlen; cbn.
    - rewrite app_nil_r. repeat split; reflexivity || lia.
    - apply Nat.ltb_ge in Hlen.
      assert (Hnil : delta = []) by (apply length_zero_iff_nil; lia).
      rewrite Hnil, addMessages_nil.
      repeat split; reflexivity || lia. }
  destruct Hcli as (Hmem & Hhist & Hcount & Hout).
  repeat (split; [assumption|]).
  split.
  { intros produced. subst N. unfold getMessageCount, getMessages.
    rewrite <- app_assoc, drop_app_length. reflexivity. }
  intros l chatId b0 session b done.
  destruct (telegram_runJob_agrees userText session chatId b) as (Ho & Hs & _).
  fold done in Ho, Hs. cbn [TelegramBotHandler.graph TelegramBotHandler.memoryStore session] in Ho, Hs.
  assert (Hstore : TelegramBotHandler.stores b l = memoryStore).
  { subst b. cbn. apply fn_lookup_insert. }
  rewrite Hstore in Ho, Hs. fold r in Ho, Hs.
  split; congruence.
Qed.

Lemma runJob_appends_delta_witness :
  let graph := stepLoop answering [] in
  let result := [HumanMessage "hello"; AIMessage "done"] in
  graph (getMessages (newMemoryStore 50) ++ [HumanMessage "hello"]) 60 = Returned result /\
  jobMemory (runJob "hello" graph (newMemoryStore 50))
  = addMessages (drop 0 result) (newMemoryStore 50) /\
  jobOutcome (runJob "hello" graph (newMemoryStore 50)) = Returned "done".
Proof.
  intros graph result.
  assert (H : graph (getMessages (newMemoryStore 50) ++ [HumanMessage "hello"]) 60
              = Returned result) by (vm_compute; reflexivity).
  split; [exact H|].
  destruct (runJob_appends_delta "hello" graph (newMemoryStore 50) result H)
    as (Hmem & _ & _ & Hout & _ & _).
  split; [exact Hmem|exact Hout].
Defined.

(** ** The Step-Loop *)

Section StepLoopFacts.

Variable planner : Planner.
Variable registry : list Tool.
Variable stepLimit : nat.

Lemma run_S fuel s :
  run planner registry stepLimit (S fuel) s
  = if isDone s then Returned s
    else bind (step planner registry stepLimit s) (run planner registry stepLimit fuel).
Proof. reflexivity. Qed.

Lemma run_done fuel s :
  isDone s = true -> run planner registry stepLimit fuel s = Returned s.
Proof. intros H. destruct fuel; [reflexivity|]. rewrite run_S, H. reflexivity. Qed.

Lemma three_more k extra : 3 * S k + extra = S (S (S (3 * k + extra))).
Proof. lia. Qed.

(** A transition keeps the turns it finds and adds to them. *)
Lemma step_extends s s' :
  step planner registry stepLimit s = Returned s' ->
  exists produced, turns s' = turns s ++ produced.
Proof.
  unfold step. destruct (phase s) as [|calls|results|].
  - destruct (stepLimit <=? counter s); [discriminate|].
    destruct (planner (counter s) (turns s)) as [[text|calls]|e]; [| |discriminate].
    + intros [= <-]. eexists; reflexivity.
    + intros [= <-]. exists []. symmetry. apply app_nil_r.
  - destruct (stepLimit <=? counter s); [discriminate|].
    destruct (actAll registry calls) as [results|e]; [|discriminate].
    intros [= <-]. exists []. symmetry. apply app_nil_r.
  - intros [= <-]. eexists; reflexivity.
  - intros [= <-]. exists []. symmetry. apply app_nil_r.
Qed.

(** So does a run, however it ends. *)
Lemma run_extends : forall fuel s s',
  run planner registry stepLimit fuel s = Returned s' ->
  exists produced, turns s' = turns s ++ produced.
Proof.
  induction fuel as [|fuel IH]; intros s s' H.
  - injection H as <-. exists []. symmetry. apply app_nil_r.
  - rewrite run_S in H. destruct (isDone s).
    + injection H as <-. exists []. symmetry. apply app_nil_r.
    + destruct (step planner registry stepLimit s) as [s1|e] eqn:Hs; [|discriminate].
      cbn [bind] in H.
      destruct (step_extends s s1 Hs) as [p1 H1].
      destruct (IH s1 s' H) as [p2 H2].
      exists (p1 ++ p2). rewrite H2, H1, app_assoc. reflexivity.
Qed.

Hypothesis never_final :
  forall i ts, exists calls, planner i ts = Returned (ToolRequests calls).

Hypothesis tools_return :
  Forall (fun t => forall args, exists text, toolHandler t args = Returned text) registry.

Lemma act_returns call : exists text, act registry call = Returned text.
Proof.
  unfold act, lookupTool.
  destruct (List.find _ registry) as [t|] eqn:Hfind; [|eauto].
  destruct (toolSchema t (callArgs call)); [|eauto].
  apply List.find_some in Hfind as [Hin _].
  rewrite Forall_forall in tools_return.
  apply (tools_return t). apply list_elem_of_In. exact Hin.
Qed.

Lemma actAll_returns calls : exists results, actAll registry calls = Returned results.
Proof.
  induction calls as [|call rest [results IH]]; [eexists; reflexivity|].
  destruct (act_returns call) as [text Ht].
  cbn [actAll]. rewrite Ht, IH. eexists; reflexivity.
Qed.

(** With a planner that only ever requests tools, and tools that return,
    every node execution that the limit allows is made: [k] rounds of the
    planner, each followed by its tools, bring the counter to the limit. *)
Lemma run_to_limit : forall k c t,
  c + 2 * k = stepLimit ->
  exists s,
    run planner registry stepLimit (3 * k) (mkLoopState Think c t) = Returned s /\
    phase s = Think /\ counter s = stepLimit /\ exists produced, turns s = t ++ produced.
Proof.
  induction k as [|k IH]; intros c t Hc.
  - eexists. split; [reflexivity|]. cbn. split; [reflexivity|]. split; [lia|].
    exists []. symmetry. apply app_nil_r.
  - replace (3 * S k) with (3 * S k + 0) by lia.
    rewrite three_more, Nat.add_0_r, run_S. cbn [isDone phase step counter turns].
    replace (stepLimit <=? c) with false by (symmetry; apply Nat.leb_gt; lia).
    destruct (never_final c t) as [calls ->]. cbn [bind].
    rewrite run_S. cbn [isDone phase step counter turns].
    replace (stepLimit <=? S c) with false by (symmetry; apply Nat.leb_gt; lia).
    destruct (actAll_returns calls) as [results ->]. cbn [bind].
    rewrite run_S. cbn [isDone phase step counter turns bind].
    destruct (IH (S (S c)) (t ++ map ToolMessage results))
      as (s & Hrun & Hd & Hcnt & produced & Hp); [lia|].
    exists s. split; [exact Hrun|]. split; [exact Hd|]. split; [exact Hcnt|].
    eexists. rewrite Hp, <- app_assoc. reflexivity.
Qed.

(** ... and the next transition is refused: the run rejects. *)
Lemma run_rejects : forall k extra c t,
  c + 2 * k = stepLimit ->
  run planner registry stepLimit (3 * k + S extra) (mkLoopState Think c t)
  = Thrown (recursionError stepLimit).
Proof.
  induction k as [|k IH]; intros extra c t Hc.
  - cbn [Nat.mul Nat.add]. rewrite run_S. cbn [isDone phase step counter turns].
    replace (stepLimit <=? c) with true by (symmetry; apply Nat.leb_le; lia).
    reflexivity.
  - rewrite three_more, run_S. cbn [isDone phase step counter turns].
    replace (stepLimit <=? c) with false by (symmetry; apply Nat.leb_gt; lia).
    destruct (never_final c t) as [calls ->]. cbn [bind].
    rewrite run_S. cbn [isDone phase step counter turns].
    replace (stepLimit <=? S c) with false by (symmetry; apply Nat.leb_gt; lia).
    destruct (actAll_returns calls) as [results ->]. cbn [bind].
    rewrite run_S. cbn [isDone phase step counter turns bind].
    apply IH. lia.
Qed.

(** Not earlier: with fewer transitions the loop is still going, within
    the limit. *)
Lemma run_still_going : forall fuel k c t,
  c + 2 * k = stepLimit ->
  fuel <= 3 * k ->
  exists s,
    run planner registry stepLimit fuel (mkLoopState Think c t) = Returned s /\
    isDone s = false /\ counter s <= stepLimit.
Proof.
  induction fuel as [fuel IH] using lt_wf_ind. intros k c t Hc Hfuel.
  destruct fuel as [|[|[|fuel]]].
  - eexists. split; [reflexivity|]. cbn. split; [reflexivity|lia].
  - rewrite run_S. cbn [isDone phase step counter turns].
    replace (stepLimit <=? c) with false by (symmetry; apply Nat.leb_gt; lia).
    destruct (never_final c t) as [calls ->]. cbn [bind].
    eexists. split; [reflexivity|]. cbn. split; [reflexivity|lia].
  - rewrite run_S. cbn [isDone phase step counter turns].
    replace (stepLimit <=? c) with false by (symmetry; apply Nat.leb_gt; lia).
    destruct (never_final c t) as [calls ->]. cbn [bind].
    rewrite run_S. cbn [isDone phase step counter turns].
    replace (stepLimit <=? S c) with false by (symmetry; apply Nat.leb_gt; lia).
    destruct (actAll_returns calls) as [results ->]. cbn [bind].
    eexists. split; [reflexivity|]. cbn. split; [reflexivity|lia].
  - rewrite run_S. cbn [isDone phase step counter turns].
    replace (stepLimit <=? c) with false by (symmetry; apply Nat.leb_gt; lia).
    destruct (never_final c t) as [calls ->]. cbn [bind].
    rewrite run_S. cbn [isDone phase step counter turns].
    replace (stepLimit <=? S c) with false by (symmetry; apply Nat.leb_gt; lia).
    destruct (actAll_returns calls) as [results ->]. cbn [bind].
    rewrite run_S. cbn [isDone phase step counter turns bind].
    apply (IH fuel ltac:(lia) (k - 1)); lia.
Qed.

End StepLoopFacts.

(** The graph returns its input followed by what the job produced. *)
Lemma stepLoop_extends planner registry input stepLimit result :
  stepLoop planner registry input stepLimit = Returned result ->
  exists produced, result = input ++ produced.
Proof.
  unfold stepLoop. intros H.
  destruct (run planner registry stepLimit (transitions stepLimit) (start input))
    as [s|e] eqn:Hrun; cbn in H; [|discriminate].
  injection H as <-.
  exact (run_extends planner registry stepLimit _ _ _ Hrun).
Qed.




(** ** Failure of a job *)

Lemma onLine_memory graph line c1 c2 :
  cliMemory c1 = cliMemory c2 ->
  cliMemory (onLine graph line c1) = cliMemory (onLine graph line c2).
Proof.
  intros H. unfold onLine. rewrite H.
  destruct (String.eqb (trim line) ""); [exact H|].
  destruct (String.eqb (trim line) "/clear" || String.eqb (trim line) "/reset"); [reflexivity|].
  destruct (String.eqb (trim line) "/memory" || String.eqb (trim line) "/stats"); [reflexivity|].
  destruct (jobOutcome (runJob (trim line) graph (cliMemory c2))); reflexivity.
Qed.

(** C5. For a graph that returns its input followed by what the job
    produced, a job that succeeds calls [addMessages] exactly once; a job
    that fails calls it not at all and leaves the store as it was.  In the
    CLI the failure is caught and reported on the console as a job error,
    and the next line is handled on the same memory as if the failed job
    had not been run. *)
Theorem job_failure_atomic (graph : Graph) (line : string) (c : Cli) :
  returnsWholeSequence graph ->
  let r := runJob (trim line) graph (cliMemory c) in
  match jobOutcome r with
  | Returned _ => count isAppend (jobCalls r) = 1
  | Thrown e =>
      count isAppend (jobCalls r) = 0 /\
      jobMemory r = cliMemory c /\
      if isTask (trim line)
      then cliMemory (onLine graph line c) = cliMemory c /\
           console (onLine graph line c) = console c ++ [ConsoleError "Job error:" (message e)] /\
           forall next, cliMemory (onLine graph next (onLine graph line c))
                        = cliMemory (onLine graph next c)
      else True
  end.
Proof.
  intros Hcontract r.
  assert (Honline : forall e, jobOutcome r = Thrown e ->
            isTask (trim line) = true ->
            onLine graph line c
            = mkCli (jobMemory r) (cliCalls c ++ jobCalls r)
                    (console c ++ [ConsoleError "Job error:" (message e)])).
  { intros e He Htask. unfold onLine, isTask in *.
    destruct (String.eqb (trim line) ""); [discriminate|].
    destruct (String.eqb (trim line) "/clear" || String.eqb (trim line) "/reset"); [discriminate|].
    destruct (String.eqb (trim line) "/memory" || String.eqb (trim line) "/stats"); [discriminate|].
    fold r. rewrite He. reflexivity. }
  revert Honline. subst r. unfold runJob.
  destruct (graph _ 60) as [result|e] eqn:Hgraph.
  - intros _.
    destruct (Hcontract _ _ _ Hgraph) as [produced ->].
    rewrite <- app_assoc, drop_app_length. cbn. reflexivity.
  - cbn [jobOutcome jobMemory jobCalls]. intros Honline.
    split; [reflexivity|]. split; [reflexivity|].
    destruct (isTask (trim line)) eqn:Htask; [|exact I].
    rewrite (Honline e eq_refl eq_refl). cbn [cliMemory console].
    split; [reflexivity|]. split; [reflexivity|].
    intros next. apply onLine_memory. reflexivity.
Qed.

(** The Step-Loop honours the contract; with a planner that fails, the job
    of the line fails and nothing is appended. *)
Lemma job_failure_atomic_witness :
  let graph := stepLoop failingPlanner titleOnly in
  let c := mkCli (newMemoryStore 50) [] banner in
  returnsWholeSequence graph /\
  count isAppend (jobCalls (runJob "open example.com" graph (cliMemory c))) = 0 /\
  jobMemory (runJob "open example.com" graph (cliMemory c)) = cliMemory c.
Proof.
  intros graph c.
  assert (H : returnsWholeSequence graph).
  { intros input limit result. apply stepLoop_extends. }
  split; [exact H|].
  pose proof (job_failure_atomic graph "  open example.com " c H) as Hjob.
  change (trim "  open example.com ") with "open example.com" in Hjob.
  cbv zeta in Hjob.
  change (jobOutcome (runJob "open example.com" graph (cliMemory c)))
    with (@Thrown string (mkError "429 rate limit exceeded")) in Hjob.
  destruct Hjob as (Hcount & Hmem & _).
  split; [exact Hcount|exact Hmem].
Defined.

(** ** Start-up *)

Lemma receive_exited graph inputs code e :
  foldl (receive graph) (Exited code e) inputs = Exited code e.
Proof. induction inputs as [|i rest IH]; [reflexivity|exact IH]. Qed.

(** C9. Without [OPENAI_API_KEY] in the environment (or with an empty
    value, which JavaScript treats alike) [createLLM] throws an error whose
    message names the variable and tells how to set it; [main] then exits
    with code 1 in either mode, and no input is ever turned into a job.
    With a non-empty key [createLLM] returns and [main] does not exit. *)
Theorem missing_credential_refuses_start (env : Env) (graph : Graph)
    (inputs : list (Z * string)) :
  let refused :=
    createLLM env = Thrown (mkError remediation) /\
    main env = Exited 1 (mkError remediation) /\
    jobsRun (foldl (receive graph) (main env) inputs) = 0 in
  match env !! "OPENAI_API_KEY" with
  | None => refused
  | Some key =>
      if String.eqb key "" then refused
      else createLLM env = Returned (mkChatOpenAI "gpt-4o" 20) /\
           isExited (main env) = false
  end /\
  includes "OPENAI_API_KEY is required." remediation = true /\
  includes "Create a .env file in the project root with: OPENAI_API_KEY=" remediation = true /\
  includes "export OPENAI_API_KEY=" remediation = true.
Proof.
  intros refused.
  split; [|repeat split; vm_compute; reflexivity].
  assert (Hrefused : truthy (env !! "OPENAI_API_KEY") = false -> refused).
  { intros Hkey. unfold refused.
    assert (Hllm : createLLM env = Thrown (mkError remediation)).
    { unfold createLLM. rewrite Hkey. reflexivity. }
    assert (Hmain : main env = Exited 1 (mkError remediation)).
    { unfold main, TelegramBotHandler.new. rewrite Hllm.
      destruct (truthy (env !! "TELEGRAM_BOT_TOKEN")); reflexivity. }
    split; [exact Hllm|]. split; [exact Hmain|].
    rewrite Hmain, receive_exited. reflexivity. }
  destruct (env !! "OPENAI_API_KEY") as [key|] eqn:Hkey.
  - destruct (String.eqb key "") eqn:Hempty.
    + apply Hrefused. cbn. rewrite Hempty. reflexivity.
    + assert (Hllm : createLLM env = Returned (mkChatOpenAI "gpt-4o" 20)).
      { unfold createLLM. rewrite Hkey. cbn. rewrite Hempty. reflexivity. }
      split; [exact Hllm|].
      unfold main, TelegramBotHandler.new. rewrite Hllm.
      destruct (truthy (env !! "TELEGRAM_BOT_TOKEN")); reflexivity.
  - apply Hrefused. reflexivity.
Qed.

(** ** Commands of the chat surface *)

Section TelegramFacts.

Import TelegramBotHandler.

Variable createGraph : Graph.

Lemma invocations_performAll es b :
  invocations (performAll es b)
  = invocations b + count isInvoke (concat (map storeCall es)).
Proof.
  unfold invocations, performAll. cbn [effects].
  rewrite map_app, concat_app, count_app. reflexivity.
Qed.

Lemma invocations_perform e b :
  invocations (perform e b) = invocations b + count isInvoke (storeCall e).
Proof.
  unfold invocations, perform. cbn [effects].
  rewrite map_app, concat_app, count_app. cbn. rewrite app_nil_r. reflexivity.
Qed.

Lemma invocations_setStore l m b : invocations (setStore l m b) = invocations b.
Proof. reflexivity. Qed.

Lemma getOrCreateSession_effects userId b :
  effects (snd (getOrCreateSession createGraph userId b)) = effects b.
Proof.
  unfold getOrCreateSession. destruct (sessions b !! userId); reflexivity.
Qed.

Lemma getOrCreateSession_invocations userId b :
  invocations (snd (getOrCreateSession createGraph userId b)) = invocations b.
Proof. unfold invocations. rewrite getOrCreateSession_effects. reflexivity. Qed.

Lemma onClear_invocations chatId b :
  invocations (onClear createGraph chatId b) = invocations b.
Proof.
  unfold onClear.
  pose proof (getOrCreateSession_invocations chatId b) as H.
  destruct (getOrCreateSession createGraph chatId b) as [session b1].
  rewrite invocations_performAll, invocations_setStore. cbn in *. lia.
Qed.

Lemma onMemory_invocations chatId b :
  invocations (onMemory createGraph chatId b) = invocations b.
Proof.
  unfold onMemory.
  pose proof (getOrCreateSession_invocations chatId b) as H.
  destruct (getOrCreateSession createGraph chatId b) as [session b1].
  rewrite invocations_performAll. cbn in *. lia.
Qed.

(** The text callbacks never start a job. *)
Lemma onText_invocations chatId t b :
  invocations (onText createGraph chatId t b) = invocations b.
Proof.
  unfold onText, when.
  destruct (includes "/memory" t || includes "/stats" t);
    [rewrite onMemory_invocations|];
    (destruct (includes "/clear" t || includes "/reset" t);
       [rewrite onClear_invocations|]);
    (destruct (includes "/help" t);
       [unfold onHelp; rewrite invocations_perform; cbn [storeCall count List.filter length]; rewrite Nat.add_0_r|]);
    (destruct (includes "/start" t);
       [unfold onStart; rewrite invocations_perform; cbn [storeCall count List.filter length]; rewrite Nat.add_0_r|]);
    reflexivity.
Qed.

Lemma onText_silent chatId t b :
  mentionsCommand t = false -> onText createGraph chatId t b = b.
Proof.
  unfold mentionsCommand, commands. cbn [existsb]. intros H.
  repeat (apply orb_false_elim in H; destruct H as [? H]).
  unfold onText, when.
  repeat match goal with Hc : includes _ t = false |- _ => rewrite Hc; clear Hc end.
  reflexivity.
Qed.

(** C10 (amended). A chat message whose text begins with "/" never starts
    a job; when in addition none of the six command words occurs anywhere
    in the text, the message is ignored altogether: the handler is left
    exactly as it was, so no session is created, no store is touched and
    nothing is sent.  In the CLI a line that is empty once trimmed leaves
    the daemon exactly as it was. *)
Theorem unknown_command_ignored (chatId : Z) (text : string) (b : Bot)
    (line : string) (c : Cli) :
  (if startsWith "/" text
   then invocations (processUpdate createGraph chatId (Some text) b) = invocations b /\
        if mentionsCommand text then True
        else processUpdate createGraph chatId (Some text) b = b
   else True) /\
  (if String.eqb (trim line) "" then onLine createGraph line c = c else True).
Proof.
  split.
  - destruct (startsWith "/" text) eqn:Hslash; [|exact I].
    unfold processUpdate, dispatch, onMessage. rewrite Hslash. cbn [from_option].
    split; [apply onText_invocations|].
    destruct (mentionsCommand text) eqn:Hm; [exact I|].
    apply onText_silent. exact Hm.
  - unfold onLine. destruct (String.eqb (trim line) ""); [reflexivity|exact I].
Qed.

End TelegramFacts.

(** C10, as stated, fails: "/clearall" begins with "/" and is not a
    command, yet the pattern of the clear command occurs in it; a session
    is created for the chat, its store is cleared and a reply is sent. *)
Lemma unknown_command_answered :
  let before := TelegramBotHandler.initial in
  let after :=
    TelegramBotHandler.processUpdate (stepLoop answering []) 7 (Some "/clearall") before in
  startsWith "/" "/clearall" = true /\
  TelegramBotHandler.isCommand "/clearall" = false /\
  TelegramBotHandler.sessions before !! 7%Z = None /\
  TelegramBotHandler.memoryStore <$> TelegramBotHandler.sessions after !! 7%Z = Some 0 /\
  TelegramBotHandler.effects after
  = [TelegramBotHandler.OnStore 0 Clear;
     TelegramBotHandler.SendMessage 7 "✓ Conversation history cleared."] /\
  after <> before.
Proof.
  repeat split; try (vm_compute; reflexivity).
  intros H. apply (f_equal TelegramBotHandler.allocated) in H. vm_compute in H. discriminate.
Qed.

(** ** Sessions *)

Section SessionFacts.

Import TelegramBotHandler.

Variable createGraph : Graph.

Lemma getOrCreateSession_existing userId s b :
  sessions b !! userId = Some s -> getOrCreateSession createGraph userId b = (s, b).
Proof. intros H. unfold getOrCreateSession. rewrite H. reflexivity. Qed.

Lemma getOrCreateSession_lookup userId b :
  sessions (snd (getOrCreateSession createGraph userId b)) !! userId
  = Some (fst (getOrCreateSession createGraph userId b)).
Proof.
  unfold getOrCreateSession.
  destruct (sessions b !! userId) as [s|] eqn:H; cbn; [exact H|].
  apply lookup_insert_eq.
Qed.

Lemma getOrCreateSession_keeps userId id s b :
  sessions b !! id = Some s ->
  sessions (snd (getOrCreateSession createGraph userId b)) !! id = Some s.
Proof.
  intros H. unfold getOrCreateSession.
  destruct (sessions b !! userId) as [s'|] eqn:Hu; cbn; [exact H|].
  rewrite lookup_insert_ne; [exact H|]. intros Heq. subst. congruence.
Qed.

Lemma getOrCreateSession_consistent userId b :
  consistent b -> consistent (snd (getOrCreateSession createGraph userId b)).
Proof.
  intros [Hlt Hinj]. unfold getOrCreateSession.
  destruct (sessions b !! userId) as [s'|] eqn:Hu; cbn; [split; assumption|].
  split.
  - intros id s. cbn. rewrite lookup_insert.
    destruct (decide (userId = id)) as [<-|Hne]; cbn.
    + intros [= <-]. cbn. lia.
    + intros H. apply Hlt in H. lia.
  - intros id1 id2 s1 s2. cbn. rewrite !lookup_insert.
    destruct (decide (userId = id1)) as [<-|Hne1];
      destruct (decide (userId = id2)) as [<-|Hne2]; cbn.
    + reflexivity.
    + intros [= <-] H2 Heq. apply Hlt in H2. cbn in Heq. lia.
    + intros H1 [= <-] Heq. apply Hlt in H1. cbn in Heq. lia.
    + apply Hinj.
Qed.

Lemma sameSessions_refl b : sameSessions b b.
Proof. split; reflexivity. Qed.

Lemma sameSessions_trans b1 b2 b3 :
  sameSessions b1 b2 -> sameSessions b2 b3 -> sameSessions b1 b3.
Proof. intros [] []. split; congruence. Qed.

Lemma sameSessions_consistent b b' :
  sameSessions b b' -> consistent b -> consistent b'.
Proof. intros [Hs Ha] Hc. unfold consistent. rewrite Hs, Ha. exact Hc. Qed.

Lemma extends_consistent chatId b b' :
  extends createGraph chatId b b' -> consistent b -> consistent b'.
Proof.
  intros [H|H] Hc.
  - eapply sameSessions_consistent; eassumption.
  - eapply sameSessions_consistent; [exact H|].
    apply getOrCreateSession_consistent. exact Hc.
Qed.

Lemma extends_keeps chatId b b' id s :
  extends createGraph chatId b b' -> sessions b !! id = Some s -> sessions b' !! id = Some s.
Proof.
  intros [[Hs _]|[Hs _]] H; rewrite Hs; [exact H|].
  apply getOrCreateSession_keeps. exact H.
Qed.

Lemma getOrCreateSession_idem chatId b :
  getOrCreateSession createGraph chatId (snd (getOrCreateSession createGraph chatId b))
  = getOrCreateSession createGraph chatId b.
Proof.
  rewrite (getOrCreateSession_existing chatId _ _ (getOrCreateSession_lookup chatId b)).
  destruct (getOrCreateSession createGraph chatId b); reflexivity.
Qed.

Lemma extends_trans chatId b1 b2 b3 :
  extends createGraph chatId b1 b2 -> extends createGraph chatId b2 b3 -> extends createGraph chatId b1 b3.
Proof.
  assert (Hmono : forall x y, sameSessions x y ->
            sameSessions (snd (getOrCreateSession createGraph chatId x))
                         (snd (getOrCreateSession createGraph chatId y))).
  { intros x y [Hs Ha]. unfold getOrCreateSession. rewrite Hs, Ha.
    destruct (sessions x !! chatId); cbn; split; cbn; congruence. }
  intros [H12|H12] [H23|H23].
  - left. eapply sameSessions_trans; eassumption.
  - right. eapply sameSessions_trans; [apply Hmono; exact H12|exact H23].
  - right. eapply sameSessions_trans; eassumption.
  - right. eapply sameSessions_trans; [|exact H23].
    apply Hmono in H12. rewrite getOrCreateSession_idem in H12. exact H12.
Qed.

Lemma job_extends chatId text b : extends createGraph chatId b (job createGraph chatId text b).
Proof.
  right. unfold job, runJob.
  destruct (getOrCreateSession createGraph chatId b) as [session b1]. cbn [snd].
  destruct (graph session _ 60) as [result|e]; [|split; reflexivity].
  destruct (0 <? length _); split; reflexivity.
Qed.

Lemma onClear_extends chatId b : extends createGraph chatId b (onClear createGraph chatId b).
Proof.
  right. unfold onClear.
  destruct (getOrCreateSession createGraph chatId b) as [session b1].
  split; reflexivity.
Qed.

Lemma onMemory_extends chatId b : extends createGraph chatId b (onMemory createGraph chatId b).
Proof.
  right. unfold onMemory.
  destruct (getOrCreateSession createGraph chatId b) as [session b1].
  split; reflexivity.
Qed.

Lemma onText_extends chatId t b : extends createGraph chatId b (onText createGraph chatId t b).
Proof.
  unfold onText, when.
  eapply extends_trans; [|destruct (includes "/memory" t || includes "/stats" t);
                           [apply onMemory_extends|left; apply sameSessions_refl]].
  eapply extends_trans; [|destruct (includes "/clear" t || includes "/reset" t);
                           [apply onClear_extends|left; apply sameSessions_refl]].
  left. destruct (includes "/help" t), (includes "/start" t); split; reflexivity.
Qed.

Lemma dispatch_extends chatId text b :
  extends createGraph chatId b (fst (dispatch createGraph chatId text b)).
Proof.
  unfold dispatch.
  assert (H : sameSessions b (fst (onMessage chatId text b))).
  { unfold onMessage. destruct text as [t|]; [|split; reflexivity].
    destruct (startsWith "/" t); [split; reflexivity|].
    destruct (String.length (trim t) =? 0); split; reflexivity. }
  destruct (onMessage chatId text b) as [b1 task]. cbn [fst] in *.
  eapply extends_trans; [left; exact H|].
  destruct text as [t|]; cbn [from_option]; [apply onText_extends|].
  left. apply sameSessions_refl.
Qed.

Lemma processUpdate_extends chatId text b :
  extends createGraph chatId b (processUpdate createGraph chatId text b).
Proof.
  unfold processUpdate.
  pose proof (dispatch_extends chatId text b) as H.
  destruct (dispatch createGraph chatId text b) as [b1 [t|]]; cbn [fst] in H; [|exact H].
  eapply extends_trans; [exact H|apply job_extends].
Qed.

Lemma initial_consistent : consistent initial.
Proof.
  split.
  - intros id s H. cbn in H. rewrite lookup_empty in H. discriminate.
  - intros id1 id2 s1 s2 H. cbn in H. rewrite lookup_empty in H. discriminate.
Qed.

Lemma processAll_consistent updates : forall b,
  consistent b -> consistent (processAll createGraph updates b).
Proof.
  induction updates as [|[chatId text] rest IH]; intros b Hc; [exact Hc|].
  cbn. apply IH. eapply extends_consistent; [apply processUpdate_extends|exact Hc].
Qed.

End SessionFacts.

Section IsolationFacts.

Import TelegramBotHandler.

Variable createGraph : Graph.

Lemma getOrCreateSession_own chatId b l :
  l < allocated b ->
  (forall s, sessions b !! chatId = Some s -> memoryStore s <> l) ->
  memoryStore (fst (getOrCreateSession createGraph chatId b)) <> l /\
  stores (snd (getOrCreateSession createGraph chatId b)) l = stores b l.
Proof.
  intros Hl Hown. unfold getOrCreateSession.
  destruct (sessions b !! chatId) as [s|] eqn:Hs; cbn.
  - split; [apply Hown; reflexivity|reflexivity].
  - split; [lia|]. apply fn_lookup_insert_ne. lia.
Qed.

Lemma getOrCreateSession_allocated chatId b :
  allocated b <= allocated (snd (getOrCreateSession createGraph chatId b)).
Proof.
  unfold getOrCreateSession. destruct (sessions b !! chatId); cbn; lia.
Qed.

Lemma othersKept_refl chatId b : othersKept chatId b b.
Proof. intros l _ _. reflexivity. Qed.

Lemma othersKept_same chatId b b' :
  stores b' = stores b -> othersKept chatId b b'.
Proof. intros H l _ _. rewrite H. reflexivity. Qed.

Lemma othersKept_trans chatId b1 b2 b3 :
  extends createGraph chatId b1 b2 ->
  othersKept chatId b1 b2 -> othersKept chatId b2 b3 -> othersKept chatId b1 b3.
Proof.
  intros Hext H12 H23 l Hl Hown.
  rewrite <- (H12 l Hl Hown).
  destruct (getOrCreateSession_own chatId b1 l Hl Hown) as [Hne _].
  pose proof (getOrCreateSession_allocated chatId b1) as Hal.
  pose proof (getOrCreateSession_lookup createGraph chatId b1) as Hlk.
  apply H23.
  - destruct Hext as [[_ Ha]|[_ Ha]]; rewrite Ha; lia.
  - intros s Hs. destruct Hext as [[Hss _]|[Hss _]]; rewrite Hss in Hs.
    + apply Hown. exact Hs.
    + rewrite Hlk in Hs. injection Hs as <-. exact Hne.
Qed.

Lemma job_othersKept chatId text b : othersKept chatId b (job createGraph chatId text b).
Proof.
  intros l Hl Hown.
  destruct (getOrCreateSession_own chatId b l Hl Hown) as [Hne Hst].
  unfold job, runJob.
  destruct (getOrCreateSession createGraph chatId b) as [session b1]. cbn [fst snd] in *.
  destruct (graph session _ 60) as [result|e]; [|exact Hst].
  destruct (0 <? length _); cbn; [|exact Hst].
  rewrite fn_lookup_insert_ne by exact Hne. exact Hst.
Qed.

Lemma onClear_othersKept chatId b : othersKept chatId b (onClear createGraph chatId b).
Proof.
  intros l Hl Hown.
  destruct (getOrCreateSession_own chatId b l Hl Hown) as [Hne Hst].
  unfold onClear.
  destruct (getOrCreateSession createGraph chatId b) as [session b1]. cbn [fst snd] in *.
  cbn. rewrite fn_lookup_insert_ne by exact Hne. exact Hst.
Qed.

Lemma onMemory_othersKept chatId b : othersKept chatId b (onMemory createGraph chatId b).
Proof.
  intros l Hl Hown.
  destruct (getOrCreateSession_own chatId b l Hl Hown) as [Hne Hst].
  unfold onMemory.
  destruct (getOrCreateSession createGraph chatId b) as [session b1]. cbn [fst snd] in *.
  exact Hst.
Qed.

Lemma processUpdate_othersKept chatId text b :
  othersKept chatId b (processUpdate createGraph chatId text b).
Proof.
  assert (Hmsg : stores (fst (onMessage chatId text b)) = stores b /\
                 sameSessions b (fst (onMessage chatId text b))).
  { unfold onMessage. destruct text as [t|]; [|repeat split].
    destruct (startsWith "/" t); [repeat split|].
    destruct (String.length (trim t) =? 0); repeat split. }
  assert (Htext : forall t b0, othersKept chatId b0 (onText createGraph chatId t b0)).
  { intros t b0. unfold onText, when.
    set (b1 := if includes "/start" t then onStart chatId b0 else b0).
    set (b2 := if includes "/help" t then onHelp chatId b1 else b1).
    set (b3 := if includes "/clear" t || includes "/reset" t
               then onClear createGraph chatId b2 else b2).
    assert (H02 : sameSessions b0 b2 /\ stores b2 = stores b0).
    { subst b2 b1. destruct (includes "/help" t), (includes "/start" t); repeat split. }
    destruct H02 as [Hs02 Hst02].
    assert (H23 : extends createGraph chatId b2 b3 /\ othersKept chatId b2 b3).
    { subst b3. destruct (includes "/clear" t || includes "/reset" t).
      - split; [apply onClear_extends|apply onClear_othersKept].
      - split; [left; apply sameSessions_refl|apply othersKept_refl]. }
    destruct H23 as [He23 Hk23].
    eapply othersKept_trans with (b2 := b2);
      [left; exact Hs02|apply othersKept_same; exact Hst02|].
    eapply othersKept_trans with (b2 := b3); [exact He23|exact Hk23|].
    destruct (includes "/memory" t || includes "/stats" t);
      [apply onMemory_othersKept|apply othersKept_refl]. }
  unfold processUpdate.
  pose proof (dispatch_extends createGraph chatId text b) as Hext.
  unfold dispatch in *.
  destruct (onMessage chatId text b) as [b1 task]. cbn [fst] in *.
  destruct Hmsg as [Hst Hsame].
  assert (Hd : othersKept chatId b (from_option (onText createGraph chatId) id text b1)).
  { eapply othersKept_trans with (b2 := b1);
      [left; exact Hsame|apply othersKept_same; exact Hst|].
    destruct text as [t|]; cbn [from_option]; [apply Htext|apply othersKept_refl]. }
  destruct task as [t|]; [|exact Hd].
  eapply othersKept_trans; [exact Hext|exact Hd|apply job_othersKept].
Qed.

(** The input of the planner in a job: the turns of the store of the chat
    followed by the new user turn. *)
Lemma job_invokes chatId text b :
  let session := fst (getOrCreateSession createGraph chatId b) in
  let b1 := snd (getOrCreateSession createGraph chatId b) in
  exists rest,
    effects (job createGraph chatId text b)
    = effects b
        ++ OnStore (memoryStore session) GetMessages
        :: OnStore (memoryStore session)
             (Invoke (getMessages (stores b1 (memoryStore session)) ++ [HumanMessage text]) 60)
        :: rest.
Proof.
  intros session b1. subst session b1.
  pose proof (getOrCreateSession_effects createGraph chatId b) as Heff.
  unfold job, runJob.
  destruct (getOrCreateSession createGraph chatId b) as [session b1]. cbn [fst snd] in *.
  destruct (graph session _ 60) as [result|e].
  - destruct (0 <? length _); cbn; rewrite Heff, <- !app_assoc; cbn; eexists; reflexivity.
  - cbn. rewrite Heff, <- !app_assoc. cbn. eexists; reflexivity.
Qed.

End IsolationFacts.

(** C6. Session registry and isolation, for a handler in any state reached
    from its construction by handling messages.  [getOrCreateSession]
    returns the session of an identity that has one, leaving the handler as
    it is, and otherwise adds exactly one session, whose store is a new,
    empty one of capacity 50; asking again for the same identity gives the
    same session and creates nothing.  Two distinct identities have
    distinct stores; a message of the first leaves the store and the
    session of the second as they were; and the planner input of a job of
    the first is the content of its own store followed by the new user
    turn. *)
Theorem session_isolation (createGraph : Graph) (updates : list (Z * option string))
    (id1 id2 : Z) (text : option string) (task : string) :
  id1 <> id2 ->
  let b := TelegramBotHandler.processAll createGraph updates TelegramBotHandler.initial in
  let r1 := TelegramBotHandler.getOrCreateSession createGraph id1 b in
  let r2 := TelegramBotHandler.getOrCreateSession createGraph id2 (snd r1) in
  let own := TelegramBotHandler.memoryStore (fst r1) in
  let other := TelegramBotHandler.memoryStore (fst r2) in
  let after := TelegramBotHandler.processUpdate createGraph id1 text (snd r2) in
  match TelegramBotHandler.sessions b !! id1 with
  | Some s => r1 = (s, b)
  | None =>
      TelegramBotHandler.sessions (snd r1) = <[id1 := fst r1]> (TelegramBotHandler.sessions b) /\
      TelegramBotHandler.allocated (snd r1) = S (TelegramBotHandler.allocated b) /\
      own = TelegramBotHandler.allocated b /\
      TelegramBotHandler.stores (snd r1) own = newMemoryStore 50
  end /\
  TelegramBotHandler.getOrCreateSession createGraph id1 (snd r1) = r1 /\
  TelegramBotHandler.getOrCreateSession createGraph id1 (snd r2) = (fst r1, snd r2) /\
  own <> other /\
  TelegramBotHandler.stores after other = TelegramBotHandler.stores (snd r2) other /\
  TelegramBotHandler.getOrCreateSession createGraph id2 after = (fst r2, after) /\
  exists rest,
    TelegramBotHandler.effects (TelegramBotHandler.job createGraph id1 task (snd r2))
    = TelegramBotHandler.effects (snd r2)
        ++ TelegramBotHandler.OnStore own GetMessages
        :: TelegramBotHandler.OnStore own
             (Invoke (getMessages (TelegramBotHandler.stores (snd r2) own) ++ [HumanMessage task]) 60)
        :: rest.
Proof.
  intros Hne b r1 r2 own other after.
  assert (Hb : TelegramBotHandler.consistent b).
  { apply processAll_consistent, initial_consistent. }
  assert (Hb1 : TelegramBotHandler.consistent (snd r1)).
  { apply getOrCreateSession_consistent. exact Hb. }
  assert (Hb2 : TelegramBotHandler.consistent (snd r2)).
  { apply getOrCreateSession_consistent. exact Hb1. }
  assert (Hl1 : TelegramBotHandler.sessions (snd r1) !! id1 = Some (fst r1)).
  { apply getOrCreateSession_lookup. }
  assert (Hl2 : TelegramBotHandler.sessions (snd r2) !! id2 = Some (fst r2)).
  { apply getOrCreateSession_lookup. }
  assert (Hl12 : TelegramBotHandler.sessions (snd r2) !! id1 = Some (fst r1)).
  { apply getOrCreateSession_keeps. exact Hl1. }
  assert (Hdistinct : own <> other).
  { intros Heq. apply Hne. destruct Hb2 as [_ Hinj]. exact (Hinj _ _ _ _ Hl12 Hl2 Heq). }
  split.
  { subst r1 own. unfold TelegramBotHandler.getOrCreateSession.
    destruct (TelegramBotHandler.sessions b !! id1) as [s|]; [reflexivity|].
    cbn. repeat split. apply fn_lookup_insert. }
  split.
  { rewrite (getOrCreateSession_existing _ _ _ _ Hl1). destruct r1; reflexivity. }
  split.
  { apply getOrCreateSession_existing. exact Hl12. }
  split; [exact Hdistinct|].
  split.
  { apply (processUpdate_othersKept createGraph id1 text (snd r2)).
    - destruct Hb2 as [Hlt _]. exact (Hlt _ _ Hl2).
    - intros s Hs. rewrite Hl12 in Hs. injection Hs as <-. exact Hdistinct. }
  split.
  { apply getOrCreateSession_existing.
    eapply extends_keeps; [apply processUpdate_extends|exact Hl2]. }
  pose proof (job_invokes createGraph id1 task (snd r2)) as Hjob.
  rewrite (getOrCreateSession_existing _ _ _ _ Hl12) in Hjob. exact Hjob.
Qed.

Lemma session_isolation_witness :
  let graph := stepLoop answering [] in
  let b := TelegramBotHandler.processAll graph [(7%Z, Some "hello")] TelegramBotHandler.initial in
  let r1 := TelegramBotHandler.getOrCreateSession graph 7 b in
  let r2 := TelegramBotHandler.getOrCreateSession graph 8 (snd r1) in
  (7 <> 8)%Z /\
  TelegramBotHandler.memoryStore (fst r1) <> TelegramBotHandler.memoryStore (fst r2) /\
  TelegramBotHandler.stores
    (TelegramBotHandler.processUpdate graph 7 (Some "/clear") (snd r2))
    (TelegramBotHandler.memoryStore (fst r2))
  = TelegramBotHandler.stores (snd r2) (TelegramBotHandler.memoryStore (fst r2)).
Proof.
  intros graph b r1 r2.
  assert (H : (7 <> 8)%Z) by lia.
  split; [exact H|].
  destruct (session_isolation graph [(7%Z, Some "hello")] 7 8 (Some "/clear") "again" H)
    as (_ & _ & _ & Hdistinct & Hkept & _).
  split; [exact Hdistinct|exact Hkept].
Defined.

(** ** The memory bound in the Telegram handler *)

Section BoundFacts.

Import TelegramBotHandler.

Variable createGraph : Graph.

Lemma bounded_same b b' : stores b' = stores b -> bounded b -> bounded b'.
Proof. intros H Hb l. rewrite H. apply Hb. Qed.

Lemma bounded_setStore l m b :
  wfStore m -> capacity m <= 50 -> bounded b -> bounded (setStore l m b).
Proof.
  intros Hwf Hcap Hb l'. cbn.
  destruct (decide (l = l')) as [<-|Hne].
  - rewrite fn_lookup_insert. split; assumption.
  - rewrite fn_lookup_insert_ne by exact Hne. apply Hb.
Qed.

Lemma getOrCreateSession_bounded chatId b :
  bounded b -> bounded (snd (getOrCreateSession createGraph chatId b)).
Proof.
  intros Hb. unfold getOrCreateSession.
  destruct (sessions b !! chatId); cbn [snd]; [exact Hb|].
  intros l. cbn [stores].
  destruct (decide (allocated b = l)) as [<-|Hne].
  - rewrite fn_lookup_insert. unfold wfStore. cbn. lia.
  - rewrite fn_lookup_insert_ne by exact Hne. apply Hb.
Qed.

Lemma job_bounded chatId text b : bounded b -> bounded (job createGraph chatId text b).
Proof.
  intros Hb. apply (getOrCreateSession_bounded chatId) in Hb.
  unfold job, runJob.
  destruct (getOrCreateSession createGraph chatId b) as [session b1]. cbn [snd] in Hb.
  assert (Hend : forall es b2, bounded b2 -> bounded (performAll es b2)).
  { intros es b2. apply bounded_same. reflexivity. }
  destruct (graph session _ 60) as [result|e].
  - apply Hend. destruct (0 <? length _).
    + eapply bounded_same; [reflexivity|].
      destruct (Hb (memoryStore session)) as [Hwf Hcap].
      apply bounded_setStore; [apply addMessages_wf; exact Hwf|exact Hcap|].
      eapply bounded_same; [reflexivity|exact Hb].
    + eapply bounded_same; [reflexivity|exact Hb].
  - eapply bounded_same; [reflexivity|exact Hb].
Qed.

Lemma onClear_bounded chatId b : bounded b -> bounded (onClear createGraph chatId b).
Proof.
  intros Hb. apply (getOrCreateSession_bounded chatId) in Hb.
  unfold onClear.
  destruct (getOrCreateSession createGraph chatId b) as [session b1]. cbn [snd] in Hb.
  eapply bounded_same; [reflexivity|].
  destruct (Hb (memoryStore session)) as [_ Hcap].
  apply bounded_setStore; [unfold wfStore; cbn; lia|exact Hcap|exact Hb].
Qed.

Lemma onMemory_bounded chatId b : bounded b -> bounded (onMemory createGraph chatId b).
Proof.
  intros Hb. apply (getOrCreateSession_bounded chatId) in Hb.
  unfold onMemory.
  destruct (getOrCreateSession createGraph chatId b) as [session b1]. cbn [snd] in Hb.
  eapply bounded_same; [reflexivity|exact Hb].
Qed.

Lemma processUpdate_bounded chatId text b :
  bounded b -> bounded (processUpdate createGraph chatId text b).
Proof.
  intros Hb. unfold processUpdate, dispatch.
  assert (Hmsg : bounded (fst (onMessage chatId text b))).
  { eapply bounded_same; [|exact Hb]. unfold onMessage.
    destruct text as [t|]; [|reflexivity].
    destruct (startsWith "/" t); [reflexivity|].
    destruct (String.length (trim t) =? 0); reflexivity. }
  destruct (onMessage chatId text b) as [b1 task]. cbn [fst] in Hmsg.
  assert (Htext : bounded (from_option (onText createGraph chatId) id text b1)).
  { destruct text as [t|]; cbn [from_option]; [|exact Hmsg].
    unfold onText, when.
    destruct (includes "/memory" t || includes "/stats" t); [apply onMemory_bounded|];
      (destruct (includes "/clear" t || includes "/reset" t); [apply onClear_bounded|]);
      (destruct (includes "/help" t);
         [eapply bounded_same; [reflexivity|]|]);
      (destruct (includes "/start" t);
         [eapply bounded_same; [reflexivity|]|]);
      exact Hmsg. }
  destruct task as [t|]; [apply job_bounded|]; exact Htext.
Qed.

Lemma processAll_bounded updates : forall b,
  bounded b -> bounded (processAll createGraph updates b).
Proof.
  induction updates as [|[chatId text] rest IH]; intros b Hb; [exact Hb|].
  cbn. apply IH, processUpdate_bounded, Hb.
Qed.

Lemma initial_bounded : bounded initial.
Proof. intros l. unfold wfStore. cbn. lia. Qed.

End BoundFacts.

(** C3. Memory bound invariant.  A session starts with an empty store of
    capacity 50, to which turns are added one by one, the oldest being
    evicted when the capacity is exceeded.  After any number of jobs,
    whatever the graph returned or threw, the store holds at most 50 turns,
    and these are exactly the last 50 turns of the full history of appended
    turns (all of it while it fits): the history is the evicted oldest
    turns followed by the stored ones.  In the Telegram handler every
    store holds at most 50 turns after any sequence of messages. *)
Theorem memory_bound_invariant (graph : Graph) (tasks : list string)
    (updates : list (Z * option string)) (l : nat) :
  let session := runJobs graph tasks (newMemoryStore 50) in
  getMessageCount (fst session) <= 50 /\
  getMessages (fst session) = keepLast 50 (history (snd session)) /\
  history (snd session)
    = take (length (history (snd session)) - 50) (history (snd session))
      ++ getMessages (fst session) /\
  getMessageCount
    (TelegramBotHandler.stores
       (TelegramBotHandler.processAll graph updates TelegramBotHandler.initial) l) <= 50.
Proof.
  intros session.
  assert (Hwf : wfStore (newMemoryStore 50)) by (unfold wfStore; simpl; lia).
  destruct (runJobs_memory graph tasks _ Hwf) as [_ Hmsg].
  fold session in Hmsg. simpl in Hmsg.
  unfold getMessageCount, getMessages. rewrite Hmsg.
  split; [apply keepLast_length|].
  split; [reflexivity|].
  split; [symmetry; apply keepLast_suffix|].
  destruct (processAll_bounded graph updates _ initial_bounded l) as [Hle Hcap].
  unfold wfStore in Hle. lia.
Qed.

(** ** Jobs in flight *)

Section InFlightFacts.

Import TelegramBotHandler.

Variable createGraph : Graph.

Lemma filter_insert_same {A} (p : A -> bool) (l : list A) : forall i x y,
  l !! i = Some x -> p x = p y ->
  length (List.filter p (<[i := y]> l)) = length (List.filter p l).
Proof.
  induction l as [|a l IH]; intros [|i] x y Hl Hp; try discriminate.
  - injection Hl as ->. cbn. rewrite Hp. destruct (p y); reflexivity.
  - change (<[S i := y]> (a :: l)) with (a :: <[i := y]> l).
    change ((a :: l) !! S i) with (l !! i) in Hl.
    cbn [List.filter]. destruct (p a); cbn [length]; rewrite (IH i x y Hl Hp); reflexivity.
Qed.

Lemma filter_delete_le {A} (p : A -> bool) (l : list A) : forall i,
  length (List.filter p (delete i l)) <= length (List.filter p l).
Proof.
  induction l as [|a l IH]; intros [|i]; try (cbn; lia).
  - change (delete 0 (a :: l)) with l. cbn [List.filter].
    destruct (p a); cbn [length]; lia.
  - change (delete (S i) (a :: l)) with (a :: delete i l). cbn [List.filter].
    specialize (IH i). destruct (p a); cbn [length]; lia.
Qed.

Lemma dispatch_task chatId t b :
  snd (dispatch createGraph chatId (Some t) b) = if isTaskText t then Some t else None.
Proof.
  unfold dispatch, onMessage, isTaskText.
  destruct (startsWith "/" t); [reflexivity|].
  destruct (String.length (trim t) =? 0); reflexivity.
Qed.

Lemma dispatch_no_text chatId b :
  snd (dispatch createGraph chatId None b) = None.
Proof. reflexivity. Qed.

(** A message that starts a job adds one job in flight for its chat; any
    other event adds none. *)
Lemma fire_inFlight chatId e r :
  inFlight chatId (fire createGraph e r)
  <= inFlight chatId r + (if startsJob chatId e then 1 else 0) /\
  (startsJob chatId e = true ->
   inFlight chatId (fire createGraph e r) = S (inFlight chatId r)).
Proof.
  destruct e as [c text|i]; cbn [fire startsJob].
  - pose proof (dispatch_task c) as Ht.
    destruct text as [t|].
    + specialize (Ht t (bot r)).
      destruct (dispatch createGraph c (Some t) (bot r)) as [b1 task]. cbn [snd] in Ht.
      subst task. unfold inFlight. cbn [pending].
      rewrite List.filter_app, length_app.
      destruct (isTaskText t); cbn.
      * destruct (Z.eqb c chatId); cbn; split; intros; lia || discriminate.
      * rewrite andb_false_r. split; intros; lia || discriminate.
    + destruct (dispatch createGraph c None (bot r)) as [b1 task] eqn:Hd.
      pose proof (dispatch_no_text c (bot r)) as Hn. rewrite Hd in Hn. cbn in Hn.
      subst task. unfold inFlight. cbn.
      rewrite app_nil_r. split; intros; lia || discriminate.
  - split; [|discriminate]. rewrite Nat.add_0_r.
    destruct (pending r !! i) as [[c t|c session n initial]|] eqn:Hi; [| |lia].
    + unfold beginJob.
      destruct (getOrCreateSession createGraph c (bot r)) as [session b1].
      unfold inFlight. cbn [pending].
      rewrite (filter_insert_same _ _ i _ _ Hi); [lia|reflexivity].
    + unfold inFlight. cbn [pending]. apply filter_delete_le.
Qed.

Lemma spaced_inFlight chatId events : forall r n,
  inFlight chatId r <= 1 ->
  spaced createGraph chatId events r = true ->
  inFlight chatId (fireAll createGraph (take n events) r) <= 1.
Proof.
  induction events as [|e rest IH]; intros r n Hr Hs.
  - rewrite take_nil. exact Hr.
  - destruct n as [|n]; [exact Hr|].
    cbn in Hs. apply andb_true_iff in Hs as [Hgap Hrest].
    cbn. apply IH; [|exact Hrest].
    destruct (fire_inFlight chatId e r) as [Hle _].
    destruct (startsJob chatId e).
    + apply Nat.eqb_eq in Hgap. lia.
    + lia.
Qed.

(** C7 (amended). The handler neither queues nor rejects: a task message
    for an identity starts its job at once, whatever is already in flight,
    so the jobs in flight for that identity go up by one.  At most one job
    is in flight for an identity at every point of a schedule in which no
    task message for it arrives while one of its jobs is still running. *)
Theorem one_job_in_flight_when_spaced (chatId : Z) (events : list Event)
    (r : Running) (text : string) (n : nat) :
  inFlight chatId r <= 1 ->
  spaced createGraph chatId events r = true ->
  inFlight chatId (fireAll createGraph (take n events) r) <= 1 /\
  if isTaskText text
  then inFlight chatId (fire createGraph (Incoming chatId (Some text)) r)
       = S (inFlight chatId r)
  else inFlight chatId (fire createGraph (Incoming chatId (Some text)) r)
       = inFlight chatId r.
Proof.
  intros Hr Hs. split; [apply spaced_inFlight; assumption|].
  destruct (fire_inFlight chatId (Incoming chatId (Some text)) r) as [Hle Hstart].
  cbn [startsJob] in *. rewrite Z.eqb_refl in *. cbn [andb] in *.
  destruct (isTaskText text) eqn:Ht.
  - apply Hstart. reflexivity.
  - cbn [fire]. pose proof (dispatch_task chatId text (bot r)) as Hd. rewrite Ht in Hd.
    destruct (dispatch createGraph chatId (Some text) (bot r)) as [b1 task].
    cbn in Hd. subst task. unfold inFlight. cbn. rewrite app_nil_r. reflexivity.
Qed.

End InFlightFacts.

(** ** Interleaved and sequential handling *)

Section ScheduleFacts.

Import TelegramBotHandler.

Variable createGraph : Graph.

(** The two halves of a job, run with nothing in between, are the job. *)
Lemma endJob_beginJob chatId t b :
  match beginJob createGraph chatId t b with
  | (AwaitInvoke c session previousCount initial, b1) =>
      endJob c session previousCount initial b1
  | (AwaitTyping _ _, b1) => b1
  end = job createGraph chatId t b.
Proof.
  unfold beginJob, job, runJob, endJob.
  destruct (getOrCreateSession createGraph chatId b) as [session b1].
  destruct (graph session _ 60) as [result|e]; [|reflexivity].
  destruct (0 <? length _); reflexivity.
Qed.

(** When each listener runs to its end before the next message arrives,
    the event loop does what [processUpdate] does. *)
Lemma fire_sequential chatId t b :
  isTaskText t = true ->
  fireAll createGraph [Incoming chatId (Some t); Resume 0; Resume 0] (mkRunning b [])
  = mkRunning (processUpdate createGraph chatId (Some t) b) [].
Proof.
  intros Ht. unfold fireAll, processUpdate. cbn [foldl fire bot pending].
  pose proof (dispatch_task createGraph chatId t b) as Hd. rewrite Ht in Hd.
  destruct (dispatch createGraph chatId (Some t) b) as [b1 task]. cbn [snd] in Hd.
  subst task. cbn.
  pose proof (endJob_beginJob chatId t b1) as Hjob.
  unfold beginJob in *.
  destruct (getOrCreateSession createGraph chatId b1) as [session b2].
  cbn. rewrite Hjob. reflexivity.
Qed.

End ScheduleFacts.

(** C7, as stated, fails: a second message for chat 7 arriving while the
    first is being handled is neither queued nor rejected; both listeners
    reach [graph.invoke] on the same store, each having read it empty. *)
Lemma second_message_not_queued :
  let graph := stepLoop answering [] in
  let handler :=
    TelegramBotHandler.fireAll graph
      [TelegramBotHandler.Incoming 7 (Some "first");
       TelegramBotHandler.Incoming 7 (Some "second");
       TelegramBotHandler.Resume 0;
       TelegramBotHandler.Resume 1]
      TelegramBotHandler.idle in
  TelegramBotHandler.pending handler
  = [TelegramBotHandler.AwaitInvoke 7 (TelegramBotHandler.mkUserSession 0 graph) 0
       [HumanMessage "first"];
     TelegramBotHandler.AwaitInvoke 7 (TelegramBotHandler.mkUserSession 0 graph) 0
       [HumanMessage "second"]] /\
  ~ TelegramBotHandler.inFlight 7 handler <= 1.
Proof.
  split; [reflexivity|].
  intros H. vm_compute in H. lia.
Qed.

Lemma one_job_in_flight_when_spaced_witness :
  let graph := stepLoop answering [] in
  let events :=
    [TelegramBotHandler.Incoming 7 (Some "first");
     TelegramBotHandler.Resume 0;
     TelegramBotHandler.Resume 0;
     TelegramBotHandler.Incoming 7 (Some "second")] in
  TelegramBotHandler.inFlight 7 TelegramBotHandler.idle <= 1 /\
  TelegramBotHandler.spaced graph 7 events TelegramBotHandler.idle = true /\
  TelegramBotHandler.inFlight 7
    (TelegramBotHandler.fireAll graph (take 4 events) TelegramBotHandler.idle) <= 1.
Proof.
  intros graph events.
  assert (H1 : TelegramBotHandler.inFlight 7 TelegramBotHandler.idle <= 1)
    by (vm_compute; lia).
  assert (H2 : TelegramBotHandler.spaced graph 7 events TelegramBotHandler.idle = true)
    by (vm_compute; reflexivity).
  split; [exact H1|]. split; [exact H2|].
  exact (proj1 (one_job_in_flight_when_spaced graph 7 events TelegramBotHandler.idle
                  "second" 4 H1 H2)).
Defined.

(** ** Splitting a long response *)

Lemma length_append (s1 s2 : string) :
  String.length (s1 +:+ s2) = String.length s1 + String.length s2.
Proof. induction s1 as [|c s1 IH]; simpl; [reflexivity|]. rewrite IH. reflexivity. Qed.

Lemma dots_length n : forall s, String.length (dots n s) <= n.
Proof.
  induction n as [|n IH]; intros [|c s]; simpl; try lia.
  destruct (isLineTerminator c); simpl; [lia|]. specialize (IH s). lia.
Qed.

Lemma dots_split n : forall s,
  s = dots n s +:+ dropString (String.length (dots n s)) s.
Proof.
  induction n as [|n IH]; intros [|c s]; simpl; try reflexivity.
  destruct (isLineTerminator c); [reflexivity|].
  change (String c s = String c (dots n s +:+ dropString (String.length (dots n s)) s)).
  f_equal. apply IH.
Qed.

Lemma dots_clean n : forall s, withoutLineTerminators (dots n s) = dots n s.
Proof.
  induction n as [|n IH]; intros [|c s]; simpl; try reflexivity.
  destruct (isLineTerminator c) eqn:Hc; simpl; [reflexivity|].
  rewrite Hc, IH. reflexivity.
Qed.

Lemma withoutLineTerminators_append s1 s2 :
  withoutLineTerminators (s1 +:+ s2)
  = withoutLineTerminators s1 +:+ withoutLineTerminators s2.
Proof.
  induction s1 as [|c s1 IH]; simpl; [reflexivity|].
  destruct (isLineTerminator c); simpl; rewrite IH; reflexivity.
Qed.

Lemma dropString_length n : forall s,
  String.length (dropString n s) = String.length s - n.
Proof.
  induction n as [|n IH]; intros [|c s]; simpl; try lia. apply IH.
Qed.

(** Every chunk has between 1 and [n] code units. *)
Lemma matchDots_bounds n fuel : forall s,
  Forall (fun chunk => 1 <= String.length chunk <= n) (matchDots n fuel s).
Proof.
  induction fuel as [|fuel IH]; intros [|c s]; cbn [matchDots]; try constructor.
  pose proof (dots_length n (String c s)) as Hlen.
  destruct (dots n (String c s)) as [|c' m]; [apply IH|].
  constructor; [cbn in *; lia|apply IH].
Qed.

(** The chunks put end to end are the response without its line
    terminators: the fuel given by [matchAll] is enough to reach the end. *)
Lemma matchDots_concat n fuel : forall s,
  1 <= n -> String.length s <= fuel ->
  concatStrings (matchDots n fuel s) = withoutLineTerminators s.
Proof.
  induction fuel as [|fuel IH]; intros [|c s] Hn Hfuel; cbn in Hfuel; try reflexivity; [lia|].
  cbn [matchDots].
  pose proof (dots_split n (String c s)) as Hsplit.
  pose proof (dots_clean n (String c s)) as Hclean.
  destruct (dots n (String c s)) as [|c' m] eqn:Hdots.
  - destruct n as [|n]; [lia|]. cbn in Hdots.
    destruct (isLineTerminator c) eqn:Hc; [|discriminate].
    cbn. rewrite Hc. apply IH; lia.
  - cbn [concatStrings foldr].
    rewrite IH; [|exact Hn|].
    + rewrite Hsplit at 2. rewrite withoutLineTerminators_append, Hclean. reflexivity.
    + rewrite dropString_length. cbn. lia.
Qed.

Lemma matchAll_concat s :
  concatStrings (matchAll 4000 s) = withoutLineTerminators s.
Proof. apply matchDots_concat; lia. Qed.

(** A response without line terminators is split without loss. *)
Lemma matchAll_lossless s :
  withoutLineTerminators s = s -> concatStrings (matchAll 4000 s) = s.
Proof. intros H. rewrite matchAll_concat. exact H. Qed.

(** Every message sent for a response fits in 4096 code units. *)
Lemma reply_fits chatId response :
  Forall (fun e => match sentText e with
                   | Some text => String.length text <= 4096
                   | None => False
                   end)
         (TelegramBotHandler.reply chatId response).
Proof.
  unfold TelegramBotHandler.reply.
  destruct (4096 <? String.length response) eqn:Hlong.
  - apply Forall_lookup. intros i e He.
    rewrite list_lookup_imap in He.
    destruct (matchAll 4000 response !! i) as [chunk|] eqn:Hchunk; [|discriminate].
    cbn in He. injection He as <-. cbn [sentText].
    pose proof (matchDots_bounds 4000 (String.length response) response) as Hb.
    rewrite Forall_lookup in Hb. specialize (Hb i chunk Hchunk).
    rewrite length_append.
    assert (Hmark : String.length TelegramBotHandler.continued = 18) by reflexivity.
    match goal with
    | |- context [String.length (if ?c then _ else _)] =>
        destruct c; [rewrite Hmark|change (String.length "") with 0]; lia
    end.
  - apply Nat.ltb_ge in Hlong. constructor; [exact Hlong|constructor].
Qed.

(** C8. On a response of 4097 code units with a line feed in the middle,
    the handler sends two messages and the line feed is in neither: the
    pattern [.{1,4000}] does not match line terminators, so the chunks put
    end to end are the response without them.  A response made of line
    feeds only is not sent at all. *)
Theorem reply_loses_line_breaks :
  String.length twoParagraphs = 4097 /\
  TelegramBotHandler.reply 7 twoParagraphs
  = [TelegramBotHandler.SendMessage 7
       (repeatString 2000 "a" +:+ TelegramBotHandler.continued);
     TelegramBotHandler.SendMessage 7 (repeatString 2096 "b")] /\
  concatStrings (matchAll 4000 twoParagraphs)
  = repeatString 2000 "a" +:+ repeatString 2096 "b" /\
  concatStrings (matchAll 4000 twoParagraphs) <> twoParagraphs /\
  String.length blankLines = 4097 /\
  TelegramBotHandler.reply 7 blankLines = [].
Proof.
  split; [vm_compute; reflexivity|].
  split; [vm_compute; reflexivity|].
  split; [vm_compute; reflexivity|].
  split.
  { intros H. apply (f_equal String.length) in H. vm_compute in H. discriminate. }
  split; vm_compute; reflexivity.
Qed.

(** ** Failures inside the browser tools *)

Section ToolFacts.

Context {Browser Element : Type}.
Variable browserController : BrowserController Browser Element.

(** [browser_click] catches whatever its page operations throw: once the
    page is there, it always returns a text. *)
Lemma click_failure_contained selector b b1 :
  ensure browserController b = (Returned tt, b1) ->
  exists text b', clickTool browserController selector b = (Returned text, b').
Proof.
  intros He. unfold clickTool, mbind, action_bind, mret, action_ret, tryCatch.
  rewrite He.
  destruct (waitForSelector browserController selector 10000%N b1) as [[[]|e] b2];
    [|eauto].
  destruct (query browserController selector b2) as [[[element|]|e] b3]; [|eauto|eauto].
  destruct (isVisible browserController element b3) as [[visible|e] b4]; [|eauto].
  destruct visible; cbn; [|eauto].
  destruct (click browserController selector LeftButton 15000%N b4) as [[[]|e] b5]; eauto.
Qed.

(** [browser_right_click] has no handler: what [page.click] throws, the
    tool throws. *)
Lemma right_click_failure_propagates selector b b1 b2 e :
  ensure browserController b = (Returned tt, b1) ->
  click browserController selector RightButton 15000%N b1 = (Thrown e, b2) ->
  rightClickTool browserController selector b = (Thrown e, b2).
Proof.
  intros He Hc. unfold rightClickTool, mbind, action_bind. rewrite He, Hc. reflexivity.
Qed.

(** Nor has [browser_goto]. *)
Lemma goto_failure_propagates url b b1 b2 e :
  ensure browserController b = (Returned tt, b1) ->
  goto browserController url b1 = (Thrown e, b2) ->
  gotoTool browserController url b = (Thrown e, b2).
Proof.
  intros He Hg. unfold gotoTool, mbind, action_bind. rewrite He, Hg. reflexivity.
Qed.

End ToolFacts.

(** C2. On a page where the selector never shows up, [browser_right_click]
    throws the timeout of [page.click] instead of returning an error text,
    and [browser_goto] throws the timeout of the navigation, while
    [browser_click] on the same page returns a text that starts with
    ERROR. *)
Theorem right_click_failure_escapes :
  rightClickTool stuckPage "#menu" tt = (Thrown (timeoutError "#menu"), tt) /\
  gotoTool stuckPage "https://example.com" tt
  = (Thrown (timeoutError "https://example.com"), tt) /\
  clickTool stuckPage "#menu" tt
  = (Returned ("ERROR clicking #menu: " +:+ message (timeoutError "#menu") +:+
               ". Try using browser_find_by_text to find the element by its text content, or browser_find_links to see all clickable links."),
     tt).
Proof. repeat split; reflexivity. Qed.

(** * Further properties of the handlers *)

(** ** White space and commands *)

Lemma trimEnd_empty s : trimEnd s = EmptyString -> allChars isWhiteSpace s = true.
Proof.
  induction s as [|c s IH]; cbn; [reflexivity|].
  destruct (trimEnd s) as [|c' kept]; [|discriminate].
  destruct (isWhiteSpace c); [intros _; apply IH; reflexivity|discriminate].
Qed.

Lemma trimStart_white s :
  allChars isWhiteSpace (trimStart s) = true -> allChars isWhiteSpace s = true.
Proof.
  induction s as [|c s IH]; cbn; [reflexivity|].
  destruct (isWhiteSpace c) eqn:Hc; cbn.
  - exact IH.
  - rewrite Hc. discriminate.
Qed.

Lemma trim_blank t :
  (String.length (trim t) =? 0) = true -> allChars isWhiteSpace t = true.
Proof.
  intros H. apply Nat.eqb_eq in H.
  apply trimStart_white, trimEnd_empty. unfold trim in H.
  destruct (trimEnd (trimStart t)); [reflexivity|discriminate].
Qed.

Lemma white_no_slash c : isWhiteSpace c = true -> c <> "/"%char.
Proof. intros H ->. vm_compute in H. discriminate. Qed.

Lemma prefix_cons a p c t :
  String.prefix (String a p) (String c t)
  = if ascii_dec a c then String.prefix p t else false.
Proof. reflexivity. Qed.

Lemma blank_startsWith t :
  allChars isWhiteSpace t = true -> startsWith "/" t = false.
Proof.
  destruct t as [|c t]; [reflexivity|]. cbn [allChars]. intros H.
  apply andb_true_iff in H as [Hc _]. apply white_no_slash in Hc.
  unfold startsWith. rewrite prefix_cons.
  destruct (ascii_dec "/" c) as [Heq|_]; [congruence|reflexivity].
Qed.

Lemma blank_includes p t :
  allChars isWhiteSpace t = true -> includes (String "/" p) t = false.
Proof.
  induction t as [|c t IH]; [reflexivity|]. cbn [allChars includes]. intros H.
  apply andb_true_iff in H as [Hc Ht]. apply white_no_slash in Hc.
  rewrite (IH Ht), orb_false_r, prefix_cons.
  destruct (ascii_dec "/" c) as [Heq|_]; [congruence|reflexivity].
Qed.

Section TelegramMore.

Import TelegramBotHandler.

Variable createGraph : Graph.

Lemma quiet_app es1 es2 : quiet (es1 ++ es2) = quiet es1 && quiet es2.
Proof. unfold quiet. apply forallb_app. Qed.

Lemma invokeInputs_app es1 es2 :
  invokeInputs (es1 ++ es2) = invokeInputs es1 ++ invokeInputs es2.
Proof. unfold invokeInputs. rewrite map_app, concat_app. reflexivity. Qed.

Lemma invokeInputs_cons e es :
  invokeInputs (e :: es) = invokeInput e ++ invokeInputs es.
Proof. reflexivity. Qed.

Lemma appendedBatches_cons e es :
  appendedBatches (e :: es) = appendedBatch e ++ appendedBatches es.
Proof. reflexivity. Qed.

Lemma appendedBatches_app es1 es2 :
  appendedBatches (es1 ++ es2) = appendedBatches es1 ++ appendedBatches es2.
Proof. unfold appendedBatches. rewrite map_app, concat_app. reflexivity. Qed.

Lemma quiet_silent es :
  quiet es = true -> invokeInputs es = [] /\ appendedBatches es = [].
Proof.
  induction es as [|e es IH]; [split; reflexivity|]. cbn [quiet forallb].
  intros H. apply andb_true_iff in H as [He Hes].
  destruct (IH Hes) as [Hi Ha].
  unfold invokeInputs, appendedBatches in *. cbn [map concat]. rewrite Hi, Ha.
  destruct e as [| |l [| | | |]]; cbn in He; try discriminate; split; reflexivity.
Qed.

Lemma growsQuietly_refl b : growsQuietly b b.
Proof. exists []. split; [symmetry; apply app_nil_r|reflexivity]. Qed.

Lemma growsQuietly_trans b1 b2 b3 :
  growsQuietly b1 b2 -> growsQuietly b2 b3 -> growsQuietly b1 b3.
Proof.
  intros (es1 & H1 & Q1) (es2 & H2 & Q2). exists (es1 ++ es2).
  split; [rewrite H2, H1, app_assoc; reflexivity|].
  rewrite quiet_app, Q1, Q2. reflexivity.
Qed.

Lemma perform_quiet e b : isJobCall e = false -> growsQuietly b (perform e b).
Proof. intros H. exists [e]. split; [reflexivity|]. cbn. rewrite H. reflexivity. Qed.

Lemma onClear_quiet chatId b : growsQuietly b (onClear createGraph chatId b).
Proof.
  unfold onClear. pose proof (getOrCreateSession_effects createGraph chatId b) as He.
  destruct (getOrCreateSession createGraph chatId b) as [session b1]. cbn [snd] in He.
  eexists. split; [cbn; rewrite He; reflexivity|reflexivity].
Qed.

Lemma onMemory_quiet chatId b : growsQuietly b (onMemory createGraph chatId b).
Proof.
  unfold onMemory. pose proof (getOrCreateSession_effects createGraph chatId b) as He.
  destruct (getOrCreateSession createGraph chatId b) as [session b1]. cbn [snd] in He.
  eexists. split; [cbn; rewrite He; reflexivity|reflexivity].
Qed.

Lemma onText_quiet chatId t b : growsQuietly b (onText createGraph chatId t b).
Proof.
  unfold onText, when.
  eapply growsQuietly_trans;
    [|destruct (includes "/memory" t || includes "/stats" t);
      [apply onMemory_quiet|apply growsQuietly_refl]].
  eapply growsQuietly_trans;
    [|destruct (includes "/clear" t || includes "/reset" t);
      [apply onClear_quiet|apply growsQuietly_refl]].
  eapply growsQuietly_trans;
    [|destruct (includes "/help" t);
      [apply perform_quiet; reflexivity|apply growsQuietly_refl]].
  destruct (includes "/start" t);
    [apply perform_quiet; reflexivity|apply growsQuietly_refl].
Qed.

Lemma imap_quiet {A} (l : list A) : forall (f : nat -> A -> Effect),
  (forall i x, isJobCall (f i x) = false) -> quiet (imap f l) = true.
Proof.
  induction l as [|x l IH]; intros f Hf; [reflexivity|].
  cbn. rewrite Hf. cbn. apply IH. intros i y. apply Hf.
Qed.

Lemma reply_quiet chatId response : quiet (reply chatId response) = true.
Proof.
  unfold reply. destruct (4096 <? String.length response); [|reflexivity].
  apply imap_quiet. reflexivity.
Qed.

Lemma invocations_inputs b : invocations b = length (invokeInputs (effects b)).
Proof.
  unfold invocations, invokeInputs, count.
  induction (effects b) as [|e es IH]; [reflexivity|].
  cbn [map concat]. rewrite List.filter_app, !length_app, IH.
  destruct e as [| |l [| | | |]]; reflexivity.
Qed.

(** What a task message does, in terms of the handler after the text
    callbacks: typing action, read of the store, one call of the graph. *)
Lemma dispatch_of_task chatId t b :
  isTaskText t = true ->
  dispatch createGraph chatId (Some t) b
  = (onText createGraph chatId t (perform (SendChatAction chatId "typing") b), Some t).
Proof.
  unfold isTaskText, dispatch, onMessage. intros H.
  apply andb_true_iff in H as [Hs Hb].
  destruct (startsWith "/" t); [discriminate|].
  destruct (String.length (trim t) =? 0); [discriminate|]. reflexivity.
Qed.

Lemma job_effects chatId t b :
  let session := fst (getOrCreateSession createGraph chatId b) in
  let b1 := snd (getOrCreateSession createGraph chatId b) in
  let l := memoryStore session in
  let initial := getMessages (stores b1 l) ++ [HumanMessage t] in
  exists rest,
    effects (job createGraph chatId t b)
    = effects b ++ OnStore l GetMessages :: OnStore l (Invoke initial 60) :: rest /\
    invokeInputs rest = [] /\
    match graph session initial 60 with
    | Thrown e =>
        rest = [SendMessage chatId ("❌ Error: " +:+ message e)] /\
        stores (job createGraph chatId t b) = stores b1
    | Returned result =>
        exists sent, quiet sent = true /\
          (rest = sent \/
           rest = OnStore l (AddMessages (drop (length (getMessages (stores b1 l))) result))
                  :: sent)
    end.
Proof.
  intros session b1 l initial. subst session b1 l initial.
  pose proof (getOrCreateSession_effects createGraph chatId b) as He.
  unfold job, runJob.
  destruct (getOrCreateSession createGraph chatId b) as [session b1]. cbn [fst snd] in *.
  destruct (graph session _ 60) as [result|e].
  - pose proof (reply_quiet chatId (from_option content "" (last result))) as Hq.
    destruct (quiet_silent _ Hq) as [Hi _].
    destruct (0 <? length _); cbn; rewrite He, <- !app_assoc; cbn;
      eexists; (split; [reflexivity|]).
    + split; [exact Hi|]. eexists. split; [exact Hq|]. right. reflexivity.
    + split; [exact Hi|]. eexists. split; [exact Hq|]. left. reflexivity.
  - cbn. rewrite He, <- !app_assoc. cbn. eexists. split; [reflexivity|].
    split; [reflexivity|]. split; reflexivity.
Qed.

End TelegramMore.

Section TelegramExtras.

Import TelegramBotHandler.

Variable createGraph : Graph.

Lemma job_sessions chatId t b :
  sessions (job createGraph chatId t b)
  = sessions (snd (getOrCreateSession createGraph chatId b)).
Proof.
  unfold job, runJob.
  destruct (getOrCreateSession createGraph chatId b) as [session b1]. cbn [snd].
  destruct (graph session _ 60) as [result|e]; [|reflexivity].
  destruct (0 <? length _); reflexivity.
Qed.

Lemma processUpdate_command chatId t b :
  startsWith "/" t = true ->
  processUpdate createGraph chatId (Some t) b = onText createGraph chatId t b.
Proof.
  intros H. unfold processUpdate, dispatch, onMessage. rewrite H. reflexivity.
Qed.

Lemma processUpdate_task chatId t b :
  isTaskText t = true ->
  processUpdate createGraph chatId (Some t) b
  = job createGraph chatId t
      (onText createGraph chatId t (perform (SendChatAction chatId "typing") b)).
Proof.
  intros H. unfold processUpdate. rewrite (dispatch_of_task createGraph chatId t b H).
  reflexivity.
Qed.

(** X1. A message without text, or whose text is empty or white space
    only, gets the one reply that asks for a text; nothing else happens:
    no typing action, no session, no store touched, no job. *)
Theorem blank_message_gets_one_reply (chatId : Z) (text : option string) (b : Bot) :
  from_option (fun t => String.length (trim t) =? 0) true text = true ->
  processUpdate createGraph chatId text b
  = perform (SendMessage chatId pleaseSendText) b.
Proof.
  destruct text as [t|]; cbn [from_option]; [|reflexivity].
  intros Hblank. pose proof (trim_blank t Hblank) as Hwhite.
  unfold processUpdate, dispatch, onMessage.
  rewrite (blank_startsWith t Hwhite), Hblank. cbn [from_option].
  unfold onText, when.
  rewrite !(blank_includes _ t Hwhite). reflexivity.
Qed.


End TelegramExtras.

Lemma blank_message_gets_one_reply_witness :
  from_option (fun t => String.length (trim t) =? 0) true (Some "   ") = true /\
  TelegramBotHandler.processUpdate (stepLoop answering []) 7 (Some "   ")
    TelegramBotHandler.initial
  = TelegramBotHandler.perform (TelegramBotHandler.SendMessage 7 pleaseSendText)
      TelegramBotHandler.initial.
Proof.
  assert (H : from_option (fun t => String.length (trim t) =? 0) true (Some "   ") = true)
    by (vm_compute; reflexivity).
  split; [exact H|].
  exact (blank_message_gets_one_reply (stepLoop answering []) 7 (Some "   ")
           TelegramBotHandler.initial H).
Defined.


Lemma last_two {A} (l : list A) a x : last (l ++ [a; x]) = Some x.
Proof.
  change (l ++ [a; x]) with (l ++ [a] ++ [x]). rewrite app_assoc. apply last_snoc.
Qed.

Section ClearExtras.

Import TelegramBotHandler.

Variable createGraph : Graph.

Lemma onClear_cleared chatId b : cleared chatId (onClear createGraph chatId b).
Proof.
  unfold onClear, cleared.
  pose proof (getOrCreateSession_lookup createGraph chatId b) as Hl.
  destruct (getOrCreateSession createGraph chatId b) as [session b1]. cbn [fst snd] in Hl.
  exists session. split; [exact Hl|]. cbn. rewrite fn_lookup_insert. reflexivity.
Qed.

Lemma perform_cleared chatId e b : cleared chatId b -> cleared chatId (perform e b).
Proof. intros H. exact H. Qed.

(** On a cleared chat the memory command reports zero and changes nothing
    else. *)
Lemma onMemory_cleared chatId b :
  cleared chatId b ->
  cleared chatId (onMemory createGraph chatId b) /\
  last (effects (onMemory createGraph chatId b))
  = Some (SendMessage chatId "Memory: 0 messages stored").
Proof.
  intros (session & Hs & Hm). unfold onMemory.
  rewrite (getOrCreateSession_existing createGraph chatId session b Hs).
  split.
  - exists session. split; [exact Hs|exact Hm].
  - cbn [performAll effects]. unfold getMessageCount.
    unfold getMessages in Hm. rewrite Hm.
    apply last_two.
Qed.

Lemma onText_clears chatId t b :
  includes "/clear" t || includes "/reset" t = true ->
  cleared chatId (onText createGraph chatId t b).
Proof.
  intros H. unfold onText, when. rewrite H.
  destruct (includes "/memory" t || includes "/stats" t).
  - apply onMemory_cleared, onClear_cleared.
  - apply onClear_cleared.
Qed.

Lemma onText_reports_zero chatId t b :
  cleared chatId b ->
  includes "/memory" t || includes "/stats" t = true ->
  last (effects (onText createGraph chatId t b))
  = Some (SendMessage chatId "Memory: 0 messages stored").
Proof.
  intros Hc H. unfold onText, when. rewrite H.
  apply onMemory_cleared.
  destruct (includes "/clear" t || includes "/reset" t); [apply onClear_cleared|].
  destruct (includes "/help" t), (includes "/start" t); exact Hc.
Qed.

Lemma getOrCreateSession_keeps_cleared chatId c b :
  cleared chatId b -> cleared chatId (snd (getOrCreateSession createGraph c b)).
Proof.
  intros (session & Hs & Hm). unfold getOrCreateSession.
  destruct (sessions b !! c) as [s'|] eqn:Hc; cbn [snd]; [exists session; split; assumption|].
  exists session. cbn [sessions stores]. split.
  - rewrite lookup_insert_ne; [exact Hs|]. intros ->. congruence.
  - destruct (decide (allocated b = memoryStore session)) as [->|Hne].
    + rewrite fn_lookup_insert. reflexivity.
    + rewrite fn_lookup_insert_ne by exact Hne. exact Hm.
Qed.

Lemma onClear_keeps_cleared chatId c b :
  cleared chatId b -> cleared chatId (onClear createGraph c b).
Proof.
  intros H. apply (getOrCreateSession_keeps_cleared chatId c) in H.
  unfold onClear. destruct (getOrCreateSession createGraph c b) as [s' b1].
  cbn [snd] in H. destruct H as (session & Hs & Hm).
  exists session. cbn [performAll setStore sessions stores]. split; [exact Hs|].
  destruct (decide (memoryStore s' = memoryStore session)) as [->|Hne].
  - rewrite fn_lookup_insert. reflexivity.
  - rewrite fn_lookup_insert_ne by exact Hne. exact Hm.
Qed.

Lemma onMemory_keeps_cleared chatId c b :
  cleared chatId b -> cleared chatId (onMemory createGraph c b).
Proof.
  intros H. apply (getOrCreateSession_keeps_cleared chatId c) in H.
  unfold onMemory. destruct (getOrCreateSession createGraph c b) as [s' b1].
  exact H.
Qed.

Lemma onText_keeps_cleared chatId c t b :
  cleared chatId b -> cleared chatId (onText createGraph c t b).
Proof.
  intros H. unfold onText, when.
  destruct (includes "/memory" t || includes "/stats" t);
    [apply onMemory_keeps_cleared|];
    (destruct (includes "/clear" t || includes "/reset" t);
     [apply onClear_keeps_cleared|]);
    destruct (includes "/help" t), (includes "/start" t); exact H.
Qed.

Lemma dispatch_keeps_cleared chatId c text b :
  cleared chatId b -> cleared chatId (fst (dispatch createGraph c text b)).
Proof.
  intros H. unfold dispatch, onMessage.
  destruct text as [t|]; [|exact H].
  destruct (startsWith "/" t); cbn [fst from_option];
    [apply onText_keeps_cleared; exact H|].
  destruct (String.length (trim t) =? 0); cbn [fst from_option];
    apply onText_keeps_cleared; exact H.
Qed.

Lemma beginJob_keeps_cleared chatId c text b :
  cleared chatId b -> cleared chatId (snd (beginJob createGraph c text b)).
Proof.
  intros H. apply (getOrCreateSession_keeps_cleared chatId c) in H.
  unfold beginJob. destruct (getOrCreateSession createGraph c b) as [s' b1].
  exact H.
Qed.

(** Only the end of a job puts turns into a store that is empty. *)
Lemma fire_keeps_cleared chatId e r :
  endsJob e r = false ->
  cleared chatId (bot r) -> cleared chatId (bot (fire createGraph e r)).
Proof.
  intros He H. destruct e as [c text|i]; cbn [fire].
  - pose proof (dispatch_keeps_cleared chatId c text (bot r) H) as Hd.
    destruct (dispatch createGraph c text (bot r)) as [b1 task]. exact Hd.
  - cbn [endsJob] in He.
    destruct (pending r !! i) as [[c text|c session n initial]|]; [|discriminate|exact H].
    pose proof (beginJob_keeps_cleared chatId c text (bot r) H) as Hb.
    destruct (beginJob createGraph c text (bot r)) as [t' b1]. exact Hb.
Qed.

Lemma fireAll_keeps_cleared chatId es : forall r,
  noJobEnds createGraph es r = true ->
  cleared chatId (bot r) -> cleared chatId (bot (fireAll createGraph es r)).
Proof.
  induction es as [|e es IH]; intros r Hn H; [exact H|].
  cbn [noJobEnds] in Hn. apply andb_true_iff in Hn as [He Hn].
  apply negb_true_iff in He.
  change (fireAll createGraph (e :: es) r) with (fireAll createGraph es (fire createGraph e r)).
  apply IH; [exact Hn|]. apply fire_keeps_cleared; assumption.
Qed.

Lemma dispatch_command chatId t b :
  startsWith "/" t = true ->
  dispatch createGraph chatId (Some t) b = (onText createGraph chatId t b, None).
Proof. intros H. unfold dispatch, onMessage. rewrite H. reflexivity. Qed.

(** A command neither suspends a listener nor calls the graph. *)
Lemma fire_command chatId t r :
  startsWith "/" t = true ->
  bot (fire createGraph (Incoming chatId (Some t)) r) = onText createGraph chatId t (bot r) /\
  pending (fire createGraph (Incoming chatId (Some t)) r) = pending r /\
  invokeInputs (effects (bot (fire createGraph (Incoming chatId (Some t)) r)))
  = invokeInputs (effects (bot r)).
Proof.
  intros H. cbn [fire]. rewrite (dispatch_command chatId t (bot r) H).
  cbn [bot pending fmap option_fmap option_map option_list].
  split; [reflexivity|]. split; [apply app_nil_r|].
  destruct (onText_quiet createGraph chatId t (bot r)) as (es & -> & Hq).
  rewrite invokeInputs_app. destruct (quiet_silent es Hq) as [-> _]. apply app_nil_r.
Qed.

(** X3. Clearing, then asking for the memory, reports zero, provided that
    no job ends in between.  In the event loop of the chat handler, from
    any state: after a command text in which the clear or the reset command
    occurs, and any events among which no suspended job goes on past
    [graph.invoke] (messages of any chat may arrive, listeners may start
    their job), the reply to a command text of the chat in which the memory
    or the stats command occurs is that 0 messages are stored.  Neither
    command suspends a listener or calls the graph. *)
Theorem clear_then_memory_reports_zero (chatId : Z) (t1 t2 : string)
    (mid : list Event) (r : Running) :
  startsWith "/" t1 = true ->
  includes "/clear" t1 || includes "/reset" t1 = true ->
  startsWith "/" t2 = true ->
  includes "/memory" t2 || includes "/stats" t2 = true ->
  let r1 := fire createGraph (Incoming chatId (Some t1)) r in
  noJobEnds createGraph mid r1 = true ->
  let r2 := fireAll createGraph mid r1 in
  let r3 := fire createGraph (Incoming chatId (Some t2)) r2 in
  last (effects (bot r3)) = Some (SendMessage chatId "Memory: 0 messages stored") /\
  pending r1 = pending r /\
  invokeInputs (effects (bot r1)) = invokeInputs (effects (bot r)) /\
  pending r3 = pending r2 /\
  invokeInputs (effects (bot r3)) = invokeInputs (effects (bot r2)).
Proof.
  intros Hs1 Hc1 Hs2 Hm2 r1 Hmid r2 r3.
  destruct (fire_command chatId t1 r Hs1) as (Hb1 & Hp1 & Hi1).
  destruct (fire_command chatId t2 r2 Hs2) as (Hb3 & Hp3 & Hi3).
  fold r1 in Hb1, Hp1, Hi1. fold r3 in Hb3, Hp3, Hi3.
  split; [|repeat split; assumption].
  rewrite Hb3. apply onText_reports_zero; [|exact Hm2].
  apply fireAll_keeps_cleared; [exact Hmid|].
  rewrite Hb1. apply onText_clears. exact Hc1.
Qed.

(** The condition is needed: a job of the chat that ends between the two
    commands appends its turns, and they are counted. *)
Lemma memory_counts_job_ended_after_clear :
  let graph := stepLoop answering [] in
  last (effects (bot (fireAll graph
                        [Incoming 7 (Some "hello"); Resume 0;
                         Incoming 7 (Some "/clear"); Resume 0;
                         Incoming 7 (Some "/memory")] idle)))
  = Some (SendMessage 7 "Memory: 2 messages stored").
Proof. vm_compute. reflexivity. Qed.

(** X4. A task text in which the clear or the reset command occurs
    anywhere empties the store of the chat when the message arrives, while
    its listener is suspended at the typing action.  If no job ends before
    a listener of the chat goes on from the typing action, that listener
    reads the empty store: its graph is called on its new human turn
    alone. *)
Theorem task_mentioning_clear_forgets_history (chatId : Z) (t : string)
    (mid : list Event) (r : Running) :
  isTaskText t = true ->
  includes "/clear" t || includes "/reset" t = true ->
  let r1 := fire createGraph (Incoming chatId (Some t)) r in
  noJobEnds createGraph mid r1 = true ->
  let r2 := fireAll createGraph mid r1 in
  pending r1 = pending r ++ [AwaitTyping chatId t] /\
  cleared chatId (bot r1) /\
  forall i t',
    pending r2 !! i = Some (AwaitTyping chatId t') ->
    invokeInputs (effects (bot (fire createGraph (Resume i) r2)))
    = invokeInputs (effects (bot r2)) ++ [([HumanMessage t'], 60)].
Proof.
  intros Ht Hc r1 Hmid r2.
  assert (Hr1 : r1 = mkRunning
                  (onText createGraph chatId t (perform (SendChatAction chatId "typing") (bot r)))
                  (pending r ++ [AwaitTyping chatId t])).
  { subst r1. cbn [fire]. rewrite (dispatch_of_task createGraph chatId t (bot r) Ht).
    reflexivity. }
  assert (Hcl1 : cleared chatId (bot r1)).
  { rewrite Hr1. cbn [bot]. apply onText_clears. exact Hc. }
  split; [rewrite Hr1; reflexivity|]. split; [exact Hcl1|].
  intros i t' Hi.
  pose proof (fireAll_keeps_cleared chatId mid r1 Hmid Hcl1) as (session & Hs & Hm).
  fold r2 in Hs, Hm.
  cbn [fire]. rewrite Hi. unfold beginJob.
  rewrite (getOrCreateSession_existing createGraph chatId session _ Hs).
  rewrite Hm. cbn [bot performAll effects length app].
  rewrite invokeInputs_app. reflexivity.
Qed.

(** The condition is needed here too: the listener reads the store when it
    goes on, so a job of the chat that ended in the meantime is read. *)
Lemma task_reads_job_ended_after_clear :
  let graph := stepLoop answering [] in
  invokeInputs (effects (bot (fireAll graph
                                [Incoming 7 (Some "hello"); Resume 0;
                                 Incoming 7 (Some "please /clear my history");
                                 Resume 0; Resume 0] idle)))
  = [([HumanMessage "hello"], 60);
     ([HumanMessage "hello"; AIMessage "done";
       HumanMessage "please /clear my history"], 60)].
Proof. vm_compute. reflexivity. Qed.

(** X5. When the graph rejects, the chat gets exactly one reply, the error
    message; no turn is appended, every store is as it was when the job
    started, and the session of the chat stays in place. *)
Theorem failed_job_reported_once (chatId : Z) (t : string) (b : Bot) (e : JsError) :
  isTaskText t = true ->
  let b1 := fst (dispatch createGraph chatId (Some t) b) in
  let session := fst (getOrCreateSession createGraph chatId b1) in
  let b2 := snd (getOrCreateSession createGraph chatId b1) in
  let l := memoryStore session in
  let initial := getMessages (stores b2 l) ++ [HumanMessage t] in
  graph session initial 60 = Thrown e ->
  let after := processUpdate createGraph chatId (Some t) b in
  effects after
  = effects b1
    ++ [OnStore l GetMessages; OnStore l (Invoke initial 60);
        SendMessage chatId ("❌ Error: " +:+ message e)] /\
  stores after = stores b2 /\
  sessions after !! chatId = Some session.
Proof.
  intros Ht b1 session b2 l initial Hthrown after.
  subst after initial l b2 session b1.
  rewrite (processUpdate_task createGraph chatId t b Ht).
  rewrite (dispatch_of_task createGraph chatId t b Ht) in *. cbn [fst] in *.
  set (b1 := onText createGraph chatId t (perform (SendChatAction chatId "typing") b)) in *.
  destruct (job_effects createGraph chatId t b1) as (rest & Hjob & _ & Hcase).
  rewrite Hthrown in Hcase. destruct Hcase as [-> Hstores].
  split; [exact Hjob|]. split; [exact Hstores|].
  rewrite job_sessions. apply getOrCreateSession_lookup.
Qed.

End ClearExtras.

Lemma clear_then_memory_reports_zero_witness :
  let graph := stepLoop answering [] in
  let r :=
    TelegramBotHandler.fireAll graph
      [TelegramBotHandler.Incoming 7 (Some "hello");
       TelegramBotHandler.Resume 0;
       TelegramBotHandler.Resume 0;
       TelegramBotHandler.Incoming 8 (Some "a job that is still running");
       TelegramBotHandler.Resume 0]
      TelegramBotHandler.idle in
  let mid :=
    [TelegramBotHandler.Incoming 7 (Some "and now?");
     TelegramBotHandler.Incoming 8 (Some "/help")] in
  let r1 := TelegramBotHandler.fire graph (TelegramBotHandler.Incoming 7 (Some "/reset")) r in
  let r2 := TelegramBotHandler.fireAll graph mid r1 in
  let r3 := TelegramBotHandler.fire graph (TelegramBotHandler.Incoming 7 (Some "/stats")) r2 in
  getMessages (TelegramBotHandler.stores (TelegramBotHandler.bot r) 0)
  = [HumanMessage "hello"; AIMessage "done"] /\
  noJobEnds graph mid r1 = true /\
  last (TelegramBotHandler.effects (TelegramBotHandler.bot r3))
  = Some (TelegramBotHandler.SendMessage 7 "Memory: 0 messages stored") /\
  TelegramBotHandler.pending r3 = TelegramBotHandler.pending r2.
Proof.
  intros graph r mid r1 r2 r3.
  assert (Hmid : noJobEnds graph mid r1 = true) by (vm_compute; reflexivity).
  split; [vm_compute; reflexivity|]. split; [exact Hmid|].
  destruct (clear_then_memory_reports_zero graph 7 "/reset" "/stats" mid r
              eq_refl eq_refl eq_refl eq_refl Hmid) as (Hlast & _ & _ & Hp & _).
  split; [exact Hlast|exact Hp].
Defined.

Lemma task_mentioning_clear_forgets_history_witness :
  let graph := stepLoop answering [] in
  let r :=
    TelegramBotHandler.fireAll graph
      [TelegramBotHandler.Incoming 7 (Some "hello");
       TelegramBotHandler.Resume 0;
       TelegramBotHandler.Resume 0]
      TelegramBotHandler.idle in
  let mid := [TelegramBotHandler.Incoming 8 (Some "/memory")] in
  let r1 :=
    TelegramBotHandler.fire graph
      (TelegramBotHandler.Incoming 7 (Some "please /clear my history")) r in
  let r2 := TelegramBotHandler.fireAll graph mid r1 in
  getMessages (TelegramBotHandler.stores (TelegramBotHandler.bot r) 0)
  = [HumanMessage "hello"; AIMessage "done"] /\
  noJobEnds graph mid r1 = true /\
  invokeInputs
    (TelegramBotHandler.effects
       (TelegramBotHandler.bot (TelegramBotHandler.fire graph (TelegramBotHandler.Resume 0) r2)))
  = invokeInputs (TelegramBotHandler.effects (TelegramBotHandler.bot r2))
    ++ [([HumanMessage "please /clear my history"], 60)].
Proof.
  intros graph r mid r1 r2.
  assert (Hmid : noJobEnds graph mid r1 = true) by (vm_compute; reflexivity).
  split; [vm_compute; reflexivity|]. split; [exact Hmid|].
  destruct (task_mentioning_clear_forgets_history graph 7 "please /clear my history" mid r
              eq_refl eq_refl Hmid) as (_ & _ & Hresume).
  apply (Hresume 0 "please /clear my history"). vm_compute. reflexivity.
Defined.

Lemma failed_job_reported_once_witness :
  let graph := stepLoop failingPlanner titleOnly in
  let after :=
    TelegramBotHandler.processUpdate graph 7 (Some "open example.com")
      TelegramBotHandler.initial in
  TelegramBotHandler.isTaskText "open example.com" = true /\
  graph [HumanMessage "open example.com"] 60 = Thrown (mkError "429 rate limit exceeded") /\
  getMessages (TelegramBotHandler.stores after 0) = [] /\
  TelegramBotHandler.memoryStore <$> TelegramBotHandler.sessions after !! 7%Z = Some 0.
Proof.
  intros graph after.
  assert (H : TelegramBotHandler.isTaskText "open example.com" = true) by reflexivity.
  assert (Hthrown : graph [HumanMessage "open example.com"] 60
                    = Thrown (mkError "429 rate limit exceeded")) by reflexivity.
  split; [exact H|]. split; [exact Hthrown|].
  destruct (failed_job_reported_once graph 7 "open example.com" TelegramBotHandler.initial
              (mkError "429 rate limit exceeded") H Hthrown) as (_ & Hst & Hse).
  fold after in Hst, Hse.
  split.
  - rewrite Hst. reflexivity.
  - rewrite Hse. reflexivity.
Defined.

(** ** Replies, the CLI and interleaved jobs *)

(** X6. Every message sent for a response has at most 4096 code units.  A
    response of at most 4096 code units is sent as it is, in one message.
    A longer one is sent chunk by chunk, in order: every chunk has between
    1 and 4000 code units, all but the last carry the continuation marker,
    and the chunks put end to end are the response without its line
    terminators, hence the response itself when it has none. *)
Theorem reply_splits_within_limit (chatId : Z) (response : string) :
  Forall (fun e => exists text,
            e = TelegramBotHandler.SendMessage chatId text /\
            String.length text <= 4096)
         (TelegramBotHandler.reply chatId response) /\
  if 4096 <? String.length response
  then
    let chunks := matchAll 4000 response in
    length (TelegramBotHandler.reply chatId response) = length chunks /\
    concatStrings chunks = withoutLineTerminators response /\
    (withoutLineTerminators response = response -> concatStrings chunks = response) /\
    forall i chunk, chunks !! i = Some chunk ->
      1 <= String.length chunk <= 4000 /\
      TelegramBotHandler.reply chatId response !! i
      = Some (TelegramBotHandler.SendMessage chatId
                (chunk +:+ (if i <? length chunks - 1
                            then TelegramBotHandler.continued else "")))
  else TelegramBotHandler.reply chatId response
       = [TelegramBotHandler.SendMessage chatId response].
Proof.
  assert (Hmark : String.length TelegramBotHandler.continued = 18) by reflexivity.
  pose proof (matchDots_bounds 4000 (String.length response) response) as Hb.
  rewrite Forall_lookup in Hb. fold (matchAll 4000 response) in Hb.
  unfold TelegramBotHandler.reply.
  destruct (4096 <? String.length response) eqn:Hlong.
  - split.
    + apply Forall_lookup. intros i e He. rewrite list_lookup_imap in He.
      destruct (matchAll 4000 response !! i) as [chunk|] eqn:Hchunk; [|discriminate].
      cbn in He. injection He as <-. eexists. split; [reflexivity|].
      specialize (Hb i chunk Hchunk). rewrite length_append.
      match goal with
      | |- context [String.length (if ?c then _ else _)] =>
          destruct c; [rewrite Hmark|change (String.length "") with 0]; lia
      end.
    + cbv zeta. split; [apply length_imap|].
      split; [apply matchAll_concat|].
      split; [intros H; rewrite matchAll_concat; exact H|].
      intros i chunk Hchunk. split; [exact (Hb i chunk Hchunk)|].
      rewrite list_lookup_imap, Hchunk. reflexivity.
  - apply Nat.ltb_ge in Hlong. split; [|reflexivity].
    constructor; [|constructor]. eexists. split; [reflexivity|exact Hlong].
Qed.

(** X7. In the CLI a task line makes exactly one call of the graph, with
    limit 60, on the stored turns followed by one human turn that holds the
    line without its leading and trailing white space; the console then
    shows the final block with the content of the last returned turn, or
    the job error with the message of what was thrown. *)
Theorem cli_task_submits_trimmed_line (graph : Graph) (line : string) (c : Cli) :
  isTask (trim line) = true ->
  let initial := getMessages (cliMemory c) ++ [HumanMessage (trim line)] in
  callInputs (cliCalls (onLine graph line c)) = callInputs (cliCalls c) ++ [(initial, 60)] /\
  console (onLine graph line c)
  = console c
    ++ match graph initial 60 with
       | Returned result =>
           [ConsoleLog (nl +:+ "=== FINAL ===");
            ConsoleLog (from_option content "" (last result));
            ConsoleLog ("=============" +:+ nl)]
       | Thrown e => [ConsoleError "Job error:" (message e)]
       end.
Proof.
  intros Htask initial. unfold isTask in Htask. unfold onLine.
  destruct (String.eqb (trim line) ""); [discriminate|].
  destruct (String.eqb (trim line) "/clear" || String.eqb (trim line) "/reset"); [discriminate|].
  destruct (String.eqb (trim line) "/memory" || String.eqb (trim line) "/stats"); [discriminate|].
  unfold runJob. fold initial.
  assert (Happ : forall log1 log2, callInputs (log1 ++ log2) = callInputs log1 ++ callInputs log2).
  { intros. unfold callInputs. rewrite map_app, concat_app. reflexivity. }
  destruct (graph initial 60) as [result|e].
  - destruct (0 <? length _); cbn [jobOutcome jobCalls cliCalls console];
      rewrite Happ; split; reflexivity.
  - cbn [jobOutcome jobCalls cliCalls console]. rewrite Happ. split; reflexivity.
Qed.

Lemma cli_task_submits_trimmed_line_witness :
  let graph := stepLoop answering [] in
  let c := mkCli (newMemoryStore 50) [] banner in
  isTask (trim "  hello there  ") = true /\
  callInputs (cliCalls (onLine graph "  hello there  " c))
  = [([HumanMessage "hello there"], 60)].
Proof.
  intros graph c.
  assert (H : isTask (trim "  hello there  ") = true) by reflexivity.
  split; [exact H|].
  exact (proj1 (cli_task_submits_trimmed_line graph "  hello there  " c H)).
Defined.

Section InterleavedExtras.

Import TelegramBotHandler.

Variable createGraph : Graph.

Hypothesis contract : returnsWholeSequence createGraph.

Lemma getOrCreateSession_holds chatId b :
  sessionsHold createGraph b ->
  sessionsHold createGraph (snd (getOrCreateSession createGraph chatId b)) /\
  graph (fst (getOrCreateSession createGraph chatId b)) = createGraph.
Proof.
  intros Hb. unfold getOrCreateSession.
  destruct (sessions b !! chatId) as [s|] eqn:Hs; cbn [fst snd].
  - split; [exact Hb|exact (Hb _ _ Hs)].
  - split; [|reflexivity]. intros id s. cbn [sessions]. rewrite lookup_insert.
    destruct (decide (chatId = id)); cbn.
    + intros [= <-]. reflexivity.
    + apply Hb.
Qed.

Lemma extends_holds chatId b b' :
  extends createGraph chatId b b' ->
  sessionsHold createGraph b -> sessionsHold createGraph b'.
Proof.
  intros [[Hs _]|[Hs _]] Hb; unfold sessionsHold; rewrite Hs; [exact Hb|].
  apply getOrCreateSession_holds. exact Hb.
Qed.

Lemma dispatch_quiet chatId text b :
  growsQuietly b (fst (dispatch createGraph chatId text b)).
Proof.
  unfold dispatch.
  assert (H : growsQuietly b (fst (onMessage chatId text b))).
  { unfold onMessage. destruct text as [t|]; [|apply perform_quiet; reflexivity].
    destruct (startsWith "/" t); [apply growsQuietly_refl|].
    destruct (String.length (trim t) =? 0); apply perform_quiet; reflexivity. }
  destruct (onMessage chatId text b) as [b1 task]. cbn [fst] in *.
  eapply growsQuietly_trans; [exact H|].
  destruct text as [t|]; cbn [from_option]; [apply onText_quiet|apply growsQuietly_refl].
Qed.

Lemma growsQuietly_batches b b' :
  growsQuietly b b' ->
  appendedBatches (effects b') = appendedBatches (effects b).
Proof.
  intros (es & -> & Hq). rewrite appendedBatches_app.
  destruct (quiet_silent es Hq) as [_ ->]. apply app_nil_r.
Qed.

(** One turn of the event loop keeps what the suspended listeners read
    consistent, and only ever appends batches that are a job's own. *)
Lemma fire_own_batches e r :
  Forall (taskReadTogether createGraph) (pending r) ->
  sessionsHold createGraph (bot r) ->
  Forall (ownBatch createGraph) (appendedBatches (effects (bot r))) ->
  Forall (taskReadTogether createGraph) (pending (fire createGraph e r)) /\
  sessionsHold createGraph (bot (fire createGraph e r)) /\
  Forall (ownBatch createGraph) (appendedBatches (effects (bot (fire createGraph e r)))).
Proof.
  intros Hp Hs Hb. destruct e as [chatId text|i]; cbn [fire].
  - pose proof (dispatch_quiet chatId text (bot r)) as Hq.
    pose proof (dispatch_extends createGraph chatId text (bot r)) as Hext.
    destruct (dispatch createGraph chatId text (bot r)) as [b1 task]. cbn [fst] in *.
    cbn [pending bot]. split; [|split].
    + apply Forall_app. split; [exact Hp|].
      destruct task; cbn; repeat constructor.
    + eapply extends_holds; eassumption.
    + rewrite (growsQuietly_batches _ _ Hq). exact Hb.
  - destruct (pending r !! i) as [[chatId text|chatId session n initial]|] eqn:Hi;
      [| |auto].
    + unfold beginJob.
      destruct (getOrCreateSession_holds chatId (bot r) Hs) as [Hs1 Hg].
      pose proof (getOrCreateSession_effects createGraph chatId (bot r)) as He.
      destruct (getOrCreateSession createGraph chatId (bot r)) as [session b1].
      cbn [fst snd] in *. cbn [pending bot]. split; [|split].
      * apply Forall_insert; [exact Hp|]. cbn. split; [exact Hg|].
        eexists _, _. split; reflexivity.
      * exact Hs1.
      * cbn [performAll effects]. rewrite appendedBatches_app, He.
        cbn. rewrite app_nil_r. exact Hb.
    + rewrite Forall_lookup in Hp. pose proof (Hp i _ Hi) as Hwf.
      cbn in Hwf. destruct Hwf as (Hg & stored & text & -> & ->).
      cbn [pending bot]. split; [|split].
      * apply Forall_delete. apply Forall_lookup. exact Hp.
      * unfold endJob. rewrite Hg.
        destruct (createGraph _ 60) as [result|e]; [|exact Hs].
        destruct (0 <? length _); exact Hs.
      * unfold endJob. rewrite Hg.
        destruct (createGraph (stored ++ [HumanMessage text]) 60) as [result|e] eqn:Hrun.
        -- destruct (contract _ _ _ Hrun) as [produced ->].
           rewrite <- app_assoc, drop_app_length. cbn [app length Nat.ltb Nat.leb].
           pose proof (reply_quiet chatId
                         (from_option content ""
                            (last (stored ++ HumanMessage text :: produced)))) as Hq.
           destruct (quiet_silent _ Hq) as [_ Ha].
           cbn [performAll perform setStore effects].
           rewrite !appendedBatches_app, Ha, app_nil_r. cbn.
           apply Forall_app. split; [exact Hb|].
           constructor; [|constructor].
           exists stored, text, produced. split; [|reflexivity].
           rewrite Hrun, <- app_assoc. reflexivity.
        -- cbn [perform effects]. rewrite appendedBatches_app. cbn.
           rewrite app_nil_r. exact Hb.
Qed.

(** X8. However the jobs of the chats interleave, every batch of turns
    appended to a store is exactly what one job added to its own input:
    its human turn followed by what the graph produced after it.  The count
    used for the slice was read together with the input, so no turn of the
    earlier history is appended again and none of the job is lost. *)
Theorem interleaved_jobs_append_own_turns (events : list Event) :
  Forall (ownBatch createGraph)
    (appendedBatches (effects (bot (fireAll createGraph events idle)))).
Proof.
  assert (Hinv : forall es r,
    Forall (taskReadTogether createGraph) (pending r) ->
    sessionsHold createGraph (bot r) ->
    Forall (ownBatch createGraph) (appendedBatches (effects (bot r))) ->
    Forall (ownBatch createGraph)
      (appendedBatches (effects (bot (fireAll createGraph es r))))).
  { induction es as [|e es IH]; intros r Hp Hs Hb; [exact Hb|].
    cbn. destruct (fire_own_batches e r Hp Hs Hb) as (Hp' & Hs' & Hb').
    apply IH; assumption. }
  apply Hinv.
  - constructor.
  - intros id s H. cbn in H. rewrite lookup_empty in H. discriminate.
  - constructor.
Qed.

End InterleavedExtras.

Lemma interleaved_jobs_append_own_turns_witness :
  let graph := stepLoop answering [] in
  let events :=
    [TelegramBotHandler.Incoming 7 (Some "first");
     TelegramBotHandler.Incoming 7 (Some "second");
     TelegramBotHandler.Resume 0;
     TelegramBotHandler.Resume 1;
     TelegramBotHandler.Resume 0;
     TelegramBotHandler.Resume 0] in
  returnsWholeSequence graph /\
  appendedBatches
    (TelegramBotHandler.effects
       (TelegramBotHandler.bot (TelegramBotHandler.fireAll graph events TelegramBotHandler.idle)))
  = [[HumanMessage "first"; AIMessage "done"]; [HumanMessage "second"; AIMessage "done"]] /\
  Forall (ownBatch graph)
    [[HumanMessage "first"; AIMessage "done"]; [HumanMessage "second"; AIMessage "done"]].
Proof.
  intros graph events.
  assert (H : returnsWholeSequence graph).
  { intros input limit result. apply stepLoop_extends. }
  split; [exact H|]. split; [reflexivity|].
  exact (interleaved_jobs_append_own_turns graph H events).
Defined.
(** ** More browser tools *)

Lemma takeString_length n s :
  String.length (takeString n s) = Nat.min n (String.length s).
Proof.
  revert s. induction n as [|n IH]; intros [|c s]; cbn; try reflexivity.
  rewrite IH. reflexivity.
Qed.

Lemma takeString_min n s :
  takeString (Nat.min n (String.length s)) s = takeString n s.
Proof.
  revert s. induction n as [|n IH]; intros [|c s]; cbn; try reflexivity.
  rewrite IH. reflexivity.
Qed.

Lemma takeString_prefix n s :
  takeString (String.length (takeString n s)) s = takeString n s.
Proof. rewrite takeString_length. apply takeString_min. Qed.

Lemma sliceTo_prefix n s :
  takeString (String.length (sliceTo n s)) s = sliceTo n s.
Proof. unfold sliceTo. destruct (n <? 0)%Z; apply takeString_prefix. Qed.

Lemma sliceTo_length n s :
  String.length (sliceTo n s) =
    if (n <? 0)%Z then String.length s - Z.to_nat (- n)
    else Nat.min (Z.to_nat n) (String.length s).
Proof.
  unfold sliceTo. destruct (Z.ltb_spec n 0); rewrite takeString_length; lia.
Qed.

Lemma allChars_append p s t :
  allChars p (s +:+ t) = allChars p s && allChars p t.
Proof.
  induction s as [|c s IH]; [reflexivity|].
  change (String c s +:+ t) with (String c (s +:+ t)).
  cbn [allChars]. rewrite IH. apply andb_assoc.
Qed.

Lemma encodeChar_encoded c : allChars isEncoded (encodeChar c) = true.
Proof. destruct c as [[] [] [] [] [] [] [] []]; reflexivity. Qed.

Lemma encodeURIComponent_encoded s :
  allChars isEncoded (encodeURIComponent s) = true.
Proof.
  induction s as [|c s IH]; cbn [encodeURIComponent]; [reflexivity|].
  rewrite allChars_append, encodeChar_encoded, IH. reflexivity.
Qed.

Lemma decode_encodeChar c rest :
  decodeURIComponent (encodeChar c +:+ rest)
  = option_map (String c) (decodeURIComponent rest).
Proof. destruct c as [[] [] [] [] [] [] [] []]; reflexivity. Qed.

(** Decoding an encoded text gives the text back. *)
Lemma decode_encodeURIComponent s :
  decodeURIComponent (encodeURIComponent s) = Some s.
Proof.
  induction s as [|c s IH]; [reflexivity|].
  cbn [encodeURIComponent]. rewrite decode_encodeChar, IH. reflexivity.
Qed.

Section MoreToolFacts.

Variable Browser : Type.
Variable Element : Type.
Variable Frame : Type.
Variable browserController : BrowserController Browser Element.
Variable page : @Page Browser Element Frame.

Ltac run_tool :=
  unfold mbind, page_bind, action_bind, mret, page_ret, action_ret, tryCatch.

(** X9. When the element is there, [browser_extract_text] returns a prefix
    of its trimmed text and announces the length of that prefix: at most
    5000 characters without [maxChars], at most [maxChars] characters for
    a [maxChars] that is not negative, and all but the last [-maxChars]
    characters for a negative one. *)
Theorem extract_text_clips selector maxChars el raw b b1 b2 b3 :
  ensure browserController b = (Returned tt, b1) ->
  query browserController selector b1 = (Returned (Some el), b2) ->
  innerText page el b2 = (Returned raw, b3) ->
  exists clipped,
    extractTextTool browserController page selector maxChars b =
      (Returned ("Extracted text (" +:+ pretty (String.length clipped) +:+
                 " chars) from " +:+ selector +:+ ":" +:+ nl +:+ clipped), b3) /\
    clipped = takeString (String.length clipped) (trim raw) /\
    String.length clipped =
      match maxChars with
      | None => Nat.min (Z.to_nat 5000) (String.length (trim raw))
      | Some n =>
          if (n <? 0)%Z then String.length (trim raw) - Z.to_nat (- n)
          else Nat.min (Z.to_nat n) (String.length (trim raw))
      end.
Proof.
  intros He Hq Hi.
  exists (sliceTo (default 5000%Z maxChars) (trim raw)).
  split; [|split].
  - unfold extractTextTool. run_tool. rewrite He, Hq, Hi.
    destruct maxChars; reflexivity.
  - symmetry. apply sliceTo_prefix.
  - rewrite sliceTo_length. destruct maxChars as [n|]; reflexivity.
Qed.

(** X10. [browser_extract_visible_text] returns a prefix of the trimmed
    text of the body, of at most [maxChars] characters, 8000 when
    [maxChars] is not given; a [maxChars] of zero or below gives the empty
    text, and a page without a body counts as an empty body. *)
Theorem visible_text_clips maxChars body b b1 b2 :
  ensure browserController b = (Returned tt, b1) ->
  bodyInnerText page b1 = (Returned body, b2) ->
  exists clipped,
    extractVisibleTextTool browserController page maxChars b =
      (Returned ("Visible text (" +:+ pretty (String.length clipped) +:+ " chars):"
                 +:+ nl +:+ clipped), b2) /\
    clipped = takeString (String.length clipped) (trim (default "" body)) /\
    String.length clipped =
      Nat.min (Z.to_nat (default 8000%Z maxChars))
              (String.length (trim (default "" body))).
Proof.
  intros He Hb.
  exists (substringTo (default 8000%Z maxChars) (trim (default "" body))).
  split; [|split].
  - unfold extractVisibleTextTool. run_tool. rewrite He, Hb. reflexivity.
  - symmetry. apply takeString_prefix.
  - apply takeString_length.
Qed.

(** X11. [browser_select_option] selects by value, with a timeout of
    10000 ms, whenever a value that is not empty is given, whatever the
    label; otherwise by label when a label that is not empty is given; what
    the selection throws, the tool throws.  With neither it returns an
    error text without touching the page. *)
Theorem select_option_prefers_value selector value label b b1 :
  ensure browserController b = (Returned tt, b1) ->
  selectOptionTool browserController page selector value label b
  = match nonEmpty value, nonEmpty label with
    | Some v, _ =>
        match selectOption page selector (ByValue v) 10000%N b1 with
        | (Returned _, b2) => (Returned ("Selected option in " +:+ selector +:+ "."), b2)
        | (Thrown e, b2) => (Thrown e, b2)
        end
    | None, Some l =>
        match selectOption page selector (ByLabel l) 10000%N b1 with
        | (Returned _, b2) => (Returned ("Selected option in " +:+ selector +:+ "."), b2)
        | (Thrown e, b2) => (Thrown e, b2)
        end
    | None, None =>
        (Returned "ERROR: Provide either value or label for the option to select.", b1)
    end.
Proof.
  intros He. unfold selectOptionTool. run_tool. rewrite He.
  destruct (nonEmpty value) as [v|].
  - destruct (selectOption page selector (ByValue v) 10000%N b1) as [[[]|e] b2];
      reflexivity.
  - destruct (nonEmpty label) as [l|]; [|reflexivity].
    destruct (selectOption page selector (ByLabel l) 10000%N b1) as [[[]|e] b2];
      reflexivity.
Qed.

(** X12. Without a selector, or with an empty one, [browser_wait] cannot
    fail once the page is there: it pauses for the given number of seconds,
    two when none is given and none at all for zero, and says so.  With a
    selector, zero seconds are not zero: the wait for the selector then has
    the same ten seconds as when no number is given. *)
Theorem wait_pauses_or_watches seconds selector b b1 :
  ensure browserController b = (Returned tt, b1) ->
  match nonEmpty selector with
  | None =>
      waitTool browserController page seconds selector b
      = (Returned ("Waited " +:+ pretty (default 2%N seconds) +:+ " second(s)."),
         pause page (default 2%N seconds * 1000)%N b1)
  | Some s =>
      waitTool browserController page (Some 0%N) selector b
      = waitTool browserController page None selector b /\
      forall b2,
        waitForSelector browserController s 10000%N b1 = (Returned tt, b2) ->
        waitTool browserController page (Some 0%N) selector b
        = (Returned ("Element " +:+ dq +:+ s +:+ dq +:+ " is now visible."), b2)
  end.
Proof.
  intros He. unfold waitTool. run_tool. rewrite He.
  destruct (nonEmpty selector) as [s|]; [|reflexivity].
  split; [reflexivity|].
  intros b2 Hw.
  change (orElseN (Some 0%N) 10 * 1000)%N with 10000%N. rewrite Hw. reflexivity.
Qed.

(** X13. [browser_search_google] opens the search address followed by the
    encoded query.  The encoding is made of unreserved characters and
    percent signs only, so that nothing in the query can end the parameter
    or add another one, and it loses nothing: decoding it gives the query
    back.  What the navigation or the title throws, the tool throws. *)
Theorem search_google_encodes_query (query : string) b b1 :
  ensure browserController b = (Returned tt, b1) ->
  let encoded := encodeURIComponent query in
  allChars isEncoded encoded = true /\
  decodeURIComponent encoded = Some query /\
  searchGoogleTool browserController query b =
    match goto browserController ("https://www.google.com/search?q=" +:+ encoded) b1 with
    | (Returned _, b2) =>
        match title browserController b2 with
        | (Returned title, b3) =>
            (Returned ("Opened Google search for " +:+ dq +:+ query +:+ dq +:+
                       ". Title: " +:+ title +:+
                       ". Use browser_check_popups, then browser_analyze_page or browser_extract_text to get results."),
             b3)
        | (Thrown e, b3) => (Thrown e, b3)
        end
    | (Thrown e, b2) => (Thrown e, b2)
    end.
Proof.
  intros He encoded. subst encoded.
  split; [apply encodeURIComponent_encoded|].
  split; [apply decode_encodeURIComponent|].
  unfold searchGoogleTool. run_tool. rewrite He.
  destruct (goto browserController _ b1) as [[[]|e] b2]; [|reflexivity].
  destruct (title browserController b2) as [[t|e] b3]; reflexivity.
Qed.

Lemma frame_in_range (frames : list Frame) (frameIndex : Z) :
  (frameIndex <? 0)%Z || (Z.of_nat (length frames) <=? frameIndex)%Z = false ->
  exists frame, frames !! Z.to_nat frameIndex = Some frame.
Proof.
  intros H. apply orb_false_iff in H as [H1 H2].
  apply Z.ltb_ge in H1. apply Z.leb_gt in H2.
  destruct (lookup_lt_is_Some_2 frames (Z.to_nat frameIndex)) as [frame Hf]; [lia|].
  eauto.
Qed.

(** X14. [browser_frame_click] clicks only in a frame that exists.  For an
    index below zero or not below the number of frames it returns an error
    text that names the index and the range, and leaves the page alone;
    for any other index the frame at that position is clicked, and what the
    click throws, the tool throws. *)
Theorem frame_click_checks_index (frameIndex : Z) selector b b1 :
  ensure browserController b = (Returned tt, b1) ->
  let count := length (frames page b1) in
  if (frameIndex <? 0)%Z || (Z.of_nat count <=? frameIndex)%Z
  then
    frameClickTool browserController page frameIndex selector b
    = (Returned ("ERROR: Invalid frame index " +:+ pretty frameIndex +:+ ". Page has " +:+
                 pretty count +:+ " frames (0 to " +:+ pretty (Z.of_nat count - 1)%Z +:+
                 "). Use browser_list_frames to see frames."), b1)
  else
    exists frame,
      frames page b1 !! Z.to_nat frameIndex = Some frame /\
      frameClickTool browserController page frameIndex selector b
      = match frameClick page frame selector 10000%N b1 with
        | (Returned _, b2) =>
            (Returned ("Clicked " +:+ selector +:+ " in frame " +:+ pretty frameIndex +:+ "."),
             b2)
        | (Thrown e, b2) => (Thrown e, b2)
        end.
Proof.
  intros He count. unfold frameClickTool. run_tool. rewrite He. unfold getFrames.
  fold count.
  destruct ((frameIndex <? 0)%Z || (Z.of_nat count <=? frameIndex)%Z) eqn:Hr;
    [reflexivity|].
  destruct (frame_in_range _ _ Hr) as [frame Hf].
  exists frame. split; [exact Hf|]. rewrite Hf.
  destruct (frameClick page frame selector 10000%N b1) as [[[]|e] b2]; reflexivity.
Qed.

(** X15. [browser_frame_extract_text] reads only from a frame that exists:
    an index out of range gives an error text and leaves the page alone.
    In a frame that exists, a selector without element gives a text that
    says so, and an element gives a prefix of at most 5000 characters of
    its trimmed text, with the length announced. *)
Theorem frame_extract_text_checks_index (frameIndex : Z) selector b b1 :
  ensure browserController b = (Returned tt, b1) ->
  let count := length (frames page b1) in
  if (frameIndex <? 0)%Z || (Z.of_nat count <=? frameIndex)%Z
  then
    frameExtractTextTool browserController page frameIndex selector b
    = (Returned ("ERROR: Invalid frame index " +:+ pretty frameIndex +:+ ". Page has " +:+
                 pretty count +:+ " frames. Use browser_list_frames to see frames."), b1)
  else
    exists frame,
      frames page b1 !! Z.to_nat frameIndex = Some frame /\
      (forall b2,
         frameQuery page frame selector b1 = (Returned None, b2) ->
         frameExtractTextTool browserController page frameIndex selector b
         = (Returned ("No element found in frame " +:+ pretty frameIndex +:+
                      " for selector: " +:+ selector), b2)) /\
      (forall el raw b2 b3,
         frameQuery page frame selector b1 = (Returned (Some el), b2) ->
         innerText page el b2 = (Returned raw, b3) ->
         exists clipped,
           frameExtractTextTool browserController page frameIndex selector b
           = (Returned ("Frame " +:+ pretty frameIndex +:+ " content (" +:+
                        pretty (String.length clipped) +:+ " chars):" +:+ nl +:+ clipped),
              b3) /\
           clipped = takeString (String.length clipped) (trim raw) /\
           String.length clipped = Nat.min (Z.to_nat 5000) (String.length (trim raw))).
Proof.
  intros He count. unfold frameExtractTextTool. run_tool. rewrite He. unfold getFrames.
  fold count.
  destruct ((frameIndex <? 0)%Z || (Z.of_nat count <=? frameIndex)%Z) eqn:Hr;
    [reflexivity|].
  destruct (frame_in_range _ _ Hr) as [frame Hf].
  exists frame. split; [exact Hf|]. rewrite Hf. split.
  - intros b2 Hq. rewrite Hq. reflexivity.
  - intros el raw b2 b3 Hq Hi. rewrite Hq, Hi.
    exists (substringTo 5000 (trim raw)). split; [reflexivity|]. split.
    + symmetry. apply takeString_prefix.
    + apply takeString_length.
Qed.

Lemma substringTo_length n s : String.length (substringTo n s) <= Z.to_nat n.
Proof. unfold substringTo. rewrite takeString_length. lia. Qed.

(** One round of the loop of [browser_extract_multiple] never throws: it
    either pushes the item of the element, or leaves the list as it was. *)
Lemma readItem_caught i el items b :
  exists new b',
    tryCatch (readItem page i el items) (fun _ => @mret _ (page_ret Browser) _ items) b
    = (Returned (items ++ new), b') /\
    length new <= 1 /\
    Forall (fun it => itemIndex it = i + 1 /\ String.length (itemText it) <= 500) new.
Proof.
  unfold readItem. run_tool.
  destruct (innerText page el b) as [[raw|e] b1];
    [|exists [], b1; rewrite app_nil_r; repeat split; [cbn; lia|constructor]].
  destruct (getAttribute page el "href" b1) as [[href|e] b2];
    [|exists [], b2; rewrite app_nil_r; repeat split; [cbn; lia|constructor]].
  destruct (tagNameOf page el b2) as [[tagName|e] b3];
    [|exists [], b3; rewrite app_nil_r; repeat split; [cbn; lia|constructor]].
  eexists [_], b3. split; [reflexivity|]. split; [cbn; lia|].
  constructor; [|constructor]. cbn [itemIndex itemText]. split; [reflexivity|].
  pose proof (substringTo_length 500 (trim raw)). lia.
Qed.

Lemma readItems_returns elements : forall i items b,
  exists new b',
    readItems page i elements items b = (Returned (items ++ new), b') /\
    length new <= length elements /\
    Forall (fun it => i < itemIndex it <= i + length elements /\
                      String.length (itemText it) <= 500) new.
Proof.
  induction elements as [|el rest IH]; intros i items b.
  - exists [], b. rewrite app_nil_r. repeat split; [cbn; lia|constructor].
  - cbn [readItems]. unfold mbind at 1, page_bind, action_bind.
    destruct (readItem_caught i el items b) as (new1 & b1 & -> & Hlen1 & Hall1).
    destruct (IH (S i) (items ++ new1) b1) as (new2 & b2 & -> & Hlen2 & Hall2).
    exists (new1 ++ new2), b2. rewrite app_assoc. split; [reflexivity|].
    split; [rewrite length_app; cbn [length]; lia|].
    apply Forall_app. split.
    + eapply Forall_impl; [exact Hall1|]. cbn [length]. intros it [-> Ht]. split; [lia|exact Ht].
    + eapply Forall_impl; [exact Hall2|]. cbn [length]. intros it [Hi Ht]. split; [lia|exact Ht].
Qed.

Lemma take_bound {A} (l : list A) (limit : Z) :
  take (Z.to_nat (Z.min (Z.of_nat (length l)) limit)) l = take (Z.to_nat limit) l.
Proof.
  destruct (Z.le_gt_cases limit (Z.of_nat (length l))) as [H|H].
  - rewrite Z.min_r by exact H. reflexivity.
  - rewrite Z.min_l by lia. rewrite Nat2Z.id. rewrite !take_ge by lia. reflexivity.
Qed.

(** On a page whose reads leave it as it is, the loop pushes the item of
    every element that can be read, in order, and nothing else. *)
Lemma readItems_pure :
  (forall el b, snd (innerText page el b) = b) ->
  (forall el b, snd (getAttribute page el "href" b) = b) ->
  (forall el b, snd (tagNameOf page el b) = b) ->
  forall elements i items b,
    readItems page i elements items b
    = (Returned (items ++ omap id (imap (fun j => readableItem page b (i + j)) elements)), b).
Proof.
  intros Hinner Hattr Htag.
  induction elements as [|el rest IH]; intros i items b.
  - cbn. rewrite app_nil_r. reflexivity.
  - cbn [readItems]. unfold mbind at 1, page_bind, action_bind.
    assert (Hround :
      tryCatch (readItem page i el items) (fun _ => @mret _ (page_ret Browser) _ items) b
      = (Returned (items ++ option_list (readableItem page b i el)), b)).
    { unfold readItem, readableItem. run_tool.
      pose proof (Hinner el b) as H1. pose proof (Hattr el b) as H2.
      pose proof (Htag el b) as H3.
      destruct (innerText page el b) as [[raw|e] b1]; cbn [fst snd] in *; subst b1;
        [|rewrite app_nil_r; reflexivity].
      destruct (getAttribute page el "href" b) as [[href|e] b2]; cbn [fst snd] in *;
        subst b2; [|rewrite app_nil_r; reflexivity].
      destruct (tagNameOf page el b) as [[tagName|e] b3]; cbn [fst snd] in *; subst b3;
        [|rewrite app_nil_r; reflexivity].
      reflexivity. }
    rewrite Hround, IH. rewrite <- app_assoc. f_equal. f_equal.
    cbn [imap omap list_omap]. replace (i + 0) with i by lia.
    rewrite (imap_ext (fun j => readableItem page b (S i + j))
                      ((fun j => readableItem page b (i + j)) ∘ S) rest)
      by (intros j x _; cbn; f_equal; lia).
    destruct (readableItem page b i el); reflexivity.
Qed.

(** X16. Once the page is there, [browser_extract_multiple] always returns a
    text, whatever the page throws.  On a page whose reads (inner text,
    attribute, tag name) leave it as it is, when the elements are found the
    text gives their number and lists exactly the items of the elements
    that can be read among the first ones up to the limit, ten when no
    limit or zero is given, in their order; an element that cannot be read
    is left out.  An item carries the position of its element, counted from
    one, the tag name in lower case, the first 500 characters of the
    trimmed inner text, and the link address if there is one. *)
Theorem extract_multiple_skips_unreadable selector maxItems b b1 :
  ensure browserController b = (Returned tt, b1) ->
  (exists text b',
     extractMultipleTool browserController page selector maxItems b = (Returned text, b')) /\
  ((forall el b, snd (innerText page el b) = b) ->
   (forall el b, snd (getAttribute page el "href" b) = b) ->
   (forall el b, snd (tagNameOf page el b) = b) ->
   forall elements b2,
     queryAll page selector b1 = (Returned elements, b2) ->
     let items :=
       omap id (imap (readableItem page b2)
                  (take (Z.to_nat (orElse maxItems 10)) elements)) in
     extractMultipleTool browserController page selector maxItems b
     = (Returned ("Found " +:+ pretty (length elements) +:+ " elements, extracted " +:+
                  pretty (length items) +:+ " items:" +:+ nl +:+
                  stringify (JArr (List.map jsonOfItem items))), b2)).
Proof.
  intros He. split.
  - unfold extractMultipleTool. run_tool. rewrite He.
    destruct (queryAll page selector b1) as [[elements|e] b2]; [|eauto].
    set (bound := Z.to_nat (Z.min (Z.of_nat (length elements)) (orElse maxItems 10))).
    destruct (readItems_returns (take bound elements) 0 [] b2)
      as (items & b3 & Hr & _).
    cbn [app] in Hr. rewrite Hr. eauto.
  - intros Hinner Hattr Htag elements b2 Hq items.
    unfold extractMultipleTool. run_tool. rewrite He, Hq.
    rewrite take_bound.
    rewrite (readItems_pure Hinner Hattr Htag
               (take (Z.to_nat (orElse maxItems 10)) elements) 0 [] b2).
    reflexivity.
Qed.

Lemma take_length_take {A} n (l : list A) :
  take n l = take (length (take n l)) l.
Proof.
  rewrite length_take. destruct (Nat.le_gt_cases n (length l)) as [H|H].
  - rewrite Nat.min_l by exact H. reflexivity.
  - rewrite Nat.min_r by lia. rewrite !take_ge by lia. reflexivity.
Qed.

Lemma sliceListTo_prefix {A} n (l : list A) :
  sliceListTo n l = take (length (sliceListTo n l)) l.
Proof. unfold sliceListTo. destruct (n <? 0)%Z; apply take_length_take. Qed.

Lemma sliceListTo_length {A} n (l : list A) :
  length (sliceListTo n l) =
    if (n <? 0)%Z then length l - Z.to_nat (- n) else Nat.min (Z.to_nat n) (length l).
Proof.
  unfold sliceListTo. destruct (Z.ltb_spec n 0); rewrite length_take; lia.
Qed.


(** X18. Once the page is there, [browser_click] always returns a text, and
    the text tells what happened: it announces a click only when the left
    click was made and succeeded; in every other case, a failed wait, a
    missing or hidden element or a failed click, it starts with ERROR. *)
Theorem click_tool_always_answers selector b b1 :
  ensure browserController b = (Returned tt, b1) ->
  exists text b',
    clickTool browserController selector b = (Returned text, b') /\
    ((text = "Successfully clicked: " +:+ selector /\
      exists b4, click browserController selector LeftButton 15000%N b4 = (Returned tt, b'))
     \/ startsWith "ERROR" text = true).
Proof.
  intros He. unfold clickTool, mbind, action_bind, mret, action_ret, tryCatch.
  rewrite He.
  destruct (waitForSelector browserController selector 10000%N b1) as [[[]|e] b2];
    [|eexists _, _; split; [reflexivity|right; reflexivity]].
  destruct (query browserController selector b2) as [[[element|]|e] b3];
    [|eexists _, _; split; [reflexivity|right; reflexivity]..].
  destruct (isVisible browserController element b3) as [[visible|e] b4];
    [|eexists _, _; split; [reflexivity|right; reflexivity]].
  destruct visible; cbn [negb];
    [|eexists _, _; split; [reflexivity|right; reflexivity]].
  destruct (click browserController selector LeftButton 15000%N b4) as [[[]|e] b5] eqn:Hc;
    [|eexists _, _; split; [reflexivity|right; reflexivity]].
  eexists _, _. split; [reflexivity|]. left. split; [reflexivity|]. eauto.
Qed.

End MoreToolFacts.

Lemma extract_text_clips_witness :
  exists clipped,
    extractTextTool readyController readyPage "p" (Some (-7)%Z) 0%N
    = (Returned ("Extracted text (" +:+ pretty (String.length clipped) +:+
                 " chars) from " +:+ "p" +:+ ":" +:+ nl +:+ clipped), 0%N) /\
    clipped = takeString (String.length clipped) (trim "  Hello, world  ") /\
    String.length clipped = String.length (trim "  Hello, world  ") - Z.to_nat (- (-7)).
Proof.
  exact (extract_text_clips N string nat readyController readyPage "p" (Some (-7)%Z)
           "  Hello, world  " "  Hello, world  " 0%N 0%N 0%N 0%N eq_refl eq_refl eq_refl).
Defined.

Lemma visible_text_clips_witness :
  exists clipped,
    extractVisibleTextTool readyController readyPage (Some 4%Z) 0%N
    = (Returned ("Visible text (" +:+ pretty (String.length clipped) +:+ " chars):"
                 +:+ nl +:+ clipped), 0%N) /\
    clipped = takeString (String.length clipped) (trim " body text ") /\
    String.length clipped = Nat.min (Z.to_nat 4) (String.length (trim " body text ")).
Proof.
  exact (visible_text_clips N string nat readyController readyPage (Some 4%Z)
           (Some " body text ") 0%N 0%N 0%N eq_refl eq_refl).
Defined.

Lemma select_option_prefers_value_witness :
  selectOptionTool loggingController loggingPage "#lang" (Some "de") (Some "German") []
  = (Returned "Selected option in #lang.", ["select #lang value=de"]).
Proof.
  exact (select_option_prefers_value (list string) string nat loggingController loggingPage
           "#lang" (Some "de") (Some "German") [] [] eq_refl).
Defined.

Lemma wait_pauses_or_watches_witness :
  waitTool readyController readyPage (Some 0%N) (Some "") 5%N
  = (Returned ("Waited " +:+ pretty 0%N +:+ " second(s)."), 5%N).
Proof.
  exact (wait_pauses_or_watches N string nat readyController readyPage
           (Some 0%N) (Some "") 5%N 5%N eq_refl).
Defined.

Lemma search_google_encodes_query_witness :
  allChars isEncoded (encodeURIComponent "a&b=c d") = true /\
  decodeURIComponent (encodeURIComponent "a&b=c d") = Some "a&b=c d" /\
  searchGoogleTool loggingController "a&b=c d" []
  = (Returned ("Opened Google search for " +:+ dq +:+ "a&b=c d" +:+ dq +:+
               ". Title: " +:+ "Example" +:+
               ". Use browser_check_popups, then browser_analyze_page or browser_extract_text to get results."),
     ["goto https://www.google.com/search?q=a%26b%3Dc%20d"]).
Proof.
  exact (search_google_encodes_query (list string) string loggingController "a&b=c d"
           [] [] eq_refl).
Defined.

Lemma frame_click_checks_index_witness :
  frameClickTool readyController readyPage 2 "a" 0%N
  = (Returned ("ERROR: Invalid frame index " +:+ pretty 2%Z +:+ ". Page has " +:+
               pretty 2 +:+ " frames (0 to " +:+ pretty 1%Z +:+
               "). Use browser_list_frames to see frames."), 0%N).
Proof.
  exact (frame_click_checks_index N string nat readyController readyPage 2 "a" 0%N 0%N
           eq_refl).
Defined.

Lemma frame_extract_text_checks_index_witness :
  frameExtractTextTool readyController readyPage (-1) "a" 0%N
  = (Returned ("ERROR: Invalid frame index " +:+ pretty (-1)%Z +:+ ". Page has " +:+
               pretty 2 +:+ " frames. Use browser_list_frames to see frames."), 0%N).
Proof.
  exact (frame_extract_text_checks_index N string nat readyController readyPage (-1) "a"
           0%N 0%N eq_refl).
Defined.

Lemma extract_multiple_skips_unreadable_witness :
  extractMultipleTool readyController readyPage "li" (Some 0%Z) 0%N
  = (Returned ("Found " +:+ pretty 3 +:+ " elements, extracted " +:+ pretty 2 +:+
               " items:" +:+ nl +:+
               stringify (JArr (List.map jsonOfItem
                                  [mkItem 1 "li" "one" None; mkItem 3 "li" "three" None]))),
     0%N).
Proof.
  exact (proj2 (extract_multiple_skips_unreadable N string nat readyController readyPage
                  "li" (Some 0%Z) 0%N 0%N eq_refl)
           (fun _ _ => eq_refl) (fun _ _ => eq_refl) (fun _ _ => eq_refl)
           ["one"; ""; "three"] 0%N eq_refl).
Defined.


Lemma click_tool_always_answers_witness :
  exists text b',
    clickTool readyController "p" 0%N = (Returned text, b') /\
    ((text = "Successfully clicked: " +:+ "p" /\
      exists b4, click readyController "p" LeftButton 15000%N b4 = (Returned tt, b'))
     \/ startsWith "ERROR" text = true).
Proof.
  exact (click_tool_always_answers N string readyController "p" 0%N 0%N eq_refl).
Defined.
